(** * Streamed message ingestion of the chat front end

    A shallow embedding of the conversation page (the page component with
    [handleSendMessage] and [handleModelChange]) and of the conversation
    API client (frontend/src/lib/api.ts: [createConversation],
    [updateConversationModel], [resetConversation], [sendMessageStream]).

    Conventions of the embedding.
    - A JavaScript string is the list of its UTF-16 code units.
    - An [async] function is a tree of atomic state updates, outward
      effects and suspension points; the answers of the outside world
      (clock, local storage, network) are arguments of the function.
    - React state is a record; [setX (prev => ..)] is an update applied to
      the state current when it runs, while the values a handler reads
      ([newMessage], [selectedModel], [isSending], ..) are those of the
      render it was created in and are passed as a snapshot.  A handler
      that answers a user event is created from the state committed
      before the event: React renders between two discrete events.
    - A suspended function is resumed only by the event it awaits; between
      a suspension and the resumption other handlers may run.  Awaiting
      the promise of one of the component's own async functions adds no
      suspension to those inside it.
    - [console.log] and [console.error] are not modelled. *)

From Stdlib.Strings Require Import String Ascii Byte.
From Stdlib Require Decimal DecimalString.
From Stdlib Require Import ZArith List Bool Lia.
Import ListNotations.
Open Scope Z_scope.

Set Implicit Arguments.

(* ===================================================================== *)
(** ** JavaScript values used by the code *)

Module JS.

Definition code_unit := Z.
Definition jsstring := list code_unit.

(** An ASCII literal of the source. *)
Definition lit (s : string) : jsstring :=
  map (fun a => Z.of_N (N_of_ascii a)) (list_ascii_of_string s).

Definition jsstring_eq_dec : forall a b : jsstring, {a = b} + {a <> b} :=
  list_eq_dec Z.eq_dec.

Definition jsstring_eqb (a b : jsstring) : bool :=
  if jsstring_eq_dec a b then true else false.

(** Truthiness of a string: [if (text)], [!newMessage.trim()]. *)
Definition truthy (s : jsstring) : bool :=
  match s with [] => false | _ :: _ => true end.

(** [Number.prototype.toString] on an integral number ([Date.now()],
    [response.status], [items.length]). *)
Definition number_toString (n : Z) : jsstring :=
  lit (DecimalString.NilZero.string_of_int (Z.to_int n)).

(** WhiteSpace and LineTerminator code units of ECMAScript, the ones
    [String.prototype.trim] strips. *)
Definition is_white_space (c : code_unit) : bool :=
  (c =? 9) || (c =? 10) || (c =? 11) || (c =? 12) || (c =? 13) || (c =? 32)
  || (c =? 160) || (c =? 5760) || ((8192 <=? c) && (c <=? 8202))
  || (c =? 8232) || (c =? 8233) || (c =? 8239) || (c =? 8287)
  || (c =? 12288) || (c =? 65279).

Fixpoint trim_start (s : jsstring) : jsstring :=
  match s with
  | c :: rest => if is_white_space c then trim_start rest else s
  | [] => []
  end.

Definition trim_end (s : jsstring) : jsstring := rev (trim_start (rev s)).

Definition trim (s : jsstring) : jsstring := trim_end (trim_start s).

(** [s.slice(0, n)] for a non-negative [n]. *)
Definition slice0 (n : nat) (s : jsstring) : jsstring := firstn n s.

(** A value that was thrown: an [Error] object with its message, or any
    other value ([err instanceof Error] is false). *)
Inductive thrown :=
| ErrorObj (message : jsstring)
| OtherValue.

(** [err instanceof Error ? err.message : fallback] *)
Definition message_or (fallback : jsstring) (e : thrown) : jsstring :=
  match e with ErrorObj m => m | OtherValue => fallback end.

(** An identifier of type [string | number]. *)
Inductive ident :=
| IdStr (s : jsstring)
| IdNum (n : Z).

(** [a === b] on identifiers: a string never equals a number. *)
Definition strict_eq (a b : ident) : bool :=
  match a, b with
  | IdStr s, IdStr t => jsstring_eqb s t
  | IdNum n, IdNum m => n =? m
  | _, _ => false
  end.

(** An identifier inside a template literal. *)
Definition ident_toString (i : ident) : jsstring :=
  match i with IdStr s => s | IdNum n => number_toString n end.

End JS.
Import JS.

(** The non-ASCII string literals of the source, as UTF-16 code units. *)
Module Text.

(* 未找到认证令牌，请先登录 *)
Definition no_token : jsstring :=
  [26410; 25214; 21040; 35748; 35777; 20196; 29260; 65292; 35831; 20808; 30331; 24405].
(* 更新模型失败:  *)
Definition update_model_failed_colon : jsstring :=
  [26356; 26032; 27169; 22411; 22833; 36133; 58; 32].
(* 重置对话失败:  *)
Definition reset_failed_colon : jsstring :=
  [37325; 32622; 23545; 35805; 22833; 36133; 58; 32].
(* 发送消息失败:  *)
Definition send_failed_colon : jsstring :=
  [21457; 36865; 28040; 24687; 22833; 36133; 58; 32].
(* 响应没有可读取的流 *)
Definition no_readable_stream : jsstring :=
  [21709; 24212; 27809; 26377; 21487; 35835; 21462; 30340; 27969].
(* 更新失败:  *)
Definition update_failed_colon : jsstring :=
  [26356; 26032; 22833; 36133; 58; 32].
(* 正在更新模型为:  *)
Definition updating_model_to : jsstring :=
  [27491; 22312; 26356; 26032; 27169; 22411; 20026; 58; 32].
(* 成功更新模型为  *)
Definition model_updated_to : jsstring :=
  [25104; 21151; 26356; 26032; 27169; 22411; 20026; 32].
(* 尝试使用备用方法更新模型... *)
Definition trying_fallback : jsstring :=
  [23581; 35797; 20351; 29992; 22791; 29992; 26041; 27861; 26356; 26032; 27169; 22411; 46; 46; 46].
(* 已使用备用方法更新模型，正在重置对话链... *)
Definition fallback_updated_resetting : jsstring :=
  [24050; 20351; 29992; 22791; 29992; 26041; 27861; 26356; 26032; 27169; 22411; 65292; 27491; 22312; 37325; 32622; 23545; 35805; 38142; 46; 46; 46].
(*  并重置对话链 *)
Definition and_chain_reset : jsstring :=
  [32; 24182; 37325; 32622; 23545; 35805; 38142].
(* 更新模型失败 *)
Definition update_model_failed : jsstring :=
  [26356; 26032; 27169; 22411; 22833; 36133].
(* 未知错误 *)
Definition unknown_error : jsstring :=
  [26410; 30693; 38169; 35823].
(* 流式响应完成 *)
Definition stream_complete : jsstring :=
  [27969; 24335; 21709; 24212; 23436; 25104].
(* 发送消息失败 *)
Definition send_failed : jsstring :=
  [21457; 36865; 28040; 24687; 22833; 36133].
(* 这是一个模拟的AI回复。在实际应用中，这将由后端API返回。 *)
Definition mock_reply : jsstring :=
  [36825; 26159; 19968; 20010; 27169; 25311; 30340; 65; 73; 22238; 22797; 12290; 22312; 23454; 38469; 24212; 29992; 20013; 65292; 36825; 23558; 30001; 21518; 31471; 65; 80; 73; 36820; 22238; 12290].
(* 正在连接后端获取消息列表:  *)
Definition connecting_messages : jsstring :=
  [27491; 22312; 36830; 25509; 21518; 31471; 33719; 21462; 28040; 24687; 21015; 34920; 58; 32].
(* 消息列表API响应状态码:  *)
Definition messages_status : jsstring :=
  [28040; 24687; 21015; 34920; 65; 80; 73; 21709; 24212; 29366; 24577; 30721; 58; 32].
(* 获取消息列表API错误:  *)
Definition messages_api_error : jsstring :=
  [33719; 21462; 28040; 24687; 21015; 34920; 65; 80; 73; 38169; 35823; 58; 32].
(* 成功获取  *)
Definition fetched_prefix : jsstring :=
  [25104; 21151; 33719; 21462; 32].
(*  条消息 *)
Definition fetched_suffix : jsstring :=
  [32; 26465; 28040; 24687].
(* 获取消息失败 *)
Definition fetch_messages_failed : jsstring :=
  [33719; 21462; 28040; 24687; 22833; 36133].

End Text.

(* ===================================================================== *)
(** ** The platform's [TextDecoder]

    api.ts creates [new TextDecoder()] and calls
    [decoder.decode(value, { stream: true })] on every chunk.  The class is
    part of the platform, not of the repository; it is modelled after the
    WHATWG Encoding Standard: the UTF-8 decoder with the replacement error
    mode ([fatal] is false) and byte-order-mark removal ([ignoreBOM] is
    false), which is what the argument-less constructor selects. *)

Module TextDecoder.

Definition byte_val (b : byte) : Z := Z.of_N (Byte.to_N b).

(** State of the standard's UTF-8 decoder. *)
Record utf8_state := {
  code_point : Z;
  bytes_seen : Z;
  bytes_needed : Z;
  lower_boundary : Z;
  upper_boundary : Z
}.

Definition utf8_initial : utf8_state :=
  {| code_point := 0; bytes_seen := 0; bytes_needed := 0;
     lower_boundary := 128; upper_boundary := 191 |}.

Definition replacement : Z := 65533.  (* U+FFFD *)
Definition byte_order_mark : Z := 65279.  (* U+FEFF *)

(** Handler step 3: a byte met when no sequence is in progress.  Returns
    the new state and the scalar values to emit (U+FFFD for an error). *)
Definition utf8_lead (b : Z) : utf8_state * list Z :=
  if b <=? 127 then (utf8_initial, [b])
  else if (194 <=? b) && (b <=? 223) then
    ({| code_point := Z.land b 31; bytes_seen := 0; bytes_needed := 1;
        lower_boundary := 128; upper_boundary := 191 |}, [])
  else if (224 <=? b) && (b <=? 239) then
    ({| code_point := Z.land b 15; bytes_seen := 0; bytes_needed := 2;
        lower_boundary := if b =? 224 then 160 else 128;
        upper_boundary := if b =? 237 then 159 else 191 |}, [])
  else if (240 <=? b) && (b <=? 244) then
    ({| code_point := Z.land b 7; bytes_seen := 0; bytes_needed := 3;
        lower_boundary := if b =? 240 then 144 else 128;
        upper_boundary := if b =? 244 then 143 else 191 |}, [])
  else (utf8_initial, [replacement]).

(** The handler on one byte.  A byte outside the expected range ends
    the sequence in progress with an error and is then processed again
    from the reset state (the standard restores it to the queue). *)
Definition utf8_handler (d : utf8_state) (b : Z) : utf8_state * list Z :=
  if bytes_needed d =? 0 then utf8_lead b
  else if negb ((lower_boundary d <=? b) && (b <=? upper_boundary d)) then
    let (d', out) := utf8_lead b in (d', replacement :: out)
  else
    let cp := Z.lor (Z.shiftl (code_point d) 6) (Z.land b 63) in
    let seen := bytes_seen d + 1 in
    if seen =? bytes_needed d then (utf8_initial, [cp])
    else ({| code_point := cp; bytes_seen := seen;
             bytes_needed := bytes_needed d;
             lower_boundary := 128; upper_boundary := 191 |}, []).

Fixpoint utf8_run (d : utf8_state) (bs : list byte) : utf8_state * list Z :=
  match bs with
  | [] => (d, [])
  | b :: rest =>
      let (d1, out1) := utf8_handler d (byte_val b) in
      let (d2, out2) := utf8_run d1 rest in
      (d2, out1 ++ out2)
  end.

(** The handler on end-of-queue: a sequence in progress is an error. *)
Definition utf8_end (d : utf8_state) : list Z :=
  if bytes_needed d =? 0 then [] else [replacement].

(** Serialising the decoded scalar values: the first one is dropped
    when it is the byte order mark. *)
Fixpoint serialize (bom_seen : bool) (out : list Z) : bool * list Z :=
  match out with
  | [] => (bom_seen, [])
  | item :: rest =>
      if bom_seen then (true, out)
      else if item =? byte_order_mark then serialize true rest
      else (true, out)
  end.

(** A scalar value as UTF-16 code units. *)
Definition utf16 (cp : Z) : jsstring :=
  if cp <? 65536 then [cp]
  else [55296 + Z.shiftr (cp - 65536) 10; 56320 + Z.land (cp - 65536) 1023].

Definition to_jsstring (out : list Z) : jsstring := flat_map utf16 out.

Record t := {
  decoder : utf8_state;
  bom_seen : bool;
  do_not_flush : bool
}.

(** [new TextDecoder()] *)
Definition create : t :=
  {| decoder := utf8_initial; bom_seen := false; do_not_flush := false |}.

(** [td.decode(input, { stream })]: the decoder after the call and the
    string returned. *)
Definition decode (td : t) (input : list byte) (stream : bool) : t * jsstring :=
  let d0 := if do_not_flush td then decoder td else utf8_initial in
  let bom0 := if do_not_flush td then bom_seen td else false in
  let (d1, out) := utf8_run d0 input in
  let out' := if stream then out else out ++ utf8_end d1 in
  let d2 := if stream then d1 else utf8_initial in
  let (bom1, out'') := serialize bom0 out' in
  ({| decoder := d2; bom_seen := bom1; do_not_flush := stream |},
   to_jsstring out'').

(** The decoder and the byte-order-mark flag a call resumes from. *)
Definition resumed (td : t) : utf8_state * bool :=
  if do_not_flush td then (decoder td, bom_seen td) else (utf8_initial, false).

(** A multi-byte sequence has begun and its last byte has not come. *)
Definition pending (td : t) : bool :=
  negb (bytes_needed (fst (resumed td)) =? 0).

(** [new TextDecoder().decode(input)]: the decoding of a whole byte
    sequence in one call. *)
Definition decode_whole (input : list byte) : jsstring :=
  snd (decode create input false).

(** The strings returned by successive [decode(chunk, { stream: true })]
    calls on one decoder. *)
Fixpoint decode_chunks (td : t) (chunks : list (list byte)) : list jsstring :=
  match chunks with
  | [] => []
  | c :: rest =>
      let (td', text) := decode td c true in
      text :: decode_chunks td' rest
  end.

(** The decoder state the successive calls end in. *)
Fixpoint after_chunks (td : t) (chunks : list (list byte)) : t :=
  match chunks with
  | [] => td
  | c :: rest => after_chunks (fst (decode td c true)) rest
  end.

End TextDecoder.

(* ===================================================================== *)
(** ** Well-formed UTF-8

    What the stream endpoint sends when all is well: the UTF-8 encoding of
    a text, a list of Unicode scalar values (Unicode Standard, table 3-6).
    It is not part of the client; it says which byte streams are
    well-formed. *)

Module Utf8.
Import TextDecoder.

(** A scalar value: a code point that is not a surrogate. *)
Definition scalar (cp : Z) : bool :=
  (0 <=? cp) && (cp <=? 1114111) && negb ((55296 <=? cp) && (cp <=? 57343)).

(** The byte of value [z], for [z] below 256. *)
Definition byte_of (z : Z) : byte :=
  match Byte.of_N (Z.to_N z) with Some b => b | None => x00 end.

(** The one to four bytes of a scalar value. *)
Definition encode (cp : Z) : list byte :=
  if cp <? 128 then [byte_of cp]
  else if cp <? 2048 then
    [byte_of (192 + cp / 64); byte_of (128 + cp mod 64)]
  else if cp <? 65536 then
    [byte_of (224 + cp / 4096); byte_of (128 + (cp / 64) mod 64);
     byte_of (128 + cp mod 64)]
  else
    [byte_of (240 + cp / 262144); byte_of (128 + (cp / 4096) mod 64);
     byte_of (128 + (cp / 64) mod 64); byte_of (128 + cp mod 64)].

(** The encoding of a text. *)
Definition encode_text (text : list Z) : list byte := flat_map encode text.

End Utf8.

(* ===================================================================== *)
(** ** Asynchronous computations *)

(** A request handed to [fetch]. [body] is the object given to
    [JSON.stringify], field by field, when there is one. *)
Record Request := {
  url : jsstring;
  method : jsstring;
  headers : list (jsstring * jsstring);
  body : option (list (jsstring * jsstring))
}.

(** What a computation does to the world outside the component state. *)
Inductive effect :=
| EFetch (r : Request)          (* fetch(url, init) *)
| ENavigate (path : jsstring)   (* router.push(path) *)
| EPreventDefault.              (* e.preventDefault() *)

Module Async.

(** A computation over a state [S] that ends with a value of [A] or with
    a thrown value.  [Await] marks the places where the function is
    suspended on input or output ([fetch], [response.json()],
    [reader.read()], a timer) and other handlers may run. *)
Inductive t (S A : Type) : Type :=
| Ret (a : A)
| Throw (e : thrown)
| Update (f : S -> S) (k : t S A)
| Perform (e : effect) (k : t S A)
| Await (k : t S A).

Arguments Ret {S A} a.
Arguments Throw {S A} e.
Arguments Update {S A} f k.
Arguments Perform {S A} e k.
Arguments Await {S A} k.

Fixpoint bind {S A B} (m : t S A) (f : A -> t S B) : t S B :=
  match m with
  | Ret a => f a
  | Throw e => Throw e
  | Update g k => Update g (bind k f)
  | Perform e k => Perform e (bind k f)
  | Await k => Await (bind k f)
  end.

(** [try { m } catch (e) { h e }] *)
Fixpoint try_catch {S A} (m : t S A) (h : thrown -> t S A) : t S A :=
  match m with
  | Ret a => Ret a
  | Throw e => h e
  | Update g k => Update g (try_catch k h)
  | Perform e k => Perform e (try_catch k h)
  | Await k => Await (try_catch k h)
  end.

(** [try { m } finally { fin }] *)
Fixpoint try_finally {S A} (m : t S A) (fin : t S unit) : t S A :=
  match m with
  | Ret a => bind fin (fun _ => Ret a)
  | Throw e => bind fin (fun _ => Throw e)
  | Update g k => Update g (try_finally k fin)
  | Perform e k => Perform e (try_finally k fin)
  | Await k => Await (try_finally k fin)
  end.

Definition update {S} (f : S -> S) : t S unit := Update f (Ret tt).
Definition perform {S} (e : effect) : t S unit := Perform e (Ret tt).
Definition await {S} : t S unit := Await (Ret tt).

(** The result of a finished computation. *)
Inductive outcome (A : Type) : Type :=
| Returned (a : A)
| Threw (e : thrown).
Arguments Returned {A} a.
Arguments Threw {A} e.

(** Running a computation to its end with nothing else interleaved:
    final state, effects in order, outcome. *)
Fixpoint run {S A} (m : t S A) (s : S) : S * list effect * outcome A :=
  match m with
  | Ret a => (s, [], Returned a)
  | Throw e => (s, [], Threw e)
  | Update f k => run k (f s)
  | Perform e k =>
      let '(s', es, r) := run k s in (s', e :: es, r)
  | Await k => run k s
  end.

(** Running a computation up to its next suspension point: the state
    reached, the effects performed, and what is left to run once the
    awaited event arrives. *)
Fixpoint turn {S A} (m : t S A) (s : S) : S * list effect * t S A :=
  match m with
  | Ret a => (s, [], Ret a)
  | Throw e => (s, [], Throw e)
  | Update f k => turn k (f s)
  | Perform e k =>
      let '(s', es, m') := turn k s in (s', e :: es, m')
  | Await k => (s, [], k)
  end.

Fixpoint turns {S A} (n : nat) (m : t S A) (s : S) : S * list effect * t S A :=
  match n with
  | O => (s, [], m)
  | Datatypes.S n' =>
      let '(s1, es1, m1) := turn m s in
      let '(s2, es2, m2) := turns n' m1 s1 in
      (s2, es1 ++ es2, m2)
  end.




(** A computation that uses no state, run on its own: the effects it
    performs and how it ends. *)
Definition attempt {A} (m : t unit A) : list effect * outcome A :=
  let '(_, es, r) := run m tt in (es, r).

(** A computation that only updates the state: it performs nothing,
    never throws, and its effect on the state is the function [g]. *)
Definition updates_by {S} (m : t S unit) (g : S -> S) : Prop :=
  forall s, run m s = (g s, [], Returned tt).

End Async.

Declare Scope async_scope.
Delimit Scope async_scope with async.
Notation "x <- m ;; k" := (Async.bind m (fun x => k))
  (at level 61, m at next level, right associativity) : async_scope.
Notation "m ;; k" := (Async.bind m (fun _ => k))
  (at level 61, right associativity) : async_scope.
Open Scope async_scope.

(* ===================================================================== *)
(** ** The network as seen by the client *)

(** What [await reader.read()] yields, call after call: the chunks, then
    the end of the stream or a failure of the read. *)
Inductive stream_end :=
| EndOfStream
| ReadFails (e : thrown).

Record Reader := {
  chunks : list (list byte);
  ending : stream_end
}.

(** What [await response.json()] yields. *)
Inductive parsed (J : Type) : Type :=
| Parsed (v : J)
| ParseFails (e : thrown).
Arguments Parsed {J} v.
Arguments ParseFails {J} e.

(** A response, with the content [B] the caller goes on to read. *)
Record Response (B : Type) := {
  ok : bool;
  status : Z;
  content_of : B
}.

(** What [await fetch(..)] yields. *)
Inductive fetch_result (B : Type) : Type :=
| Resolved (r : Response B)
| Rejected (e : thrown).
Arguments Resolved {B} r.
Arguments Rejected {B} e.

Definition fetch {S B} (req : Request) (net : fetch_result B)
  : Async.t S (Response B) :=
  Async.Perform (EFetch req)
    (Async.Await
       match net with
       | Resolved r => Async.Ret r
       | Rejected e => Async.Throw e
       end).

(** [await response.json()] *)
Definition json {S J} (r : Response (parsed J)) : Async.t S J :=
  Async.Await
    match content_of r with
    | Parsed v => Async.Ret v
    | ParseFails e => Async.Throw e
    end.

(* ===================================================================== *)
(** ** Data model (the interfaces of the conversation page) *)

Inductive Role := user | assistant.

Module Message.
Record t := {
  id : ident;
  role : Role;
  content : jsstring;
  created_at : jsstring;
  conversation_id : ident
}.
End Message.

Module Conversation.
Record t := {
  id : ident;
  title : jsstring;
  model : jsstring;
  created_at : jsstring;
  updated_at : option jsstring;
  user_id : ident;
  meta_data : option jsstring
}.
End Conversation.

Record MessagePagination := {
  total : Z;
  items : list Message.t;
  page : Z;
  size : Z
}.

(* ===================================================================== *)
(** ** frontend/src/lib/api.ts *)

Module conversationAPI.
Import Async.

Definition getApiBaseUrl : jsstring := lit "http://localhost:8000".

Definition json_headers (token : jsstring) : list (jsstring * jsstring) :=
  [(lit "Content-Type", lit "application/json");
   (lit "Authorization", lit "Bearer " ++ token)].

(** [const token = localStorage.getItem('auth_token');
     if (!token) throw new Error(..)] *)
Definition with_token {S A} (stored : option jsstring)
    (k : jsstring -> Async.t S A) : Async.t S A :=
  match stored with
  | Some token =>
      if truthy token then k token else Throw (ErrorObj Text.no_token)
  | None => Throw (ErrorObj Text.no_token)
  end.

(** The request of [createConversation]. *)
Definition create_request (token content model : jsstring) : Request :=
  {| url := getApiBaseUrl ++ lit "/api/v1/conversations";
     method := lit "POST";
     headers := json_headers token;
     body := Some [(lit "title", slice0 50 content);
                   (lit "model", model)] |}.

Definition createConversation {S} (stored : option jsstring)
    (content model : jsstring)
    (net : fetch_result (parsed Conversation.t))
  : Async.t S (Response (parsed Conversation.t)) :=
  with_token stored (fun token =>
    response <- fetch (create_request token content model) net ;;
    Ret response).

Definition updateConversationModel {S} (stored : option jsstring)
    (conversationId : ident) (modelId : jsstring)
    (net : fetch_result (parsed Conversation.t))
  : Async.t S Conversation.t :=
  with_token stored (fun token =>
    response <- fetch
      {| url := getApiBaseUrl ++ lit "/api/v1/conversations/"
                  ++ ident_toString conversationId ++ lit "/model";
         method := lit "PUT";
         headers := json_headers token;
         body := Some [(lit "model_id", modelId)] |} net ;;
    if negb (ok response) then
      Throw (ErrorObj (Text.update_model_failed_colon
                         ++ number_toString (status response)))
    else json response).

Definition resetConversation {S} (stored : option jsstring)
    (conversationId : ident) (net : fetch_result (parsed unit))
  : Async.t S unit :=
  with_token stored (fun token =>
    response <- fetch
      {| url := getApiBaseUrl ++ lit "/api/v1/conversations/"
                  ++ ident_toString conversationId ++ lit "/reset";
         method := lit "POST";
         headers := json_headers token;
         body := None |} net ;;
    if negb (ok response) then
      Throw (ErrorObj (Text.reset_failed_colon
                         ++ number_toString (status response)))
    else json response).

(** The [while (true)] loop of [sendMessageStream], over the reads the
    reader will answer with. *)
Fixpoint read_loop {S} (decoder : TextDecoder.t)
    (values : list (list byte)) (last : stream_end)
    (onMessage : jsstring -> Async.t S unit) (onDone : Async.t S unit)
  : Async.t S unit :=
  match values with
  | [] =>
      Await
        match last with
        | EndOfStream => onDone ;; Ret tt      (* done: onDone(); break *)
        | ReadFails e => Throw e
        end
  | value :: rest =>
      Await
        (let (decoder', text) := TextDecoder.decode decoder value true in
         (if truthy text then onMessage text else Ret tt) ;;
         read_loop decoder' rest last onMessage onDone)
  end.

(** The request of [sendMessageStream]. *)
Definition stream_request (token : jsstring) (conversationId : ident)
    (content : jsstring) : Request :=
  {| url := getApiBaseUrl ++ lit "/api/v1/conversations/"
              ++ ident_toString conversationId ++ lit "/stream";
     method := lit "POST";
     headers := json_headers token;
     body := Some [(lit "content", content)] |}.

Definition sendMessageStream {S} (stored : option jsstring)
    (conversationId : ident) (content : jsstring)
    (net : fetch_result (option Reader))
    (onMessage : jsstring -> Async.t S unit) (onDone : Async.t S unit)
  : Async.t S unit :=
  with_token stored (fun token =>
    try_catch
      (response <- fetch (stream_request token conversationId content) net ;;
       if negb (ok response) then
         Throw (ErrorObj (Text.send_failed_colon
                            ++ number_toString (status response)))
       else
         match content_of response with
         | None => Throw (ErrorObj Text.no_readable_stream)
         | Some reader =>
             read_loop TextDecoder.create (chunks reader) (ending reader)
               onMessage onDone
         end)
      (fun error => Throw error)).

End conversationAPI.

(* ===================================================================== *)
(** ** The conversation page *)

Module ConversationPage.
Import Async.

(** The state of the component that the two handlers read or write,
    with the route parameter [conversationId], which no handler
    changes. *)
Record PageState := {
  conversationId : jsstring;
  conversation : option Conversation.t;
  messages : list Message.t;
  isLoading : bool;
  error : option jsstring;
  debugInfo : option jsstring;
  newMessage : jsstring;
  isSending : bool;
  usingMock : bool;
  selectedModel : jsstring
}.

(** The state with one field replaced. *)
Definition with_messages (f : list Message.t -> list Message.t)
    (s : PageState) : PageState :=
    {| conversationId := conversationId s;
       conversation := conversation s; messages := f (messages s);
       isLoading := isLoading s; error := error s;
       debugInfo := debugInfo s; newMessage := newMessage s;
       isSending := isSending s; usingMock := usingMock s;
       selectedModel := selectedModel s |}.

Definition with_conversation (v : option Conversation.t) (s : PageState) : PageState :=
    {| conversationId := conversationId s; conversation := v;
       messages := messages s; isLoading := isLoading s;
       error := error s; debugInfo := debugInfo s;
       newMessage := newMessage s; isSending := isSending s;
       usingMock := usingMock s; selectedModel := selectedModel s |}.

Definition with_isLoading (v : bool) (s : PageState) : PageState :=
    {| conversationId := conversationId s;
       conversation := conversation s; messages := messages s;
       isLoading := v; error := error s; debugInfo := debugInfo s;
       newMessage := newMessage s; isSending := isSending s;
       usingMock := usingMock s; selectedModel := selectedModel s |}.

Definition with_error (v : option jsstring) (s : PageState) : PageState :=
    {| conversationId := conversationId s;
       conversation := conversation s; messages := messages s;
       isLoading := isLoading s; error := v; debugInfo := debugInfo s;
       newMessage := newMessage s; isSending := isSending s;
       usingMock := usingMock s; selectedModel := selectedModel s |}.

Definition with_debugInfo (v : jsstring) (s : PageState) : PageState :=
    {| conversationId := conversationId s;
       conversation := conversation s; messages := messages s;
       isLoading := isLoading s; error := error s; debugInfo := Some v;
       newMessage := newMessage s; isSending := isSending s;
       usingMock := usingMock s; selectedModel := selectedModel s |}.

Definition with_newMessage (v : jsstring) (s : PageState) : PageState :=
    {| conversationId := conversationId s;
       conversation := conversation s; messages := messages s;
       isLoading := isLoading s; error := error s;
       debugInfo := debugInfo s; newMessage := v;
       isSending := isSending s; usingMock := usingMock s;
       selectedModel := selectedModel s |}.

Definition with_isSending (v : bool) (s : PageState) : PageState :=
    {| conversationId := conversationId s;
       conversation := conversation s; messages := messages s;
       isLoading := isLoading s; error := error s;
       debugInfo := debugInfo s; newMessage := newMessage s;
       isSending := v; usingMock := usingMock s;
       selectedModel := selectedModel s |}.

Definition with_selectedModel (v : jsstring) (s : PageState) : PageState :=
    {| conversationId := conversationId s;
       conversation := conversation s; messages := messages s;
       isLoading := isLoading s; error := error s;
       debugInfo := debugInfo s; newMessage := newMessage s;
       isSending := isSending s; usingMock := usingMock s;
       selectedModel := v |}.

(** [setMessages(prev => f prev)] *)
Definition setMessages (f : list Message.t -> list Message.t)
  : Async.t PageState unit := update (with_messages f).

Definition setConversation (v : option Conversation.t) : Async.t PageState unit :=
  update (with_conversation v).

Definition setIsLoading (v : bool) : Async.t PageState unit :=
  update (with_isLoading v).

Definition setError (v : option jsstring) : Async.t PageState unit :=
  update (with_error v).

Definition setDebugInfo (v : jsstring) : Async.t PageState unit :=
  update (with_debugInfo v).

Definition setNewMessage (v : jsstring) : Async.t PageState unit :=
  update (with_newMessage v).

Definition setIsSending (v : bool) : Async.t PageState unit :=
  update (with_isSending v).

Definition setSelectedModel (v : jsstring) : Async.t PageState unit :=
  update (with_selectedModel v).

Definition messages_url (conversationId : jsstring) : jsstring :=
  lit "http://localhost:8000/api/v1/conversations" ++ lit "/"
    ++ conversationId ++ lit "/messages".

(** [fetchMessages]: it catches everything it throws. *)
Definition fetchMessages (snap : PageState) (stored : option jsstring)
    (net : fetch_result (parsed MessagePagination))
  : Async.t PageState unit :=
  try_finally
    (try_catch
       (conversationAPI.with_token stored (fun token =>
          setDebugInfo (Text.connecting_messages
                          ++ messages_url (conversationId snap)
                          ++ lit "...") ;;
          msgResponse <- fetch
            {| url := messages_url (conversationId snap);
               method := lit "GET";
               headers := conversationAPI.json_headers token;
               body := None |} net ;;
          setDebugInfo (Text.messages_status
                          ++ number_toString (status msgResponse)) ;;
          if negb (ok msgResponse) then
            Throw (ErrorObj (Text.messages_api_error
                               ++ number_toString (status msgResponse)))
          else
            messageData <- json msgResponse ;;
            setMessages (fun _ => items messageData) ;;
            setDebugInfo (Text.fetched_prefix
                            ++ number_toString
                                 (Z.of_nat (length (items messageData)))
                            ++ Text.fetched_suffix)))
       (fun err =>
          setError (Some (message_or Text.fetch_messages_failed err))))
    (setIsLoading false).

(** The answers of the outside world during one [handleModelChange]. *)
Record SwitchWorld := {
  switch_token : option jsstring;                     (* localStorage *)
  primary : fetch_result (parsed Conversation.t);     (* PUT ../{id}/model *)
  fallback : fetch_result (parsed Conversation.t);    (* PUT ../{id} *)
  reset : fetch_result (parsed unit);                 (* POST ../{id}/reset *)
  reload : fetch_result (parsed MessagePagination)    (* GET ../{id}/messages *)
}.

(** [`Bearer ${localStorage.getItem('auth_token')}`] *)
Definition bearer_of_storage (stored : option jsstring) : jsstring :=
  lit "Bearer " ++ match stored with Some t => t | None => lit "null" end.

(** The update through the general endpoint that [handleModelChange]
    falls back to, written in line there: the [fetch] with [PUT], the
    check of [response.ok] and [await response.json()]. *)
Definition fallbackUpdate {S} (stored : option jsstring)
    (conversationId modelId : jsstring)
    (net : fetch_result (parsed Conversation.t))
  : Async.t S Conversation.t :=
  response <- fetch
    {| url := conversationAPI.getApiBaseUrl
                ++ lit "/api/v1/conversations/" ++ conversationId;
       method := lit "PUT";
       headers :=
         [(lit "Content-Type", lit "application/json");
          (lit "Authorization", bearer_of_storage stored)];
       body := Some [(lit "model", modelId)] |} net ;;
  if negb (ok response) then
    Throw (ErrorObj (Text.update_failed_colon
                       ++ number_toString (status response)))
  else json response.

Definition handleModelChange (w : SwitchWorld) (snap : PageState)
    (modelId : jsstring) : Async.t PageState unit :=
  setSelectedModel modelId ;;
  if negb (jsstring_eqb (conversationId snap) (lit "new")) then
    try_catch
      (setDebugInfo (Text.updating_model_to ++ modelId ++ lit "...") ;;
       setError None ;;
       try_catch
         (updatedConversation <-
            conversationAPI.updateConversationModel (switch_token w)
              (IdStr (conversationId snap)) modelId (primary w) ;;
          setConversation (Some updatedConversation) ;;
          setDebugInfo (Text.model_updated_to ++ modelId) ;;
          fetchMessages snap (switch_token w) (reload w))
         (fun modelError =>
            try_catch
              (setDebugInfo Text.trying_fallback ;;
               updatedConversation <-
                 fallbackUpdate (switch_token w) (conversationId snap)
                   modelId (fallback w) ;;
               setConversation (Some updatedConversation) ;;
               setDebugInfo Text.fallback_updated_resetting ;;
               conversationAPI.resetConversation (switch_token w)
                 (IdStr (conversationId snap)) (reset w) ;;
               setDebugInfo (Text.model_updated_to ++ modelId
                               ++ Text.and_chain_reset) ;;
               fetchMessages snap (switch_token w) (reload w))
              (fun fallbackError => Throw modelError)))
      (fun error =>
         setError (Some (message_or Text.update_model_failed error)) ;;
         setDebugInfo (Text.update_model_failed_colon
                         ++ message_or Text.unknown_error error))
  else Ret tt.

(** The state [handleModelChange] is in when it turns to the fallback. *)
Definition before_fallback (modelId : jsstring) (s : PageState) : PageState :=
  with_debugInfo Text.trying_fallback
    (with_error None
       (with_debugInfo (Text.updating_model_to ++ modelId ++ lit "...")
          (with_selectedModel modelId s))).

(** The state after the outer catch branch of [handleModelChange]
    reported the thrown value [e]. *)
Definition reported (e : thrown) (st : PageState) : PageState :=
  with_debugInfo
    (Text.update_model_failed_colon ++ message_or Text.unknown_error e)
    (with_error (Some (message_or Text.update_model_failed e)) st).


(** The answers of the outside world during one [handleSendMessage]. *)
Record SendWorld := {
  tempId_now : Z;                  (* Date.now() of tempId *)
  user_created_at : jsstring;      (* new Date().toISOString() *)
  mock_now : Z;                    (* Date.now() in the timer callback *)
  mock_created_at : jsstring;
  assistant_now : Z;               (* Date.now() of tempAssistantId *)
  assistant_created_at : jsstring;
  send_token : option jsstring;    (* localStorage *)
  create : fetch_result (parsed Conversation.t);  (* POST /conversations *)
  stream : fetch_result (option Reader)           (* POST ../{id}/stream *)
}.

(** The update that the chunk callback hands to [setMessages]:
    [prev.map(msg => msg.id === tempAssistantId
                     ? { ...msg, content: msg.content + content } : msg)] *)
Definition appendContent (tempAssistantId : ident) (content : jsstring)
    (prev : list Message.t) : list Message.t :=
  map (fun msg =>
         if strict_eq (Message.id msg) tempAssistantId then
           {| Message.id := Message.id msg;
              Message.role := Message.role msg;
              Message.content := Message.content msg ++ content;
              Message.created_at := Message.created_at msg;
              Message.conversation_id := Message.conversation_id msg |}
         else msg) prev.

(** The update of the catch branch:
    [prev.filter(msg => msg.id !== tempId)] *)
Definition removeMessage (tempId : ident) (prev : list Message.t)
  : list Message.t :=
  filter (fun msg => negb (strict_eq (Message.id msg) tempId)) prev.

Definition userMessage_of (w : SendWorld) (snap : PageState) : Message.t :=
  {| Message.id := IdStr (number_toString (tempId_now w));
     Message.role := user;
     Message.content := newMessage snap;
     Message.created_at := user_created_at w;
     Message.conversation_id := IdStr (conversationId snap) |}.

Definition tempAssistantId_of (w : SendWorld) : ident :=
  IdStr (lit "assistant-" ++ number_toString (assistant_now w)).

Definition tempAssistantMessage_of (w : SendWorld) (snap : PageState)
  : Message.t :=
  {| Message.id := tempAssistantId_of w;
     Message.role := assistant;
     Message.content := [];
     Message.created_at := assistant_created_at w;
     Message.conversation_id := IdStr (conversationId snap) |}.

Definition mockAssistantMessage_of (w : SendWorld) (snap : PageState)
  : Message.t :=
  {| Message.id := IdStr (number_toString (mock_now w + 1));
     Message.role := assistant;
     Message.content := Text.mock_reply;
     Message.created_at := mock_created_at w;
     Message.conversation_id := IdStr (conversationId snap) |}.

Definition handleSendMessage (w : SendWorld) (snap : PageState)
  : Async.t PageState unit :=
  perform EPreventDefault ;;
  if negb (truthy (trim (newMessage snap)))
     || negb (truthy (selectedModel snap))
     || isSending snap
  then Ret tt
  else
    let tempId := Message.id (userMessage_of w snap) in
    setMessages (fun prev => prev ++ [userMessage_of w snap]) ;;
    setNewMessage [] ;;
    setIsSending true ;;
    if usingMock snap then
      (* setTimeout(() => { .. }, 2000); return *)
      await ;;
      setMessages (fun prev => prev ++ [mockAssistantMessage_of w snap]) ;;
      setIsSending false
    else
      try_finally
        (try_catch
           (if jsstring_eqb (conversationId snap) (lit "new") then
              response <- conversationAPI.createConversation (send_token w)
                            (newMessage snap) (selectedModel snap)
                            (create w) ;;
              newConversation <- json response ;;
              perform (ENavigate
                         (lit "/conversations/"
                            ++ ident_toString
                                 (Conversation.id newConversation)))
            else
              setMessages
                (fun prev => prev ++ [tempAssistantMessage_of w snap]) ;;
              conversationAPI.sendMessageStream (send_token w)
                (IdStr (conversationId snap)) (newMessage snap) (stream w)
                (fun content =>
                   setMessages (appendContent (tempAssistantId_of w) content))
                (setIsSending false ;;
                 setDebugInfo Text.stream_complete))
           (fun err =>
              setDebugInfo (Text.send_failed_colon
                              ++ message_or Text.unknown_error err) ;;
              setError (Some (message_or Text.send_failed err)) ;;
              setMessages (removeMessage tempId)))
        (setIsSending false).

End ConversationPage.

(* ===================================================================== *)
(** ** Observing the callbacks of [sendMessageStream] *)

Module Observe.
Import Async.

Inductive callback :=
| OnMessage (text : jsstring)
| OnDone.

(** Callbacks that only write themselves down, in call order. *)
Definition log_onMessage (text : jsstring) : Async.t (list callback) unit :=
  update (fun calls => calls ++ [OnMessage text]).

Definition log_onDone : Async.t (list callback) unit :=
  update (fun calls => calls ++ [OnDone]).

(** One whole [sendMessageStream] with logging callbacks: the calls made,
    the requests sent, and how the operation ended. *)
Definition observe (stored : option jsstring) (conversationId : ident)
    (content : jsstring) (net : fetch_result (option Reader))
  : list callback * list effect * outcome unit :=
  run (conversationAPI.sendMessageStream stored conversationId content net
         log_onMessage log_onDone) [].

Definition calls_of (o : list callback * list effect * outcome unit)
  : list callback := fst (fst o).

(** The state after callbacks acting by [on_message] were handed the
    texts [texts] one after the other. *)
Definition delivered {S} (on_message : jsstring -> S -> S)
    (texts : list jsstring) (s : S) : S :=
  fold_left (fun st text => on_message text st) texts s.

(** What callbacks acting by [on_message] and [on_done] make of a state
    when they are called as [calls] says. *)
Definition replay {S} (on_message : jsstring -> S -> S) (on_done : S -> S)
    (calls : list callback) (s : S) : S :=
  fold_left
    (fun st c =>
       match c with
       | OnMessage text => on_message text st
       | OnDone => on_done st
       end) calls s.

(** The text handed to [onMessage], call after call, joined. *)
Definition emitted_text (calls : list callback) : jsstring :=
  flat_map (fun c => match c with OnMessage t => t | OnDone => [] end) calls.

(** A response of the stream endpoint that is accepted and readable. *)
Definition streaming_response (code : Z) (reader : Reader)
  : fetch_result (option Reader) :=
  Resolved {| ok := true; status := code; content_of := Some reader |}.

End Observe.

(* ===================================================================== *)
(** ** Two submits from one render *)

Module Renders.
Import Async ConversationPage.


End Renders.

(* ===================================================================== *)
(** ** Sample inputs *)

(** "Hi " and "there!" with an empty read in between. *)
Definition two_chunks_of_hi_there : Reader :=
  {| chunks := [[x48; x69; x20]; []; [x74; x68; x65; x72; x65; x21]];
     ending := EndOfStream |}.

(** The three bytes of U+4F60 cut after the first one. *)
Definition split_character : Reader :=
  {| chunks := [[xe4]; [xbd; xa0]]; ending := EndOfStream |}.

(** The same character cut the same way, followed by the first byte of a
    second one that never arrives complete. *)
Definition split_character_then_cut : Reader :=
  {| chunks := [[xe4]; [xbd; xa0; xe4]]; ending := EndOfStream |}.

(** A page on conversation "1" with "Hello" typed and "gpt-4" selected. *)
Definition hello_page : ConversationPage.PageState :=
  {| ConversationPage.conversationId := lit "1";
     ConversationPage.conversation := None;
     ConversationPage.messages := [];
     ConversationPage.isLoading := false;
     ConversationPage.error := None;
     ConversationPage.debugInfo := None;
     ConversationPage.newMessage := lit "Hello";
     ConversationPage.isSending := false;
     ConversationPage.usingMock := false;
     ConversationPage.selectedModel := lit "gpt-4" |}.

(** The same page on the route of a conversation still to be created. *)
Definition new_page : ConversationPage.PageState :=
  {| ConversationPage.conversationId := lit "new";
     ConversationPage.conversation := None;
     ConversationPage.messages := [];
     ConversationPage.isLoading := false;
     ConversationPage.error := None;
     ConversationPage.debugInfo := None;
     ConversationPage.newMessage := lit "Hello";
     ConversationPage.isSending := false;
     ConversationPage.usingMock := false;
     ConversationPage.selectedModel := lit "gpt-4" |}.

(** The record the backend answers a creation with. *)
Definition created_conversation : Conversation.t :=
  {| Conversation.id := IdNum 42;
     Conversation.title := lit "Hello";
     Conversation.model := lit "gpt-4";
     Conversation.created_at := lit "2023-11-14T22:13:20.500Z";
     Conversation.updated_at := None;
     Conversation.user_id := IdNum 1;
     Conversation.meta_data := None |}.

(** A world with a stored token in which the creation succeeds. *)
Definition creating_world : ConversationPage.SendWorld :=
  {| ConversationPage.tempId_now := 1700000000000;
     ConversationPage.user_created_at := lit "2023-11-14T22:13:20.000Z";
     ConversationPage.mock_now := 1700000002000;
     ConversationPage.mock_created_at := lit "2023-11-14T22:13:22.000Z";
     ConversationPage.assistant_now := 1700000000001;
     ConversationPage.assistant_created_at := lit "2023-11-14T22:13:20.001Z";
     ConversationPage.send_token := Some (lit "secret");
     ConversationPage.create :=
       Resolved {| ok := true; status := 200;
                   content_of := Parsed created_conversation |};
     ConversationPage.stream := Rejected OtherValue |}.

(** A world with a stored token in which the stream endpoint answers
    with [net]. *)
Definition world_with (net : fetch_result (option Reader))
  : ConversationPage.SendWorld :=
  {| ConversationPage.tempId_now := 1700000000000;
     ConversationPage.user_created_at := lit "2023-11-14T22:13:20.000Z";
     ConversationPage.mock_now := 1700000002000;
     ConversationPage.mock_created_at := lit "2023-11-14T22:13:22.000Z";
     ConversationPage.assistant_now := 1700000000001;
     ConversationPage.assistant_created_at := lit "2023-11-14T22:13:20.001Z";
     ConversationPage.send_token := Some (lit "secret");
     ConversationPage.create := Rejected OtherValue;
     ConversationPage.stream := net |}.

(** The stream endpoint answers 500 before any byte. *)
Definition http_500 : fetch_result (option Reader) :=
  Resolved {| ok := false; status := 500; content_of := None |}.


(** Both update endpoints answer 500. *)
Definition both_updates_fail : ConversationPage.SwitchWorld :=
  {| ConversationPage.switch_token := Some (lit "secret");
     ConversationPage.primary :=
       Resolved {| ok := false; status := 500;
                   content_of := ParseFails OtherValue |};
     ConversationPage.fallback :=
       Resolved {| ok := false; status := 500;
                   content_of := ParseFails OtherValue |};
     ConversationPage.reset := Rejected OtherValue;
     ConversationPage.reload := Rejected OtherValue |}.

(* ===================================================================== *)
(** ** Further string literals of the source *)

Module MoreText.

(* content of MOCK_MESSAGES[0], 21 code units, beginning: 你好，我想了解如何将前端 *)
Definition mock_content_1 : jsstring :=
  [20320; 22909; 65292; 25105; 24819; 20102; 35299; 22914; 20309; 23558;
   21069; 31471; 36830; 25509; 21040; 21518; 31471; 65; 80; 73; 12290].

(* content of MOCK_MESSAGES[1], 518 code units, beginning: 你好！将前端连接到后端A *)
Definition mock_content_2 : jsstring :=
  [20320; 22909; 65281; 23558; 21069; 31471; 36830; 25509; 21040; 21518;
   31471; 65; 80; 73; 26159; 19968; 20010; 24120; 35265; 30340; 20219; 21153;
   12290; 36890; 24120; 65292; 20320; 38656; 35201; 20351; 29992; 70; 101;
   116; 99; 104; 32; 65; 80; 73; 25110; 65; 120; 105; 111; 115; 31561; 24037;
   20855; 26469; 21457; 36865; 72; 84; 84; 80; 35831; 27714; 21040; 21518;
   31471; 26381; 21153; 22120; 12290; 10; 10; 39318; 20808; 65292; 20320;
   38656; 35201; 30693; 36947; 21518; 31471; 65; 80; 73; 30340; 22320; 22336;
   21644; 25509; 21475; 35268; 33539; 12290; 28982; 21518; 65292; 20320;
   21487; 20197; 20351; 29992; 96; 102; 101; 116; 99; 104; 96; 20989; 25968;
   25110; 96; 97; 120; 105; 111; 115; 96; 24211; 26469; 21457; 36865; 35831;
   27714; 65292; 24182; 22788; 29702; 21709; 24212; 25968; 25454; 12290; 10;
   10; 20363; 22914; 65292; 20351; 29992; 70; 101; 116; 99; 104; 32; 65; 80;
   73; 65306; 10; 96; 96; 96; 106; 97; 118; 97; 115; 99; 114; 105; 112; 116;
   10; 102; 101; 116; 99; 104; 40; 39; 104; 116; 116; 112; 58; 47; 47; 108;
   111; 99; 97; 108; 104; 111; 115; 116; 58; 56; 48; 48; 48; 47; 97; 112;
   105; 47; 118; 49; 47; 99; 111; 110; 118; 101; 114; 115; 97; 116; 105; 111;
   110; 115; 39; 41; 10; 32; 32; 46; 116; 104; 101; 110; 40; 114; 101; 115;
   112; 111; 110; 115; 101; 32; 61; 62; 32; 114; 101; 115; 112; 111; 110;
   115; 101; 46; 106; 115; 111; 110; 40; 41; 41; 10; 32; 32; 46; 116; 104;
   101; 110; 40; 100; 97; 116; 97; 32; 61; 62; 32; 99; 111; 110; 115; 111;
   108; 101; 46; 108; 111; 103; 40; 100; 97; 116; 97; 41; 41; 10; 32; 32; 46;
   99; 97; 116; 99; 104; 40; 101; 114; 114; 111; 114; 32; 61; 62; 32; 99;
   111; 110; 115; 111; 108; 101; 46; 101; 114; 114; 111; 114; 40; 39; 69;
   114; 114; 111; 114; 58; 39; 44; 32; 101; 114; 114; 111; 114; 41; 41; 59;
   10; 96; 96; 96; 10; 10; 22914; 26524; 20320; 30340; 65; 80; 73; 38656;
   35201; 36523; 20221; 39564; 35777; 65292; 20320; 36890; 24120; 38656;
   35201; 22312; 35831; 27714; 22836; 20013; 21253; 21547; 116; 111; 107;
   101; 110; 65306; 10; 96; 96; 96; 106; 97; 118; 97; 115; 99; 114; 105; 112;
   116; 10; 102; 101; 116; 99; 104; 40; 39; 104; 116; 116; 112; 58; 47; 47;
   108; 111; 99; 97; 108; 104; 111; 115; 116; 58; 56; 48; 48; 48; 47; 97;
   112; 105; 47; 118; 49; 47; 99; 111; 110; 118; 101; 114; 115; 97; 116; 105;
   111; 110; 115; 39; 44; 32; 123; 10; 32; 32; 104; 101; 97; 100; 101; 114;
   115; 58; 32; 123; 10; 32; 32; 32; 32; 39; 65; 117; 116; 104; 111; 114;
   105; 122; 97; 116; 105; 111; 110; 39; 58; 32; 96; 66; 101; 97; 114; 101;
   114; 32; 36; 123; 116; 111; 107; 101; 110; 125; 96; 10; 32; 32; 125; 10;
   125; 41; 10; 96; 96; 96; 10; 10; 20320; 26377; 20855; 20307; 36935; 21040;
   20160; 20040; 38382; 39064; 21527; 65311].

(* content of MOCK_MESSAGES[2], 25 code units, beginning: 我的后端API似乎返回4 *)
Definition mock_content_3 : jsstring :=
  [25105; 30340; 21518; 31471; 65; 80; 73; 20284; 20046; 36820; 22238; 52;
   48; 52; 65292; 19981; 30830; 23450; 36335; 24452; 26159; 21542; 27491;
   30830; 12290].

(* content of MOCK_MESSAGES[3], 369 code units, beginning: 遇到404错误通常意味着 *)
Definition mock_content_4 : jsstring :=
  [36935; 21040; 52; 48; 52; 38169; 35823; 36890; 24120; 24847; 21619; 30528;
   24744; 35831; 27714; 30340; 36164; 28304; 36335; 24452; 19981; 23384;
   22312; 12290; 36825; 21487; 33021; 26377; 20960; 20010; 21407; 22240;
   65306; 10; 10; 49; 46; 32; 65; 80; 73; 36335; 24452; 25340; 20889; 38169;
   35823; 32; 45; 32; 30830; 20445; 85; 82; 76; 20013; 27809; 26377; 25340;
   20889; 38169; 35823; 10; 50; 46; 32; 65; 80; 73; 29256; 26412; 19981;
   27491; 30830; 32; 45; 32; 26816; 26597; 26159; 21542; 20351; 29992; 20102;
   27491; 30830; 30340; 65; 80; 73; 29256; 26412; 21069; 32512; 65288; 22914;
   96; 47; 97; 112; 105; 47; 118; 49; 47; 96; 65289; 10; 51; 46; 32; 21518;
   31471; 26381; 21153; 22120; 26410; 27491; 30830; 37197; 32622; 36335;
   30001; 32; 45; 32; 26597; 30475; 21518; 31471; 20195; 30721; 20013; 30340;
   36335; 30001; 23450; 20041; 10; 52; 46; 32; 21518; 31471; 26381; 21153;
   22120; 26410; 36816; 34892; 32; 45; 32; 30830; 20445; 21518; 31471; 26381;
   21153; 22120; 27491; 22312; 36816; 34892; 10; 10; 25105; 24314; 35758;
   24744; 65306; 10; 45; 32; 26816; 26597; 21518; 31471; 25991; 26723; 20197;
   30830; 35748; 27491; 30830; 30340; 65; 80; 73; 36335; 24452; 10; 45; 32;
   20351; 29992; 96; 99; 117; 114; 108; 96; 25110; 80; 111; 115; 116; 109;
   97; 110; 31561; 24037; 20855; 30452; 25509; 27979; 35797; 65; 80; 73; 10;
   45; 32; 26597; 30475; 21518; 31471; 26381; 21153; 22120; 26085; 24535;
   20197; 33719; 21462; 26356; 22810; 20449; 24687; 10; 45; 32; 30830; 35748;
   21518; 31471; 26381; 21153; 22120; 27491; 22312; 30417; 21548; 27491;
   30830; 30340; 31471; 21475; 10; 10; 20363; 22914; 65292; 24744; 21487;
   20197; 20351; 29992; 20197; 19979; 21629; 20196; 27979; 35797; 65; 80; 73;
   65306; 10; 96; 96; 96; 98; 97; 115; 104; 10; 99; 117; 114; 108; 32; 45;
   118; 32; 104; 116; 116; 112; 58; 47; 47; 108; 111; 99; 97; 108; 104; 111;
   115; 116; 58; 56; 48; 48; 48; 47; 97; 112; 105; 47; 118; 49; 47; 99; 111;
   110; 118; 101; 114; 115; 97; 116; 105; 111; 110; 115; 10; 96; 96; 96; 10;
   10; 36825; 23558; 26174; 31034; 35831; 27714; 30340; 35814; 32454; 20449;
   24687; 21644; 26381; 21153; 22120; 21709; 24212; 65292; 24110; 21161;
   24744; 35786; 26029; 38382; 39064; 12290].

(* 后端API集成测试 *)
Definition mock_title : jsstring :=
  [21518; 31471; 65; 80; 73; 38598; 25104; 27979; 35797].

(* 正在尝试连接到后端API... *)
Definition trying_backend : jsstring :=
  [27491; 22312; 23581; 35797; 36830; 25509; 21040; 21518; 31471; 65; 80; 73;
   46; 46; 46].

(* 使用了模拟数据，没有连接后端API *)
Definition used_mock : jsstring :=
  [20351; 29992; 20102; 27169; 25311; 25968; 25454; 65292; 27809; 26377;
   36830; 25509; 21518; 31471; 65; 80; 73].

(* 正在连接后端获取会话详情:  *)
Definition connecting_conversation : jsstring :=
  [27491; 22312; 36830; 25509; 21518; 31471; 33719; 21462; 20250; 35805;
   35814; 24773; 58; 32].

(* 会话详情API响应状态码:  *)
Definition conversation_status : jsstring :=
  [20250; 35805; 35814; 24773; 65; 80; 73; 21709; 24212; 29366; 24577; 30721;
   58; 32].

(* 获取会话详情API错误:  *)
Definition conversation_api_error : jsstring :=
  [33719; 21462; 20250; 35805; 35814; 24773; 65; 80; 73; 38169; 35823; 58; 32].

(* 后端API连接失败:  *)
Definition backend_failed_prefix : jsstring :=
  [21518; 31471; 65; 80; 73; 36830; 25509; 22833; 36133; 58; 32].

(* 。将使用模拟数据代替。 *)
Definition backend_failed_suffix : jsstring :=
  [12290; 23558; 20351; 29992; 27169; 25311; 25968; 25454; 20195; 26367;
   12290].

(* 登录失败:  *)
Definition login_failed_colon : jsstring :=
  [30331; 24405; 22833; 36133; 58; 32].

(* 安装插件失败:  *)
Definition install_failed_colon : jsstring :=
  [23433; 35013; 25554; 20214; 22833; 36133; 58; 32].

(* 成功安装插件:  *)
Definition toast_installed : jsstring :=
  [25104; 21151; 23433; 35013; 25554; 20214; 58; 32].

(* 安装失败:  *)
Definition toast_install_failed : jsstring :=
  [23433; 35013; 22833; 36133; 58; 32].

(* 安装插件失败 *)
Definition install_plugin_failed : jsstring :=
  [23433; 35013; 25554; 20214; 22833; 36133].

End MoreText.

(* ===================================================================== *)
(** ** What a computation leaves alone *)

Module Frame.
Import Async.

(** The computation contains no [Throw]: whatever is thrown inside it is
    caught inside it. *)
Fixpoint throw_free {S A} (m : Async.t S A) : bool :=
  match m with
  | Ret _ => true
  | Throw _ => false
  | Update _ k | Perform _ k | Await k => throw_free k
  end.

(** Every state update of the computation satisfies [Q]. *)
Fixpoint updates_all {S A} (Q : (S -> S) -> Prop) (m : Async.t S A) : Prop :=
  match m with
  | Ret _ | Throw _ => True
  | Update f k => Q f /\ updates_all Q k
  | Perform _ k | Await k => updates_all Q k
  end.

(** The update [f] does not change what [proj] reads. *)
Definition keeps {S T} (proj : S -> T) (f : S -> S) : Prop :=
  forall s, proj (f s) = proj s.

End Frame.

(* ===================================================================== *)
(** ** The requests of the model switch and of the reload *)

Module Requests.

(** The request of [updateConversationModel]. *)
Definition update_model_request (token : jsstring) (conversationId : ident)
    (modelId : jsstring) : Request :=
  {| url := conversationAPI.getApiBaseUrl ++ lit "/api/v1/conversations/"
              ++ ident_toString conversationId ++ lit "/model";
     method := lit "PUT";
     headers := conversationAPI.json_headers token;
     body := Some [(lit "model_id", modelId)] |}.

(** The request of the fallback update in [handleModelChange]. *)
Definition fallback_request (stored : option jsstring)
    (conversationId modelId : jsstring) : Request :=
  {| url := conversationAPI.getApiBaseUrl
              ++ lit "/api/v1/conversations/" ++ conversationId;
     method := lit "PUT";
     headers :=
       [(lit "Content-Type", lit "application/json");
        (lit "Authorization", ConversationPage.bearer_of_storage stored)];
     body := Some [(lit "model", modelId)] |}.

(** The request of [resetConversation]. *)
Definition reset_request (token : jsstring) (conversationId : ident)
  : Request :=
  {| url := conversationAPI.getApiBaseUrl ++ lit "/api/v1/conversations/"
              ++ ident_toString conversationId ++ lit "/reset";
     method := lit "POST";
     headers := conversationAPI.json_headers token;
     body := None |}.

(** The request of [fetchMessages]. *)
Definition messages_request (token conversationId : jsstring) : Request :=
  {| url := ConversationPage.messages_url conversationId;
     method := lit "GET";
     headers := conversationAPI.json_headers token;
     body := None |}.

(** A response that is [ok] and whose body parses to [v]. *)
Definition answers {J} (code : Z) (v : J) : fetch_result (parsed J) :=
  Resolved {| ok := true; status := code; content_of := Parsed v |}.

End Requests.

(* ===================================================================== *)
(** ** The conversation page: worlds that differ in one answer *)

Module Worlds.
Import ConversationPage.

(** The world [w] with the stream endpoint answering [net]. *)
Definition set_stream (w : SendWorld) (net : fetch_result (option Reader))
  : SendWorld :=
  {| tempId_now := tempId_now w; user_created_at := user_created_at w;
     mock_now := mock_now w; mock_created_at := mock_created_at w;
     assistant_now := assistant_now w;
     assistant_created_at := assistant_created_at w;
     send_token := send_token w; create := create w; stream := net |}.

(** The world [w] with the creation endpoint answering [net]. *)
Definition set_create (w : SendWorld)
    (net : fetch_result (parsed Conversation.t)) : SendWorld :=
  {| tempId_now := tempId_now w; user_created_at := user_created_at w;
     mock_now := mock_now w; mock_created_at := mock_created_at w;
     assistant_now := assistant_now w;
     assistant_created_at := assistant_created_at w;
     send_token := send_token w; create := net; stream := stream w |}.

(** The world [w] with [stored] in local storage. *)
Definition set_token (w : SendWorld) (stored : option jsstring) : SendWorld :=
  {| tempId_now := tempId_now w; user_created_at := user_created_at w;
     mock_now := mock_now w; mock_created_at := mock_created_at w;
     assistant_now := assistant_now w;
     assistant_created_at := assistant_created_at w;
     send_token := stored; create := create w; stream := stream w |}.

End Worlds.

(* ===================================================================== *)
(** ** The conversation page: the initial load *)

Module PageLoad.
Import Async ConversationPage.

Definition with_usingMock (v : bool) (s : PageState) : PageState :=
  {| conversationId := conversationId s; conversation := conversation s;
     messages := messages s; isLoading := isLoading s; error := error s;
     debugInfo := debugInfo s; newMessage := newMessage s;
     isSending := isSending s; usingMock := v;
     selectedModel := selectedModel s |}.

Definition setUsingMock (v : bool) : Async.t PageState unit :=
  update (with_usingMock v).

(** The answers of the outside world during one load of the page; the
    times are those the module-level constants were built at. *)
Record LoadWorld := {
  load_token : option jsstring;                        (* localStorage *)
  mock_conversation_created_at : jsstring;
  mock_conversation_updated_at : jsstring;
  mock_message_times : jsstring * jsstring * jsstring * jsstring;
  conversation_answer : fetch_result (parsed Conversation.t);
  messages_answer : fetch_result (parsed MessagePagination)
}.

Definition MOCK_CONVERSATION (w : LoadWorld) : Conversation.t :=
  {| Conversation.id := IdStr (lit "1");
     Conversation.title := MoreText.mock_title;
     Conversation.model := lit "GPT-4";
     Conversation.created_at := mock_conversation_created_at w;
     Conversation.updated_at := Some (mock_conversation_updated_at w);
     Conversation.user_id := IdStr (lit "1");
     Conversation.meta_data := None |}.

Definition MOCK_MESSAGES (w : LoadWorld) : list Message.t :=
  let '(t1, t2, t3, t4) := mock_message_times w in
  [ {| Message.id := IdStr (lit "1"); Message.role := user;
       Message.content := MoreText.mock_content_1;
       Message.created_at := t1;
       Message.conversation_id := IdStr (lit "1") |};
    {| Message.id := IdStr (lit "2"); Message.role := assistant;
       Message.content := MoreText.mock_content_2;
       Message.created_at := t2;
       Message.conversation_id := IdStr (lit "1") |};
    {| Message.id := IdStr (lit "3"); Message.role := user;
       Message.content := MoreText.mock_content_3;
       Message.created_at := t3;
       Message.conversation_id := IdStr (lit "1") |};
    {| Message.id := IdStr (lit "4"); Message.role := assistant;
       Message.content := MoreText.mock_content_4;
       Message.created_at := t4;
       Message.conversation_id := IdStr (lit "1") |} ].

Definition conversation_url (conversationId : jsstring) : jsstring :=
  lit "http://localhost:8000/api/v1/conversations" ++ lit "/" ++ conversationId.

(** The request for the conversation record. *)
Definition conversation_request (token conversationId : jsstring) : Request :=
  {| url := conversation_url conversationId;
     method := lit "GET";
     headers := conversationAPI.json_headers token;
     body := None |}.

(** [fetchConversationData], the body of the load effect; [useBackend]
    is the value of the render the effect belongs to. *)
Definition fetchConversationData (useBackend : bool) (w : LoadWorld)
    (snap : PageState) : Async.t PageState unit :=
  setIsLoading true ;;
  setError None ;;
  setDebugInfo MoreText.trying_backend ;;
  if negb useBackend then
    (* setTimeout(() => { .. }, 1000); return *)
    await ;;
    setConversation (Some (MOCK_CONVERSATION w)) ;;
    setMessages (fun _ => MOCK_MESSAGES w) ;;
    setUsingMock true ;;
    setDebugInfo MoreText.used_mock ;;
    setIsLoading false
  else
    try_finally
      (try_catch
         (conversationAPI.with_token (load_token w) (fun token =>
            setDebugInfo (MoreText.connecting_conversation
                            ++ conversation_url (conversationId snap)
                            ++ lit "...") ;;
            convResponse <-
              fetch (conversation_request token (conversationId snap))
                (conversation_answer w) ;;
            setDebugInfo (MoreText.conversation_status
                            ++ number_toString (status convResponse)) ;;
            if negb (ok convResponse) then
              Throw (ErrorObj (MoreText.conversation_api_error
                                 ++ number_toString (status convResponse)))
            else
              conversationData <- json convResponse ;;
              setConversation (Some conversationData) ;;
              (if truthy (Conversation.model conversationData)
               then setSelectedModel (Conversation.model conversationData)
               else Ret tt) ;;
              fetchMessages snap (load_token w) (messages_answer w)))
         (fun err =>
            setDebugInfo (MoreText.backend_failed_prefix
                            ++ message_or Text.unknown_error err
                            ++ MoreText.backend_failed_suffix) ;;
            setConversation (Some (MOCK_CONVERSATION w)) ;;
            setMessages (fun _ => MOCK_MESSAGES w) ;;
            setUsingMock true))
      (setIsLoading false).

(** The mock data is what the page shows, with no error. *)
Definition fell_back (w : LoadWorld) (s s' : PageState) : Prop :=
  conversation s' = Some (MOCK_CONVERSATION w)
  /\ messages s' = MOCK_MESSAGES w
  /\ usingMock s' = true
  /\ error s' = None
  /\ selectedModel s' = selectedModel s.

End PageLoad.

(* ===================================================================== *)
(** ** frontend/src/lib/api.ts: the session in the browser *)

Module Browser.
Import Async.

(** The two entries of [localStorage] the client uses, and
    [window.location.href]. *)
Record t := {
  auth_token : option jsstring;
  user : option jsstring;
  href : jsstring
}.

(** [localStorage.setItem('auth_token', v)] *)
Definition set_auth_token (v : jsstring) (b : t) : t :=
  {| auth_token := Some v; user := user b; href := href b |}.

(** [localStorage.removeItem('auth_token')] *)
Definition remove_auth_token (b : t) : t :=
  {| auth_token := None; user := user b; href := href b |}.

(** [localStorage.removeItem('user')] *)
Definition remove_user (b : t) : t :=
  {| auth_token := auth_token b; user := None; href := href b |}.

(** [window.location.href = v] *)
Definition set_href (v : jsstring) (b : t) : t :=
  {| auth_token := auth_token b; user := user b; href := v |}.

(** The request of [checkAuthStatus]. *)
Definition test_token_request (token : jsstring) : Request :=
  {| url := conversationAPI.getApiBaseUrl ++ lit "/api/v1/auth/test-token";
     method := lit "POST";
     headers := [(lit "Authorization", lit "Bearer " ++ token)];
     body := None |}.

(** [checkAuthStatus]; [b] is the storage it reads when it is called. *)
Definition checkAuthStatus (b : t) (net : fetch_result unit)
  : Async.t t bool :=
  match auth_token b with
  | None => Ret false
  | Some token =>
      if negb (truthy token) then Ret false
      else
        try_catch
          (response <- fetch (test_token_request token) net ;;
           if negb (ok response) then
             update remove_auth_token ;;
             update remove_user ;;
             Ret false
           else Ret true)
          (fun e => Ret false)
  end.

(** [logout] *)
Definition logout : Async.t t unit :=
  update remove_auth_token ;;
  update remove_user ;;
  update (set_href (lit "/login")).

(** What reading [access_token] from the parsed answer yields:
    [undefined] when the answer has no such field, otherwise the value of
    the field, given by its conversion to a string (for a string, the
    string itself), which is all [login] uses of it. *)
Inductive field :=
| Undefined
| Defined (as_string : jsstring).

(** [String(v)], the conversion [localStorage.setItem] applies to the
    value it is given. *)
Definition to_string (v : field) : jsstring :=
  match v with
  | Undefined => lit "undefined"
  | Defined as_string => as_string
  end.

(** The parsed body of the answer of the login endpoint, as far as
    [login] reads it: [null], of which no property can be read (the read
    throws a [TypeError] with the given message), or any other value. *)
Inductive LoginData :=
| Null (message : jsstring)
| Data (access_token : field).

(** The request of [login]; its body is a [URLSearchParams] with these
    two entries. *)
Definition login_request (username password : jsstring) : Request :=
  {| url := conversationAPI.getApiBaseUrl ++ lit "/api/v1/auth/login";
     method := lit "POST";
     headers := [(lit "Content-Type", lit "application/x-www-form-urlencoded")];
     body := Some [(lit "username", username); (lit "password", password)] |}.

(** [login] (the exported function, not [authAPI.login]) *)
Definition login (username password : jsstring)
    (net : fetch_result (parsed LoginData)) : Async.t t LoginData :=
  response <- fetch (login_request username password) net ;;
  if negb (ok response) then
    Throw (ErrorObj (MoreText.login_failed_colon
                       ++ number_toString (status response)))
  else
    data <- json response ;;
    match data with
    | Null message => Throw (ErrorObj message)     (* data.access_token *)
    | Data access_token =>
        update (set_auth_token (to_string access_token)) ;;
        Ret data
    end.

End Browser.

(* ===================================================================== *)
(** ** frontend/src/lib/api.ts: [installPlugin] *)

Module ApiMore.
Import Async.

(** What the install endpoint answers with. *)
Record InstallResult := {
  success : bool;
  message : jsstring
}.

(** The request of [installPlugin]. *)
Definition install_request (stored : option jsstring) (pluginId : jsstring)
    (fromRepository : bool) : Request :=
  {| url := conversationAPI.getApiBaseUrl ++ lit "/api/v1/plugins/"
              ++ pluginId ++ lit "/install"
              ++ (if fromRepository then lit "?from_repository=true" else []);
     method := lit "POST";
     headers :=
       [(lit "Content-Type", lit "application/json");
        (lit "Authorization", ConversationPage.bearer_of_storage stored)];
     body := None |}.

(** [mcpPluginAPI.installPlugin] *)
Definition installPlugin {S} (stored : option jsstring) (pluginId : jsstring)
    (fromRepository : bool) (net : fetch_result (parsed InstallResult))
  : Async.t S InstallResult :=
  response <- fetch (install_request stored pluginId fromRepository) net ;;
  if negb (ok response) then
    Throw (ErrorObj (MoreText.install_failed_colon
                       ++ number_toString (status response)))
  else json response.

End ApiMore.

(* ===================================================================== *)
(** ** frontend/src/components/plugins/plugin-browse.tsx *)

Module PluginBrowse.
Import Async.

Record MCPPlugin := {
  id : jsstring;
  name : jsstring;
  description : jsstring;
  author : jsstring;
  version : jsstring;
  downloads : Z;
  tags : list jsstring;
  isInstalled : bool;
  createdAt : jsstring;
  updatedAt : jsstring;
  repository : option jsstring
}.

(** A call of the toast library. *)
Inductive toast :=
| ToastSuccess (text : jsstring)
| ToastError (text : jsstring)
| ToastInfo (text : jsstring).

(** The state of the component, and the toasts shown so far. *)
Record State := {
  searchQuery : jsstring;
  currentSort : jsstring;
  plugins : list MCPPlugin;
  isLoading : bool;
  isInstalling : option jsstring;
  error : option jsstring;
  toasts : list toast
}.

Definition with_plugins (f : list MCPPlugin -> list MCPPlugin) (s : State)
  : State :=
  {| searchQuery := searchQuery s; currentSort := currentSort s;
     plugins := f (plugins s); isLoading := isLoading s;
     isInstalling := isInstalling s; error := error s; toasts := toasts s |}.

Definition with_isInstalling (v : option jsstring) (s : State) : State :=
  {| searchQuery := searchQuery s; currentSort := currentSort s;
     plugins := plugins s; isLoading := isLoading s;
     isInstalling := v; error := error s; toasts := toasts s |}.

Definition with_toast (t : toast) (s : State) : State :=
  {| searchQuery := searchQuery s; currentSort := currentSort s;
     plugins := plugins s; isLoading := isLoading s;
     isInstalling := isInstalling s; error := error s;
     toasts := toasts s ++ [t] |}.

(** [prev.map(p => p.id === plugin.id ? { ...p, isInstalled: true } : p)] *)
Definition markInstalled (pluginId : jsstring) (prev : list MCPPlugin)
  : list MCPPlugin :=
  map (fun p =>
         if jsstring_eqb (id p) pluginId then
           {| id := id p; name := name p; description := description p;
              author := author p; version := version p;
              downloads := downloads p; tags := tags p; isInstalled := true;
              createdAt := createdAt p; updatedAt := updatedAt p;
              repository := repository p |}
         else p) prev.

(** [handleInstall] *)
Definition handleInstall (stored : option jsstring)
    (net : fetch_result (parsed ApiMore.InstallResult)) (plugin : MCPPlugin)
  : Async.t State unit :=
  update (with_isInstalling (Some (id plugin))) ;;
  try_finally
    (try_catch
       (result <- ApiMore.installPlugin stored (id plugin) false net ;;
        if ApiMore.success result then
          update (with_toast
                    (ToastSuccess (MoreText.toast_installed ++ name plugin))) ;;
          update (with_plugins (markInstalled (id plugin)))
        else
          update (with_toast
                    (ToastError
                       (MoreText.toast_install_failed
                          ++ (if truthy (ApiMore.message result)
                              then ApiMore.message result
                              else Text.unknown_error)))))
       (fun err =>
          update (with_toast
                    (ToastError
                       (message_or MoreText.install_plugin_failed err)))))
    (update (with_isInstalling None)).

End PluginBrowse.
(* ===================================================================== *)
(** ** Further sample inputs *)

(** The record the backend answers a model update with. *)
Definition renamed_conversation : Conversation.t :=
  {| Conversation.id := IdNum 1;
     Conversation.title := lit "Hello";
     Conversation.model := lit "claude-3";
     Conversation.created_at := lit "2023-11-14T22:13:20.500Z";
     Conversation.updated_at := Some (lit "2023-11-14T22:15:00.000Z");
     Conversation.user_id := IdNum 1;
     Conversation.meta_data := None |}.

(** A transcript of one message, as the messages endpoint answers it. *)
Definition one_message : MessagePagination :=
  {| total := 1;
     items := [ {| Message.id := IdNum 7; Message.role := user;
                   Message.content := lit "Hello";
                   Message.created_at := lit "2023-11-14T22:13:20.000Z";
                   Message.conversation_id := IdNum 1 |} ];
     page := 1;
     size := 50 |}.

(** The primary update and the reload succeed. *)
Definition primary_succeeds : ConversationPage.SwitchWorld :=
  {| ConversationPage.switch_token := Some (lit "secret");
     ConversationPage.primary := Requests.answers 200 renamed_conversation;
     ConversationPage.fallback := Rejected OtherValue;
     ConversationPage.reset := Rejected OtherValue;
     ConversationPage.reload := Requests.answers 200 one_message |}.

(** The primary update answers 500; the fallback update, the reset and
    the reload succeed. *)
Definition fallback_succeeds : ConversationPage.SwitchWorld :=
  {| ConversationPage.switch_token := Some (lit "secret");
     ConversationPage.primary :=
       Resolved {| ok := false; status := 500;
                   content_of := ParseFails OtherValue |};
     ConversationPage.fallback := Requests.answers 200 renamed_conversation;
     ConversationPage.reset := Requests.answers 200 tt;
     ConversationPage.reload := Requests.answers 200 one_message |}.

(** Nothing is stored, and the server accepts the fallback update. *)
Definition switch_logged_out : ConversationPage.SwitchWorld :=
  {| ConversationPage.switch_token := None;
     ConversationPage.primary := Requests.answers 200 renamed_conversation;
     ConversationPage.fallback := Requests.answers 200 renamed_conversation;
     ConversationPage.reset := Requests.answers 200 tt;
     ConversationPage.reload := Requests.answers 200 one_message |}.

(** A body that breaks after the bytes of "Hi ". *)
Definition broken_after_hi : Reader :=
  {| chunks := [[x48; x69; x20]]; ending := ReadFails OtherValue |}.

(** The bytes of "Hi there!" in one chunk. *)
Definition hi_there_at_once : Reader :=
  {| chunks := [[x48; x69; x20; x74; x68; x65; x72; x65; x21]];
     ending := EndOfStream |}.

(** The page of [hello_page] in mock mode. *)
Definition mock_page : ConversationPage.PageState :=
  PageLoad.with_usingMock true hello_page.

(** The creation answered with the record and status 201, and answered
    with the same record and status 500. *)
Definition created_201 : Response (parsed Conversation.t) :=
  {| ok := true; status := 201; content_of := Parsed created_conversation |}.

Definition created_500 : Response (parsed Conversation.t) :=
  {| ok := false; status := 500; content_of := Parsed created_conversation |}.

(* ===================================================================== *)
(** * Properties *)

(** ** How [run] goes through the control operators *)

Module AsyncFacts.
Import Async.

Section Run.
Context {S : Type}.

Lemma run_bind {A B} (m : Async.t S A) (f : A -> Async.t S B) (s : S) :
  run (bind m f) s =
  let '(s1, es1, r1) := run m s in
  match r1 with
  | Returned a =>
      let '(s2, es2, r2) := run (f a) s1 in (s2, es1 ++ es2, r2)
  | Threw e => (s1, es1, Threw e)
  end.
Proof.
  revert s; induction m as [a|e|g k IH|e k IH|k IH]; intros s; simpl.
  - destruct (run (f a) s) as [[s2 es2] r2]; reflexivity.
  - reflexivity.
  - apply IH.
  - rewrite IH. destruct (run k s) as [[s1 es1] [a|e1]]; simpl.
    + destruct (run (f a) s1) as [[s2 es2] r2]; reflexivity.
    + reflexivity.
  - apply IH.
Qed.

Lemma run_try_catch {A} (m : Async.t S A) (h : thrown -> Async.t S A) (s : S) :
  run (try_catch m h) s =
  let '(s1, es1, r1) := run m s in
  match r1 with
  | Returned a => (s1, es1, Returned a)
  | Threw e =>
      let '(s2, es2, r2) := run (h e) s1 in (s2, es1 ++ es2, r2)
  end.
Proof.
  revert s; induction m as [a|e|g k IH|e k IH|k IH]; intros s; simpl.
  - reflexivity.
  - destruct (run (h e) s) as [[s2 es2] r2]; reflexivity.
  - apply IH.
  - rewrite IH. destruct (run k s) as [[s1 es1] [a|e1]]; simpl.
    + reflexivity.
    + destruct (run (h e1) s1) as [[s2 es2] r2]; reflexivity.
  - apply IH.
Qed.

Lemma run_try_finally {A} (m : Async.t S A) (fin : Async.t S unit) (s : S) :
  run (try_finally m fin) s =
  let '(s1, es1, r1) := run m s in
  let '(s2, es2, r2) := run fin s1 in
  match r2 with
  | Returned _ => (s2, es1 ++ es2, r1)
  | Threw e => (s2, es1 ++ es2, Threw e)
  end.
Proof.
  revert s; induction m as [a|e|g k IH|e k IH|k IH]; intros s; simpl.
  - rewrite run_bind. destruct (run fin s) as [[s2 es2] [u|e]]; simpl.
    + rewrite app_nil_r; reflexivity.
    + reflexivity.
  - rewrite run_bind. destruct (run fin s) as [[s2 es2] [u|e']]; simpl.
    + rewrite app_nil_r; reflexivity.
    + reflexivity.
  - apply IH.
  - rewrite IH. destruct (run k s) as [[s1 es1] r1]; simpl.
    destruct (run fin s1) as [[s2 es2] [u|e']]; reflexivity.
  - apply IH.
Qed.

Lemma run_update (f : S -> S) (s : S) :
  run (update f) s = (f s, [], Returned tt).
Proof. reflexivity. Qed.

Lemma updates_by_update (f : S -> S) : updates_by (update f) f.
Proof. intros s; reflexivity. Qed.

Lemma updates_by_seq (m1 m2 : Async.t S unit) (g1 g2 : S -> S) :
  updates_by m1 g1 -> updates_by m2 g2 ->
  updates_by (m1 ;; m2) (fun s => g2 (g1 s)).
Proof.
  intros H1 H2 s. rewrite run_bind, H1, H2. reflexivity.
Qed.

End Run.

Section Turns.
Context {S A : Type}.

Lemma run_turn (m : Async.t S A) (s : S) :
  run m s =
  let '(s1, es1, m1) := turn m s in
  let '(s2, es2, r) := run m1 s1 in (s2, es1 ++ es2, r).
Proof.
  revert s; induction m as [a|e|g k IH|e k IH|k IH]; intros s; simpl.
  - reflexivity.
  - reflexivity.
  - apply IH.
  - rewrite IH. destruct (turn k s) as [[s1 es1] m1].
    destruct (run m1 s1) as [[s2 es2] r]. reflexivity.
  - destruct (run k s) as [[s2 es2] r]. reflexivity.
Qed.

(** Stopping at suspensions and resuming does not change the result. *)
Lemma run_turns (n : nat) (m : Async.t S A) (s : S) :
  run m s =
  let '(s1, es1, m1) := turns n m s in
  let '(s2, es2, r) := run m1 s1 in (s2, es1 ++ es2, r).
Proof.
  revert m s; induction n as [|n IH]; intros m s; simpl.
  - destruct (run m s) as [[s2 es2] r]. reflexivity.
  - rewrite run_turn. destruct (turn m s) as [[s1 es1] m1].
    rewrite (IH m1 s1). destruct (turns n m1 s1) as [[s2 es2] m2].
    destruct (run m2 s2) as [[s3 es3] r]. rewrite app_assoc. reflexivity.
Qed.



Variable P : S -> Prop.




End Turns.

Section Suspensions.
Context {S : Type}.
Variable P : S -> Prop.




End Suspensions.

End AsyncFacts.

(** ** The decoder does not depend on how the bytes are cut *)

Module DecoderFacts.
Import TextDecoder.

Lemma utf8_run_app (d : utf8_state) (a b : list byte) :
  utf8_run d (a ++ b) =
  let (d1, o1) := utf8_run d a in
  let (d2, o2) := utf8_run d1 b in (d2, o1 ++ o2).
Proof.
  revert d; induction a as [|x a IH]; intros d; simpl.
  - destruct (utf8_run d b); reflexivity.
  - destruct (utf8_handler d (byte_val x)) as [d1 o1].
    rewrite IH. destruct (utf8_run d1 a) as [d2 o2].
    destruct (utf8_run d2 b) as [d3 o3]. rewrite app_assoc; reflexivity.
Qed.

Lemma serialize_seen (out : list Z) : serialize true out = (true, out).
Proof. destruct out; reflexivity. Qed.

Lemma serialize_app (bom : bool) (a b : list Z) :
  serialize bom (a ++ b) =
  let (bom1, o1) := serialize bom a in
  let (bom2, o2) := serialize bom1 b in (bom2, o1 ++ o2).
Proof.
  revert bom; induction a as [|x a IH]; intros bom; simpl.
  - destruct (serialize bom b); reflexivity.
  - destruct bom; simpl.
    + rewrite serialize_seen; reflexivity.
    + destruct (x =? byte_order_mark).
      * apply IH.
      * rewrite serialize_seen; reflexivity.
Qed.

Lemma to_jsstring_app (a b : list Z) :
  to_jsstring (a ++ b) = to_jsstring a ++ to_jsstring b.
Proof. apply flat_map_app. Qed.

Lemma decode_stream_eq (td : t) (input : list byte) :
  decode td input true =
  let (d0, bom0) := resumed td in
  let (d1, out) := utf8_run d0 input in
  let (bom1, out') := serialize bom0 out in
  ({| decoder := d1; bom_seen := bom1; do_not_flush := true |},
   to_jsstring out').
Proof.
  unfold decode, resumed. destruct (do_not_flush td); reflexivity.
Qed.

(** Streaming over chunks is streaming over their concatenation. *)
Lemma decode_chunks_spec (td : t) (chunks : list (list byte)) :
  let (d0, bom0) := resumed td in
  let (d1, out) := utf8_run d0 (concat chunks) in
  let (bom1, out') := serialize bom0 out in
  concat (decode_chunks td chunks) = to_jsstring out'
  /\ resumed (after_chunks td chunks) = (d1, bom1).
Proof.
  revert td; induction chunks as [|c rest IH]; intros td.
  - simpl. destruct (resumed td) as [d0 bom0] eqn:R; simpl. auto.
  - simpl decode_chunks. simpl after_chunks. simpl concat.
    rewrite decode_stream_eq.
    destruct (resumed td) as [d0 bom0].
    rewrite utf8_run_app.
    destruct (utf8_run d0 c) as [d1 o1].
    destruct (serialize bom0 o1) as [bom1 o1'] eqn:S1.
    simpl fst.
    specialize (IH {| decoder := d1; bom_seen := bom1; do_not_flush := true |}).
    unfold resumed at 1 in IH; simpl in IH.
    destruct (utf8_run d1 (concat rest)) as [d2 o2].
    rewrite serialize_app, S1.
    destruct (serialize bom1 o2) as [bom2 o2'].
    destruct IH as [IH1 IH2]. simpl concat.
    rewrite IH1, to_jsstring_app. auto.
Qed.

Lemma decode_whole_eq (input : list byte) :
  decode_whole input =
  let (d1, out) := utf8_run utf8_initial input in
  to_jsstring (snd (serialize false (out ++ utf8_end d1))).
Proof.
  unfold decode_whole, decode; simpl.
  destruct (utf8_run utf8_initial input) as [d1 out].
  destruct (serialize false (out ++ utf8_end d1)); reflexivity.
Qed.

(** Streamed decoding gives what decoding the whole input at once
    gives, when no sequence is left unfinished at the end. *)
Lemma streamed_is_whole (chunks : list (list byte)) :
  pending (after_chunks create chunks) = false ->
  concat (decode_chunks create chunks) = decode_whole (concat chunks).
Proof.
  intros Hp. pose proof (decode_chunks_spec create chunks) as H.
  rewrite decode_whole_eq. unfold pending in Hp.
  change (resumed create) with (utf8_initial, false) in H.
  cbv beta iota in H.
  destruct (utf8_run utf8_initial (concat chunks)) as [d1 out].
  destruct (serialize false out) as [bom1 out'] eqn:S1.
  destruct H as [H1 H2]. rewrite H2 in Hp. simpl in Hp.
  unfold utf8_end. apply negb_false_iff in Hp. rewrite Hp, app_nil_r, S1.
  exact H1.
Qed.

End DecoderFacts.

(** ** Well-formed streams *)

Module EncodingFacts.
Import TextDecoder Utf8.

Lemma byte_val_byte_of (z : Z) : 0 <= z < 256 -> byte_val (byte_of z) = z.
Proof.
  intros Hz. unfold byte_val, byte_of.
  destruct (Byte.of_N (Z.to_N z)) as [b|] eqn:E.
  - apply Byte.to_of_N in E. rewrite E. lia.
  - apply Byte.of_N_None_iff in E. lia.
Qed.

Lemma lor_shiftl_6 (a r : Z) :
  0 <= a -> 0 <= r < 64 -> Z.lor (Z.shiftl a 6) r = a * 64 + r.
Proof.
  intros Ha Hr.
  assert (Hland : Z.land (Z.shiftl a 6) r = 0).
  { apply Z.bits_inj'. intros n Hn. rewrite Z.land_spec, Z.bits_0.
    destruct (Z.ltb_spec n 6).
    - rewrite Z.shiftl_spec_low by lia. reflexivity.
    - assert (Hb : Z.testbit r n = false).
      { destruct (Z.eq_dec r 0) as [->|Hr0]; [apply Z.bits_0|].
        apply Z.bits_above_log2; [lia|].
        assert (Hp : r < 2 ^ n).
        { apply Z.lt_le_trans with (2 ^ 6); [change (2 ^ 6) with 64; lia|].
          apply Z.pow_le_mono_r; lia. }
        apply (proj1 (Z.log2_lt_pow2 r n ltac:(lia))). exact Hp. }
      rewrite Hb. apply andb_false_r. }
  pose proof (Z.add_lor_land (Z.shiftl a 6) r) as H.
  rewrite Hland in H. rewrite Z.shiftl_mul_pow2 in * by lia.
  change (2 ^ 6) with 64 in *. lia.
Qed.

Lemma land_31 (q : Z) : 0 <= q < 32 -> Z.land (192 + q) 31 = q.
Proof.
  intros H. change 31 with (Z.ones 5). rewrite Z.land_ones by lia.
  change (2 ^ 5) with 32. Z.div_mod_to_equations. lia.
Qed.

Lemma land_63 (r : Z) : 0 <= r < 64 -> Z.land (128 + r) 63 = r.
Proof.
  intros H. change 63 with (Z.ones 6). rewrite Z.land_ones by lia.
  change (2 ^ 6) with 64. Z.div_mod_to_equations. lia.
Qed.

Lemma land_15 (q : Z) : 0 <= q < 16 -> Z.land (224 + q) 15 = q.
Proof.
  intros H. change 15 with (Z.ones 4). rewrite Z.land_ones by lia.
  change (2 ^ 4) with 16. Z.div_mod_to_equations. lia.
Qed.

Lemma land_7 (q : Z) : 0 <= q < 8 -> Z.land (240 + q) 7 = q.
Proof.
  intros H. change 7 with (Z.ones 3). rewrite Z.land_ones by lia.
  change (2 ^ 3) with 8. Z.div_mod_to_equations. lia.
Qed.

(** Decides the comparisons of a goal by linear arithmetic. *)
Ltac decide_comparisons :=
  repeat match goal with
    | |- context [?a <=? ?b] =>
        first [ replace (a <=? b) with true by (symmetry; apply Z.leb_le; lia)
              | replace (a <=? b) with false by (symmetry; apply Z.leb_gt; lia) ]
    | |- context [?a <? ?b] =>
        first [ replace (a <? b) with true by (symmetry; apply Z.ltb_lt; lia)
              | replace (a <? b) with false by (symmetry; apply Z.ltb_ge; lia) ]
    | |- context [?a =? ?b] =>
        first [ replace (a =? b) with true by (symmetry; apply Z.eqb_eq; lia)
              | replace (a =? b) with false by (symmetry; apply Z.eqb_neq; lia) ]
    end.

(** A continuation byte of a sequence in progress, inside its range. *)
Lemma utf8_handler_continue (d : utf8_state) (r : Z) :
  bytes_needed d <> 0 -> 0 <= r < 64 -> 0 <= code_point d ->
  lower_boundary d <= 128 + r <= upper_boundary d ->
  utf8_handler d (128 + r) =
  if bytes_seen d + 1 =? bytes_needed d
  then (utf8_initial, [code_point d * 64 + r])
  else ({| code_point := code_point d * 64 + r;
           bytes_seen := bytes_seen d + 1;
           bytes_needed := bytes_needed d;
           lower_boundary := 128; upper_boundary := 191 |}, []).
Proof.
  intros Hn Hr Hc Hb. unfold utf8_handler.
  replace (bytes_needed d =? 0) with false by (symmetry; apply Z.eqb_neq; lia).
  replace (lower_boundary d <=? 128 + r) with true by (symmetry; apply Z.leb_le; lia).
  replace (128 + r <=? upper_boundary d) with true by (symmetry; apply Z.leb_le; lia).
  cbn [andb negb]. rewrite land_63, lor_shiftl_6 by lia. reflexivity.
Qed.

Lemma utf8_run_encode (cp : Z) :
  scalar cp = true ->
  utf8_run utf8_initial (encode cp) = (utf8_initial, [cp]).
Proof.
  unfold scalar. intros H.
  apply andb_true_iff in H. destruct H as [H Hs].
  apply andb_true_iff in H. destruct H as [H0 H1].
  apply Z.leb_le in H0. apply Z.leb_le in H1.
  assert (Hsur : cp < 55296 \/ 57343 < cp).
  { apply negb_true_iff, andb_false_iff in Hs.
    destruct Hs as [Hs|Hs]; apply Z.leb_gt in Hs; lia. }
  clear Hs. unfold encode.
  destruct (Z.ltb_spec cp 128) as [C1|C1].
  { cbn [utf8_run]. rewrite byte_val_byte_of by lia.
    unfold utf8_handler, utf8_lead. cbn [bytes_needed utf8_initial].
    decide_comparisons. reflexivity. }
  destruct (Z.ltb_spec cp 2048) as [C2|C2].
  { cbn [utf8_run].
    rewrite !byte_val_byte_of by (Z.div_mod_to_equations; lia).
    assert (Hq : 2 <= cp / 64 < 32) by (Z.div_mod_to_equations; lia).
    assert (Hr : 0 <= cp mod 64 < 64) by (Z.div_mod_to_equations; lia).
    unfold utf8_handler at 1. unfold utf8_lead. cbn [bytes_needed utf8_initial].
    decide_comparisons. cbn [andb]. rewrite land_31 by lia.
    rewrite utf8_handler_continue; cbn [bytes_needed code_point lower_boundary upper_boundary bytes_seen]; try lia.
    change (0 + 1 =? 1) with true. cbv iota.
    cbn [app]. f_equal. f_equal. Z.div_mod_to_equations. lia. }
  destruct (Z.ltb_spec cp 65536) as [C3|C3].
  { cbn [utf8_run].
    rewrite !byte_val_byte_of by (Z.div_mod_to_equations; lia).
    assert (Hq : 0 <= cp / 4096 < 16) by (Z.div_mod_to_equations; lia).
    assert (Hm : 0 <= (cp / 64) mod 64 < 64) by (Z.div_mod_to_equations; lia).
    assert (Hr : 0 <= cp mod 64 < 64) by (Z.div_mod_to_equations; lia).
    unfold utf8_handler at 1. unfold utf8_lead. cbn [bytes_needed utf8_initial].
    decide_comparisons. cbn [andb]. rewrite land_15 by lia.
    rewrite utf8_handler_continue; cbn [bytes_needed code_point lower_boundary upper_boundary bytes_seen]; try lia.
    2:{ destruct (Z.eqb_spec (224 + cp / 4096) 224);
        destruct (Z.eqb_spec (224 + cp / 4096) 237);
        Z.div_mod_to_equations; lia. }
    change (0 + 1 =? 2) with false. cbv iota.
    rewrite utf8_handler_continue; cbn [bytes_needed code_point lower_boundary upper_boundary bytes_seen]; try lia.
    change (0 + 1 + 1 =? 2) with true. cbv iota.
    cbn [app]. f_equal. f_equal. Z.div_mod_to_equations. lia. }
  cbn [utf8_run].
  rewrite !byte_val_byte_of by (Z.div_mod_to_equations; lia).
  assert (Hq : 0 <= cp / 262144 <= 4) by (Z.div_mod_to_equations; lia).
  assert (Hm1 : 0 <= (cp / 4096) mod 64 < 64) by (Z.div_mod_to_equations; lia).
  assert (Hm : 0 <= (cp / 64) mod 64 < 64) by (Z.div_mod_to_equations; lia).
  assert (Hr : 0 <= cp mod 64 < 64) by (Z.div_mod_to_equations; lia).
  unfold utf8_handler at 1. unfold utf8_lead. cbn [bytes_needed utf8_initial].
  decide_comparisons. cbn [andb]. rewrite land_7 by lia.
  rewrite utf8_handler_continue; cbn [bytes_needed code_point lower_boundary upper_boundary bytes_seen]; try lia.
  2:{ destruct (Z.eqb_spec (240 + cp / 262144) 240);
      destruct (Z.eqb_spec (240 + cp / 262144) 244);
      Z.div_mod_to_equations; lia. }
  change (0 + 1 =? 3) with false. cbv iota.
  rewrite utf8_handler_continue; cbn [bytes_needed code_point lower_boundary upper_boundary bytes_seen]; try lia.
  change (0 + 1 + 1 =? 3) with false. cbv iota.
  rewrite utf8_handler_continue; cbn [bytes_needed code_point lower_boundary upper_boundary bytes_seen]; try lia.
  change (0 + 1 + 1 + 1 =? 3) with true. cbv iota.
  cbn [app]. f_equal. f_equal. Z.div_mod_to_equations. lia.
Qed.

(** A well-formed stream decodes to the text it encodes, and leaves no
    sequence unfinished. *)
Lemma utf8_run_encode_text (text : list Z) :
  forallb scalar text = true ->
  utf8_run utf8_initial (encode_text text) = (utf8_initial, text).
Proof.
  induction text as [|cp rest IH]; intros H; [reflexivity|].
  simpl in H. apply andb_true_iff in H. destruct H as [Hcp Hrest].
  unfold encode_text; simpl flat_map.
  rewrite DecoderFacts.utf8_run_app, (utf8_run_encode _ Hcp).
  fold (encode_text rest). rewrite (IH Hrest). reflexivity.
Qed.

Lemma wellformed_chunks (chunks : list (list byte)) (text : list Z) :
  forallb scalar text = true ->
  concat chunks = encode_text text ->
  pending (after_chunks create chunks) = false
  /\ concat (decode_chunks create chunks) =
     to_jsstring (snd (serialize false text)).
Proof.
  intros Hs Hc. pose proof (DecoderFacts.decode_chunks_spec create chunks) as H.
  change (resumed create) with (utf8_initial, false) in H.
  cbv beta iota in H. rewrite Hc, (utf8_run_encode_text _ Hs) in H.
  destruct (serialize false text) as [bom1 out'].
  destruct H as [H1 H2]. unfold pending. rewrite H2. split; [reflexivity|].
  exact H1.
Qed.

End EncodingFacts.

(** ** [sendMessageStream] *)

Module StreamFacts.
Import Async AsyncFacts conversationAPI Observe.

Section ReadLoop.
Context {S : Type}.
Variable onMessage : jsstring -> Async.t S unit.
Variable onDone : Async.t S unit.
Variable on_message : jsstring -> S -> S.
Variable on_done : S -> S.
Hypothesis onMessage_updates : forall text, updates_by (onMessage text) (on_message text).
Hypothesis onDone_updates : updates_by onDone on_done.

Lemma run_read_loop (td : TextDecoder.t) (values : list (list byte))
    (last : stream_end) (s : S) :
  run (read_loop td values last onMessage onDone) s =
  let s' := delivered on_message
              (filter truthy (TextDecoder.decode_chunks td values)) s in
  match last with
  | EndOfStream => (on_done s', [], Returned tt)
  | ReadFails e => (s', [], Threw e)
  end.
Proof.
  revert td s; induction values as [|v rest IH]; intros td s.
  - simpl. destruct last; simpl.
    + rewrite run_bind, onDone_updates. reflexivity.
    + reflexivity.
  - simpl. destruct (TextDecoder.decode td v true) as [td' text].
    rewrite run_bind. destruct (truthy text) eqn:T; simpl.
    + rewrite onMessage_updates, IH. simpl. rewrite T. simpl.
      destruct last; reflexivity.
    + rewrite IH. rewrite T. destruct last; reflexivity.
Qed.

Lemma run_sendMessageStream_ok (token : jsstring) (conversationId : ident)
    (content : jsstring) (code : Z) (reader : Reader) (s : S) :
  truthy token = true ->
  run (sendMessageStream (Some token) conversationId content
         (streaming_response code reader) onMessage onDone) s =
  let s' := delivered on_message (filter truthy
               (TextDecoder.decode_chunks TextDecoder.create (chunks reader))) s in
  match ending reader with
  | EndOfStream =>
      (on_done s', [EFetch (stream_request token conversationId content)],
       Returned tt)
  | ReadFails e =>
      (s', [EFetch (stream_request token conversationId content)], Threw e)
  end.
Proof.
  intros Ht. unfold sendMessageStream, with_token. rewrite Ht.
  unfold fetch, streaming_response. simpl.
  rewrite run_try_catch, run_read_loop.
  destruct (ending reader); reflexivity.
Qed.

End ReadLoop.

Lemma delivered_log (texts : list jsstring) (calls : list callback) :
  delivered (fun text calls => calls ++ [OnMessage text]) texts calls =
  calls ++ map OnMessage texts.
Proof.
  unfold delivered.
  revert calls; induction texts as [|t rest IH]; intros calls; simpl.
  - rewrite app_nil_r; reflexivity.
  - rewrite IH, <- app_assoc. reflexivity.
Qed.

Lemma emitted_text_messages (texts : list jsstring) :
  emitted_text (map OnMessage texts) = concat texts.
Proof.
  unfold emitted_text. rewrite flat_map_concat_map, map_map, map_id.
  reflexivity.
Qed.

Lemma concat_filter_truthy (texts : list jsstring) :
  concat (filter truthy texts) = concat texts.
Proof.
  induction texts as [|t rest IH]; simpl; [reflexivity|].
  destruct t; simpl; rewrite IH; reflexivity.
Qed.

Lemma emitted_text_app (a b : list callback) :
  emitted_text (a ++ b) = emitted_text a ++ emitted_text b.
Proof. apply flat_map_app. Qed.

Lemma observe_ok (token : jsstring) (conversationId : ident)
    (content : jsstring) (code : Z) (reader : Reader) :
  truthy token = true ->
  observe (Some token) conversationId content (streaming_response code reader) =
  (map OnMessage (filter truthy
      (TextDecoder.decode_chunks TextDecoder.create (chunks reader)))
     ++ match ending reader with EndOfStream => [OnDone] | ReadFails _ => [] end,
   [EFetch (stream_request token conversationId content)],
   match ending reader with
   | EndOfStream => Returned tt
   | ReadFails e => Threw e
   end).
Proof.
  intros Ht. unfold observe.
  rewrite (@run_sendMessageStream_ok (list callback)
             log_onMessage log_onDone
             (fun text calls => calls ++ [OnMessage text])
             (fun calls => calls ++ [OnDone])
             (fun text => updates_by_update _) (updates_by_update _)
             token conversationId content code reader [] Ht).
  cbv zeta. rewrite delivered_log. simpl.
  destruct (ending reader); [reflexivity|].
  rewrite app_nil_r; reflexivity.
Qed.

Lemma replay_app {S} (on_message : jsstring -> S -> S) (on_done : S -> S)
    (a b : list callback) (s : S) :
  replay on_message on_done (a ++ b) s =
  replay on_message on_done b (replay on_message on_done a s).
Proof. apply fold_left_app. Qed.

Lemma replay_messages {S} (on_message : jsstring -> S -> S) (on_done : S -> S)
    (texts : list jsstring) (s : S) :
  replay on_message on_done (map OnMessage texts) s =
  delivered on_message texts s.
Proof.
  unfold replay, delivered.
  revert s; induction texts as [|t rest IH]; intros s; simpl; auto.
Qed.

(** Callbacks that only update a state see the calls that the logging
    callbacks record: the same requests are sent, the operation ends the
    same way, and the state is the replay of the recorded calls. *)
Lemma run_by_calls {S} (onMessage : jsstring -> Async.t S unit)
    (onDone : Async.t S unit) (on_message : jsstring -> S -> S)
    (on_done : S -> S) :
  (forall text, updates_by (onMessage text) (on_message text)) ->
  updates_by onDone on_done ->
  forall (stored : option jsstring) (conversationId : ident)
         (content : jsstring) (net : fetch_result (option Reader)) (s : S),
    run (sendMessageStream stored conversationId content net onMessage onDone) s =
    let '(calls, es, r) := observe stored conversationId content net in
    (replay on_message on_done calls s, es, r).
Proof.
  intros HM HD stored conversationId content net s.
  destruct stored as [token|]; [|reflexivity].
  destruct (truthy token) eqn:Ht.
  2:{ unfold observe, sendMessageStream, with_token. rewrite Ht. reflexivity. }
  destruct net as [[is_ok code [reader|]]|e].
  - destruct is_ok.
    + change (Resolved {| ok := true; status := code; content_of := Some reader |})
        with (streaming_response code reader).
      rewrite (@observe_ok token conversationId content code reader Ht).
      rewrite (@run_sendMessageStream_ok S onMessage onDone on_message on_done
                 HM HD token conversationId content code reader s Ht).
      cbv zeta. rewrite replay_app, replay_messages.
      destruct (ending reader); reflexivity.
    + unfold observe, sendMessageStream, with_token. rewrite Ht. reflexivity.
  - unfold observe, sendMessageStream, with_token. rewrite Ht.
    destruct is_ok; reflexivity.
  - unfold observe, sendMessageStream, with_token. rewrite Ht. reflexivity.
Qed.

End StreamFacts.

(* ===================================================================== *)
(** * The stream decoder *)

Section StreamDecoder.
Import Async Observe StreamFacts.

Variable token : jsstring.
Variable conversationId : ident.
Variable content : jsstring.
Hypothesis token_present : truthy token = true.

(** C7. Whatever bytes the stream endpoint delivers, [onMessage] is
    called once for each non-empty text that [decode] returns, in order,
    and never with the empty string; when the reader reports the end of
    the stream, [onDone] is called once, as the last call; when a read
    fails instead, [onDone] is not called. *)
Theorem sendMessageStream_calls (code : Z) (reader : Reader) :
  let calls :=
    calls_of (observe (Some token) conversationId content
                (streaming_response code reader)) in
  calls =
    map OnMessage
      (filter truthy
         (TextDecoder.decode_chunks TextDecoder.create (chunks reader)))
    ++ match ending reader with
       | EndOfStream => [OnDone]
       | ReadFails _ => []
       end
  /\ ~ In (OnMessage []) calls.
Proof.
  cbv zeta. rewrite (@observe_ok token conversationId content code reader token_present). unfold calls_of; simpl.
  split; [reflexivity|].
  intros Hin. apply in_app_or in Hin. destruct Hin as [Hin|Hin].
  - apply in_map_iff in Hin. destruct Hin as [text [Heq Hin]].
    injection Heq as ->. apply filter_In in Hin. destruct Hin as [_ Hin].
    discriminate Hin.
  - destruct (ending reader); simpl in Hin.
    + destruct Hin as [Hin|[]]. discriminate Hin.
    + destruct Hin.
Qed.

(** C6. When [fetch] rejects, when the response is not [ok], and when
    the response has no body, [sendMessageStream] throws after the one
    request and before any callback is called.  For a response that is
    not [ok] the thrown [Error] carries the status code in its message;
    a rejection of [fetch] is thrown on as it is. *)
Theorem sendMessageStream_fails_before_any_call :
  (forall (code : Z) (stream_body : option Reader),
      observe (Some token) conversationId content
        (Resolved {| ok := false; status := code; content_of := stream_body |}) =
      ([], [EFetch (conversationAPI.stream_request token conversationId content)],
       Threw (ErrorObj (Text.send_failed_colon ++ number_toString code))))
  /\ (forall e : thrown,
      observe (Some token) conversationId content (Rejected e) =
      ([], [EFetch (conversationAPI.stream_request token conversationId content)],
       Threw e))
  /\ (forall code : Z,
      observe (Some token) conversationId content
        (Resolved {| ok := true; status := code; content_of := None |}) =
      ([], [EFetch (conversationAPI.stream_request token conversationId content)],
       Threw (ErrorObj Text.no_readable_stream))).
Proof.
  unfold observe, conversationAPI.sendMessageStream, conversationAPI.with_token.
  rewrite token_present.
  repeat split; intros; reflexivity.
Qed.

(** C4, as the code has it.  The texts handed to [onMessage], joined,
    are the decoding of the whole byte sequence in one call, however the
    bytes are cut into chunks, provided the stream does not stop inside a
    multi-byte sequence.  A well-formed stream never does: cut anywhere,
    it is emitted as the text it encodes (less a leading byte order
    mark). *)
Theorem streamed_text_is_whole_decoding (code : Z) (reader : Reader) :
  let emitted :=
    emitted_text
      (calls_of (observe (Some token) conversationId content
                   (streaming_response code reader))) in
  (TextDecoder.pending
     (TextDecoder.after_chunks TextDecoder.create (chunks reader)) = false ->
   emitted = TextDecoder.decode_whole (concat (chunks reader)))
  /\ (forall text : list Z,
        forallb Utf8.scalar text = true ->
        concat (chunks reader) = Utf8.encode_text text ->
        emitted = TextDecoder.decode_whole (concat (chunks reader))
        /\ emitted =
           TextDecoder.to_jsstring (snd (TextDecoder.serialize false text))).
Proof.
  cbv zeta.
  rewrite (@observe_ok token conversationId content code reader token_present).
  unfold calls_of; cbn [fst].
  rewrite emitted_text_app, emitted_text_messages, concat_filter_truthy.
  replace (emitted_text
             match ending reader with
             | EndOfStream => [OnDone]
             | ReadFails _ => []
             end) with (@nil Z) by (destruct (ending reader); reflexivity).
  rewrite app_nil_r. split.
  - apply DecoderFacts.streamed_is_whole.
  - intros text Hs Hc.
    destruct (@EncodingFacts.wellformed_chunks (chunks reader) text Hs Hc) as [Hp Ht].
    split; [apply DecoderFacts.streamed_is_whole; exact Hp | exact Ht].
Qed.

End StreamDecoder.

Lemma sendMessageStream_calls_witness :
  truthy (lit "secret") = true
  /\ Observe.calls_of
       (Observe.observe (Some (lit "secret")) (IdNum 7) (lit "Hello")
          (Observe.streaming_response 200 two_chunks_of_hi_there)) =
     [Observe.OnMessage (lit "Hi "); Observe.OnMessage (lit "there!");
      Observe.OnDone].
Proof.
  split; [reflexivity|].
  exact (proj1 (@sendMessageStream_calls (lit "secret") (IdNum 7) (lit "Hello")
                  eq_refl 200 two_chunks_of_hi_there)).
Defined.

Lemma sendMessageStream_fails_before_any_call_witness :
  truthy (lit "secret") = true
  /\ Observe.observe (Some (lit "secret")) (IdNum 7) (lit "Hello")
       (Resolved {| ok := false; status := 500; content_of := None |}) =
     ([], [EFetch (conversationAPI.stream_request (lit "secret") (IdNum 7) (lit "Hello"))],
      Async.Threw (ErrorObj (Text.send_failed_colon ++ lit "500"))).
Proof.
  split; [reflexivity|].
  exact (proj1 (@sendMessageStream_fails_before_any_call (lit "secret") (IdNum 7)
                  (lit "Hello") eq_refl) 500 None).
Defined.

Lemma streamed_text_is_whole_decoding_witness :
  let emitted :=
    Observe.emitted_text
      (Observe.calls_of
         (Observe.observe (Some (lit "secret")) (IdNum 7) (lit "Hello")
            (Observe.streaming_response 200 split_character))) in
  concat (chunks split_character) = Utf8.encode_text [20320]
  /\ TextDecoder.pending
       (TextDecoder.after_chunks TextDecoder.create (chunks split_character)) = false
  /\ emitted = TextDecoder.decode_whole (concat (chunks split_character))
  /\ emitted = [20320].
Proof.
  split; [reflexivity|]. split; [reflexivity|].
  exact (proj2 (@streamed_text_is_whole_decoding (lit "secret") (IdNum 7)
                  (lit "Hello") eq_refl 200 split_character)
           [20320] eq_refl eq_refl).
Defined.

(** C4, as stated, fails: the stream below splits a character at a chunk
    boundary and stops inside the next one; decoding its bytes in one call
    ends with U+FFFD, the streamed texts do not. *)
Lemma unfinished_tail_is_dropped :
  let emitted :=
    Observe.emitted_text
      (Observe.calls_of
         (Observe.observe (Some (lit "secret")) (IdNum 7) (lit "Hello")
            (Observe.streaming_response 200 split_character_then_cut))) in
  emitted = [20320]
  /\ TextDecoder.decode_whole (concat (chunks split_character_then_cut))
     = [20320; 65533]
  /\ emitted <> TextDecoder.decode_whole (concat (chunks split_character_then_cut)).
Proof.
  cbv zeta. split; [reflexivity|]. split; [reflexivity|].
  intros H. vm_compute in H. discriminate H.
Qed.

(* ===================================================================== *)
(** * The transcript *)

Module TranscriptFacts.
Import ConversationPage.

(** The message the chunk callback puts in the place of [msg]. *)
Lemma appendContent_nth (target : ident) (delta : jsstring)
    (prev : list Message.t) (i : nat) :
  nth_error (appendContent target delta prev) i =
  option_map
    (fun msg =>
       if strict_eq (Message.id msg) target then
         {| Message.id := Message.id msg;
            Message.role := Message.role msg;
            Message.content := Message.content msg ++ delta;
            Message.created_at := Message.created_at msg;
            Message.conversation_id := Message.conversation_id msg |}
       else msg)
    (nth_error prev i).
Proof. unfold appendContent. apply nth_error_map. Qed.

Lemma appendContent_length (target : ident) (delta : jsstring)
    (prev : list Message.t) :
  length (appendContent target delta prev) = length prev.
Proof. apply length_map. Qed.

Lemma appendContent_app (target : ident) (delta : jsstring)
    (a b : list Message.t) :
  appendContent target delta (a ++ b) =
  appendContent target delta a ++ appendContent target delta b.
Proof. apply map_app. Qed.

Lemma appendContent_nil (target : ident) (prev : list Message.t) :
  appendContent target [] prev = prev.
Proof.
  unfold appendContent. induction prev as [|m rest IH]; simpl; [reflexivity|].
  rewrite IH. destruct (strict_eq (Message.id m) target); [|reflexivity].
  destruct m; simpl. rewrite app_nil_r. reflexivity.
Qed.

Lemma appendContent_twice (target : ident) (d1 d2 : jsstring)
    (prev : list Message.t) :
  appendContent target d2 (appendContent target d1 prev) =
  appendContent target (d1 ++ d2) prev.
Proof.
  unfold appendContent. rewrite map_map. apply map_ext. intros m.
  destruct (strict_eq (Message.id m) target) eqn:E; simpl; rewrite E.
  - rewrite app_assoc. reflexivity.
  - reflexivity.
Qed.

(** Chunk after chunk is one append of the joined chunks. *)
Lemma delivered_appendContent (target : ident) (texts : list jsstring)
    (prev : list Message.t) :
  Observe.delivered (appendContent target) texts prev =
  appendContent target (concat texts) prev.
Proof.
  unfold Observe.delivered.
  revert prev; induction texts as [|t rest IH]; intros prev; simpl.
  - symmetry; apply appendContent_nil.
  - rewrite IH, appendContent_twice. reflexivity.
Qed.

Lemma appendContent_no_match (target : ident) (delta : jsstring)
    (prev : list Message.t) :
  (forall msg, In msg prev -> strict_eq (Message.id msg) target = false) ->
  appendContent target delta prev = prev.
Proof.
  intros H. unfold appendContent.
  rewrite <- (map_id prev) at 2. apply map_ext_in.
  intros m Hin. rewrite (H m Hin). reflexivity.
Qed.

Lemma strict_eq_refl (i : ident) : strict_eq i i = true.
Proof.
  destruct i as [s|n]; simpl.
  - unfold jsstring_eqb. destruct (jsstring_eq_dec s s); congruence.
  - apply Z.eqb_refl.
Qed.

Lemma strict_eq_true (i j : ident) : strict_eq i j = true -> i = j.
Proof.
  destruct i as [s|n], j as [t|m]; simpl; try discriminate.
  - unfold jsstring_eqb. destruct (jsstring_eq_dec s t); congruence.
  - intros H. apply Z.eqb_eq in H. congruence.
Qed.

End TranscriptFacts.

(** C9. Applying a streamed delta keeps the number and the order of the
    messages; at every position, a message whose identifier is the target
    gets the delta appended to its content and keeps its identifier, role,
    creation time and conversation identifier, and any other message is
    left as it is; when no message has the target identifier the transcript
    is unchanged. *)
Theorem appendContent_frame (target : ident) (delta : jsstring)
    (prev : list Message.t) :
  length (ConversationPage.appendContent target delta prev) = length prev
  /\ (forall (i : nat) (msg : Message.t),
        nth_error prev i = Some msg ->
        exists msg',
          nth_error (ConversationPage.appendContent target delta prev) i = Some msg'
          /\ Message.id msg' = Message.id msg
          /\ Message.role msg' = Message.role msg
          /\ Message.created_at msg' = Message.created_at msg
          /\ Message.conversation_id msg' = Message.conversation_id msg
          /\ Message.content msg' =
               (if strict_eq (Message.id msg) target
                then Message.content msg ++ delta
                else Message.content msg)
          /\ (strict_eq (Message.id msg) target = false -> msg' = msg))
  /\ ((forall msg, In msg prev -> strict_eq (Message.id msg) target = false) ->
      ConversationPage.appendContent target delta prev = prev).
Proof.
  split; [apply length_map|]. split.
  - intros i msg Hi. rewrite TranscriptFacts.appendContent_nth, Hi. simpl.
    destruct (strict_eq (Message.id msg) target); eexists; split;
      try reflexivity; simpl; repeat split; try reflexivity; discriminate.
  - apply TranscriptFacts.appendContent_no_match.
Qed.

(* ===================================================================== *)
(** * Reading a field of an updated state *)

Module StateFacts.
Import ConversationPage.

Lemma messages_with_messages f st :
  messages (with_messages f st) = f (messages st).
Proof. reflexivity. Qed.
Lemma messages_with_conversation v st :
  messages (with_conversation v st) = messages st.
Proof. reflexivity. Qed.
Lemma messages_with_isLoading v st :
  messages (with_isLoading v st) = messages st.
Proof. reflexivity. Qed.
Lemma messages_with_error v st : messages (with_error v st) = messages st.
Proof. reflexivity. Qed.
Lemma messages_with_debugInfo v st :
  messages (with_debugInfo v st) = messages st.
Proof. reflexivity. Qed.
Lemma messages_with_newMessage v st :
  messages (with_newMessage v st) = messages st.
Proof. reflexivity. Qed.
Lemma messages_with_isSending v st :
  messages (with_isSending v st) = messages st.
Proof. reflexivity. Qed.
Lemma messages_with_selectedModel v st :
  messages (with_selectedModel v st) = messages st.
Proof. reflexivity. Qed.

Lemma selectedModel_with_selectedModel v st :
  selectedModel (with_selectedModel v st) = v.
Proof. reflexivity. Qed.
Lemma selectedModel_with_conversation v st :
  selectedModel (with_conversation v st) = selectedModel st.
Proof. reflexivity. Qed.
Lemma selectedModel_with_error v st :
  selectedModel (with_error v st) = selectedModel st.
Proof. reflexivity. Qed.
Lemma selectedModel_with_debugInfo v st :
  selectedModel (with_debugInfo v st) = selectedModel st.
Proof. reflexivity. Qed.

Lemma error_with_error v st : error (with_error v st) = v.
Proof. reflexivity. Qed.
Lemma error_with_debugInfo v st : error (with_debugInfo v st) = error st.
Proof. reflexivity. Qed.

Lemma conversation_with_selectedModel v st :
  conversation (with_selectedModel v st) = conversation st.
Proof. reflexivity. Qed.
Lemma conversation_with_error v st :
  conversation (with_error v st) = conversation st.
Proof. reflexivity. Qed.
Lemma conversation_with_debugInfo v st :
  conversation (with_debugInfo v st) = conversation st.
Proof. reflexivity. Qed.

End StateFacts.

Create Rewrite HintDb page_state.

#[export] Hint Rewrite
  StateFacts.messages_with_messages StateFacts.messages_with_conversation
  StateFacts.messages_with_isLoading StateFacts.messages_with_error
  StateFacts.messages_with_debugInfo StateFacts.messages_with_newMessage
  StateFacts.messages_with_isSending StateFacts.messages_with_selectedModel
  StateFacts.selectedModel_with_selectedModel
  StateFacts.selectedModel_with_conversation
  StateFacts.selectedModel_with_error StateFacts.selectedModel_with_debugInfo
  StateFacts.error_with_error StateFacts.error_with_debugInfo
  StateFacts.conversation_with_selectedModel
  StateFacts.conversation_with_error StateFacts.conversation_with_debugInfo
  : page_state.

(* ===================================================================== *)
(** * Sending a message *)

Module SendFacts.
Import Async AsyncFacts ConversationPage Observe.

Lemma jsstring_eqb_neq (a b : jsstring) : a <> b -> jsstring_eqb a b = false.
Proof.
  intros H. unfold jsstring_eqb. destruct (jsstring_eq_dec a b); congruence.
Qed.

Lemma jsstring_eqb_eq (a b : jsstring) : jsstring_eqb a b = true -> a = b.
Proof.
  unfold jsstring_eqb. destruct (jsstring_eq_dec a b); congruence.
Qed.

(** The state at the first suspension of an accepted send on an existing
    conversation: user message and placeholder appended, input cleared,
    [isSending] set. *)
Lemma started_eq (w : SendWorld) (s : PageState) :
  with_messages (fun prev => prev ++ [tempAssistantMessage_of w s])
    (with_isSending true
       (with_newMessage []
          (with_messages (fun prev => prev ++ [userMessage_of w s]) s))) =
  with_isSending true
    (with_newMessage []
       (with_messages
          (fun prev => prev ++ [userMessage_of w s; tempAssistantMessage_of w s])
          s)).
Proof.
  unfold with_messages, with_isSending, with_newMessage; simpl.
  rewrite <- app_assoc. reflexivity.
Qed.

Section Accepted.
Variable w : SendWorld.
Variable s : PageState.
Hypothesis text_present : truthy (trim (newMessage s)) = true.
Hypothesis model_selected : truthy (selectedModel s) = true.
Hypothesis idle : isSending s = false.
Hypothesis backend : usingMock s = false.

Lemma run_send_existing :
  conversationId s <> lit "new" ->
  run (handleSendMessage w s) s =
  let s1 :=
    with_isSending true
      (with_newMessage []
         (with_messages
            (fun prev => prev ++ [userMessage_of w s; tempAssistantMessage_of w s])
            s)) in
  let '(s2, es, r) :=
    run (conversationAPI.sendMessageStream (send_token w)
           (IdStr (conversationId s)) (newMessage s) (stream w)
           (fun content =>
              setMessages (appendContent (tempAssistantId_of w) content))
           (setIsSending false ;; setDebugInfo Text.stream_complete)) s1 in
  match r with
  | Returned _ => (with_isSending false s2, EPreventDefault :: es, Returned tt)
  | Threw err =>
      (with_isSending false
         (with_messages (removeMessage (Message.id (userMessage_of w s)))
            (with_error (Some (message_or Text.send_failed err))
               (with_debugInfo
                  (Text.send_failed_colon
                     ++ message_or Text.unknown_error err) s2))),
       EPreventDefault :: es, Returned tt)
  end.
Proof.
  intros Hnew. unfold handleSendMessage.
  rewrite text_present, model_selected, idle, backend.
  rewrite (jsstring_eqb_neq Hnew).
  cbn [negb orb bind perform update setMessages setNewMessage setIsSending run].
  rewrite run_try_finally, run_try_catch.
  cbn [bind update setMessages run]. rewrite started_eq. cbv zeta.
  match goal with
  | |- context [run (conversationAPI.sendMessageStream ?a ?b ?c ?d ?e ?f) ?st] =>
      destruct (run (conversationAPI.sendMessageStream a b c d e f) st)
        as [[s2 es] [[]|err]]
  end.
  - cbn. rewrite app_nil_r. reflexivity.
  - cbn. rewrite !app_nil_r. reflexivity.
Qed.

End Accepted.

Lemma with_messages_ext (f g : list Message.t -> list Message.t)
    (st : PageState) :
  (forall l, f l = g l) -> with_messages f st = with_messages g st.
Proof. intros H. unfold with_messages. rewrite H. reflexivity. Qed.

Lemma delivered_with_messages
    (g : jsstring -> list Message.t -> list Message.t)
    (texts : list jsstring) (st : PageState) :
  delivered (fun text => with_messages (g text)) texts st =
  with_messages (delivered g texts) st.
Proof.
  unfold delivered.
  revert st; induction texts as [|t rest IH]; intros st; simpl.
  - destruct st; reflexivity.
  - rewrite IH. reflexivity.
Qed.

Lemma onDone_updates :
  updates_by (setIsSending false ;; setDebugInfo Text.stream_complete)
    (fun st => with_debugInfo Text.stream_complete (with_isSending false st)).
Proof.
  apply (updates_by_seq (g1 := with_isSending false)
           (g2 := with_debugInfo Text.stream_complete));
    apply updates_by_update.
Qed.

(** What a completed stream tells about the world it came from. *)
Lemma observe_done_inv (stored : option jsstring) (conversationId : ident)
    (content : jsstring) (net : fetch_result (option Reader))
    (texts : list jsstring) :
  calls_of (observe stored conversationId content net) =
    map OnMessage texts ++ [OnDone] ->
  exists token code reader,
    stored = Some token /\ truthy token = true
    /\ net = streaming_response code reader
    /\ ending reader = EndOfStream
    /\ texts = filter truthy
                 (TextDecoder.decode_chunks TextDecoder.create (chunks reader)).
Proof.
  intros H.
  assert (Hnil : forall o, calls_of o = [] -> o = observe stored conversationId content net -> False).
  { intros o Ho ->. rewrite Ho in H. destruct (map OnMessage texts); discriminate H. }
  destruct stored as [token|]; [|exfalso; eapply Hnil; [|reflexivity]; reflexivity].
  destruct (truthy token) eqn:Ht.
  2:{ exfalso. eapply Hnil; [|reflexivity].
      unfold observe, conversationAPI.sendMessageStream, conversationAPI.with_token.
      rewrite Ht. reflexivity. }
  destruct net as [[is_ok code [reader|]]|e].
  - destruct is_ok.
    + change (Resolved {| ok := true; status := code; content_of := Some reader |})
        with (streaming_response code reader) in *.
      rewrite (@StreamFacts.observe_ok token conversationId content code reader Ht) in H.
      unfold calls_of in H; simpl in H.
      exists token, code, reader. split; [reflexivity|]. split; [exact Ht|].
      split; [reflexivity|].
      destruct (ending reader) as [|e].
      * split; [reflexivity|].
        apply app_inj_tail in H. destruct H as [H _].
        symmetry. revert H. generalize (filter truthy
          (TextDecoder.decode_chunks TextDecoder.create (chunks reader))).
        intros l. revert texts. induction l as [|x l IH]; intros [|y texts] H;
          try discriminate H; [reflexivity|].
        simpl in H. injection H as -> H. f_equal. apply IH. exact H.
      * exfalso. rewrite app_nil_r in H.
        assert (Hin : In OnDone (map OnMessage texts ++ [OnDone]))
          by (apply in_or_app; right; left; reflexivity).
        rewrite <- H in Hin. apply in_map_iff in Hin.
        destruct Hin as [x [Hx _]]. discriminate Hx.
    + exfalso. eapply Hnil; [|reflexivity].
      unfold observe, conversationAPI.sendMessageStream, conversationAPI.with_token.
      rewrite Ht. reflexivity.
  - exfalso. eapply Hnil; [|reflexivity].
    unfold observe, conversationAPI.sendMessageStream, conversationAPI.with_token.
    rewrite Ht. destruct is_ok; reflexivity.
  - exfalso. eapply Hnil; [|reflexivity].
    unfold observe, conversationAPI.sendMessageStream, conversationAPI.with_token.
    rewrite Ht. reflexivity.
Qed.

Section Completed.
Variable w : SendWorld.
Variable s : PageState.
Variable texts : list jsstring.
Hypothesis text_present : truthy (trim (newMessage s)) = true.
Hypothesis model_selected : truthy (selectedModel s) = true.
Hypothesis idle : isSending s = false.
Hypothesis backend : usingMock s = false.
Hypothesis existing : conversationId s <> lit "new".
Hypothesis completed :
  calls_of (observe (send_token w) (IdStr (conversationId s))
              (newMessage s) (stream w)) =
  map OnMessage texts ++ [OnDone].

(** The state a completed send ends in. *)
Lemma run_send_completed :
  exists request,
    run (handleSendMessage w s) s =
    (with_isSending false
       (with_debugInfo Text.stream_complete
          (with_isSending false
             (with_messages
                (appendContent (tempAssistantId_of w) (concat texts))
                (with_isSending true
                   (with_newMessage []
                      (with_messages
                         (fun prev =>
                            prev ++ [userMessage_of w s;
                                     tempAssistantMessage_of w s]) s)))))),
     [EPreventDefault; EFetch request], Returned tt).
Proof.
  destruct (observe_done_inv _ _ _ _ _ completed)
    as (token & code & reader & Hs & Ht & Hn & He & Htexts).
  exists (conversationAPI.stream_request token (IdStr (conversationId s))
            (newMessage s)).
  rewrite (@run_send_existing w s text_present model_selected idle backend existing).
  cbv zeta. rewrite Hs, Hn.
  rewrite (@StreamFacts.run_sendMessageStream_ok PageState _ _
             (fun text => with_messages (appendContent (tempAssistantId_of w) text))
             (fun st => with_debugInfo Text.stream_complete (with_isSending false st))
             (fun text => updates_by_update _) onDone_updates
             token _ _ code reader _ Ht).
  cbv zeta. rewrite He, <- Htexts.
  rewrite (delivered_with_messages (appendContent (tempAssistantId_of w))).
  rewrite (with_messages_ext _ _ _
             (TranscriptFacts.delivered_appendContent (tempAssistantId_of w) texts)).
  reflexivity.
Qed.

End Completed.

(** A number printed in decimal starts with a digit or a minus sign. *)
Lemma number_toString_head (n : Z) :
  exists c rest, number_toString n = c :: rest /\ c <> 97.
Proof.
  unfold number_toString.
  destruct (Z.to_int n) as [d|d]; destruct d; simpl;
    eexists; eexists; (split; [reflexivity | discriminate]).
Qed.

(** [tempId] is never [tempAssistantId]: the latter starts with "a". *)
Lemma number_is_not_assistant (n m : Z) :
  strict_eq (IdStr (number_toString n))
            (IdStr (lit "assistant-" ++ number_toString m)) = false
  /\ strict_eq (IdStr (lit "assistant-" ++ number_toString m))
               (IdStr (number_toString n)) = false.
Proof.
  destruct (number_toString_head n) as (c & rest & E & Hc). rewrite E.
  split; apply jsstring_eqb_neq; intros H; simpl in H; congruence.
Qed.

Lemma user_is_not_placeholder (w : SendWorld) (s : PageState) :
  strict_eq (Message.id (userMessage_of w s)) (tempAssistantId_of w) = false.
Proof. apply number_is_not_assistant. Qed.

Lemma placeholder_is_not_user (w : SendWorld) (s : PageState) :
  strict_eq (Message.id (tempAssistantMessage_of w s))
            (Message.id (userMessage_of w s)) = false.
Proof. apply number_is_not_assistant. Qed.

(** The transcript after a completed send. *)
Lemma appendContent_started (w : SendWorld) (s : PageState) (text : jsstring) :
  appendContent (tempAssistantId_of w) text
    (messages s ++ [userMessage_of w s; tempAssistantMessage_of w s]) =
  appendContent (tempAssistantId_of w) text (messages s)
    ++ [userMessage_of w s;
        {| Message.id := tempAssistantId_of w;
           Message.role := assistant;
           Message.content := text;
           Message.created_at := assistant_created_at w;
           Message.conversation_id := IdStr (conversationId s) |}].
Proof.
  rewrite TranscriptFacts.appendContent_app. f_equal.
  unfold appendContent; cbn [map].
  rewrite user_is_not_placeholder.
  change (Message.id (tempAssistantMessage_of w s)) with (tempAssistantId_of w).
  rewrite TranscriptFacts.strict_eq_refl. reflexivity.
Qed.

(** The transcript after the catch branch ran on a started send. *)
Lemma removeMessage_started (w : SendWorld) (s : PageState) :
  removeMessage (Message.id (userMessage_of w s))
    (messages s ++ [userMessage_of w s; tempAssistantMessage_of w s]) =
  removeMessage (Message.id (userMessage_of w s)) (messages s)
    ++ [tempAssistantMessage_of w s].
Proof.
  unfold removeMessage. rewrite filter_app. f_equal. cbn [filter].
  rewrite TranscriptFacts.strict_eq_refl, placeholder_is_not_user.
  reflexivity.
Qed.

Section FailedEarly.
Variable w : SendWorld.
Variable s : PageState.
Variable es : list effect.
Variable err : thrown.
Hypothesis text_present : truthy (trim (newMessage s)) = true.
Hypothesis model_selected : truthy (selectedModel s) = true.
Hypothesis idle : isSending s = false.
Hypothesis backend : usingMock s = false.
Hypothesis existing : conversationId s <> lit "new".
Hypothesis failed :
  observe (send_token w) (IdStr (conversationId s)) (newMessage s) (stream w) =
  ([], es, Threw err).

(** The state a send ends in when the stream operation throws before
    any callback was called. *)
Lemma run_send_failed_early :
  run (handleSendMessage w s) s =
  (with_isSending false
     (with_messages (removeMessage (Message.id (userMessage_of w s)))
        (with_error (Some (message_or Text.send_failed err))
           (with_debugInfo
              (Text.send_failed_colon ++ message_or Text.unknown_error err)
              (with_isSending true
                 (with_newMessage []
                    (with_messages
                       (fun prev =>
                          prev ++ [userMessage_of w s;
                                   tempAssistantMessage_of w s]) s)))))),
   EPreventDefault :: es, Returned tt).
Proof.
  rewrite (@run_send_existing w s text_present model_selected idle backend existing).
  cbv zeta.
  rewrite (@StreamFacts.run_by_calls PageState _ _
             (fun text => with_messages (appendContent (tempAssistantId_of w) text))
             (fun st => with_debugInfo Text.stream_complete (with_isSending false st))
             (fun text => updates_by_update _) onDone_updates).
  rewrite failed. reflexivity.
Qed.

End FailedEarly.



(** A handler created while [isSending] is set, or with nothing to send,
    or with no model selected, does nothing but [e.preventDefault()]. *)
Lemma handleSendMessage_rejected (w : SendWorld) (snap : PageState) :
  truthy (trim (newMessage snap)) = false
  \/ truthy (selectedModel snap) = false
  \/ isSending snap = true ->
  handleSendMessage w snap = perform EPreventDefault.
Proof.
  intros H. unfold handleSendMessage.
  replace (negb (truthy (trim (newMessage snap)))
           || negb (truthy (selectedModel snap)) || isSending snap)
    with true; [reflexivity|].
  destruct H as [H|[H|H]]; rewrite H; simpl.
  - reflexivity.
  - rewrite orb_true_r. reflexivity.
  - rewrite orb_true_r. reflexivity.
Qed.

(** An accepted submit begins by appending the user message, clearing
    the input and setting [isSending]. *)
Lemma handleSendMessage_accepted (w : SendWorld) (s : PageState) :
  truthy (trim (newMessage s)) = true ->
  truthy (selectedModel s) = true ->
  isSending s = false ->
  exists rest,
    handleSendMessage w s =
    Perform EPreventDefault
      (Update (with_messages (fun prev => prev ++ [userMessage_of w s]))
         (Update (with_newMessage [])
            (Update (with_isSending true) rest))).
Proof.
  intros H1 H2 H3. unfold handleSendMessage. rewrite H1, H2, H3.
  cbn [negb orb bind perform update setMessages setNewMessage setIsSending].
  eexists. reflexivity.
Qed.


End SendFacts.

Section OneSend.
Import Async ConversationPage Observe.

Variable w : SendWorld.
Variable s : PageState.
Hypothesis text_present : truthy (trim (newMessage s)) = true.
Hypothesis model_selected : truthy (selectedModel s) = true.
Hypothesis idle : isSending s = false.
Hypothesis backend : usingMock s = false.
Hypothesis existing : conversationId s <> lit "new".

(** C1. When the stream operation of a send hands the texts
    [c1 .. cn] to its chunk callback and then reports completion, the
    transcript the send ends with has, right after the user message, the
    placeholder with the content [c1 ++ .. ++ cn] and nothing else changed
    in it. *)
Theorem placeholder_content_is_concatenation (texts : list jsstring) :
  calls_of (observe (send_token w) (IdStr (conversationId s))
              (newMessage s) (stream w)) =
    map OnMessage texts ++ [OnDone] ->
  nth_error (messages (fst (fst (run (handleSendMessage w s) s))))
    (length (messages s) + 1) =
  Some {| Message.id := tempAssistantId_of w;
          Message.role := assistant;
          Message.content := concat texts;
          Message.created_at := assistant_created_at w;
          Message.conversation_id := IdStr (conversationId s) |}.
Proof.
  intros completed.
  destruct (@SendFacts.run_send_completed w s texts text_present
              model_selected idle backend existing completed) as [request ->].
  cbn [fst]. autorewrite with page_state.
  rewrite SendFacts.appendContent_started.
  rewrite nth_error_app2; rewrite TranscriptFacts.appendContent_length; [|lia].
  replace (length (messages s) + 1 - length (messages s))%nat with 1%nat by lia.
  reflexivity.
Qed.

(** C2, what the code does.  When the stream operation throws before
    any chunk was handed over, the user message is removed from the
    transcript, but the empty placeholder that was appended before the
    request stays as its last entry. *)
Theorem failed_send_keeps_placeholder (es : list effect) (err : thrown) :
  observe (send_token w) (IdStr (conversationId s)) (newMessage s) (stream w) =
    ([], es, Threw err) ->
  messages (fst (fst (run (handleSendMessage w s) s))) =
  removeMessage (Message.id (userMessage_of w s)) (messages s)
    ++ [tempAssistantMessage_of w s].
Proof.
  intros failed.
  rewrite (@SendFacts.run_send_failed_early w s es err text_present
             model_selected idle backend existing failed).
  cbn [fst]. autorewrite with page_state.
  apply SendFacts.removeMessage_started.
Qed.

End OneSend.

(* ===================================================================== *)
(** * Switching the model *)

Module SwitchFacts.
Import Async AsyncFacts ConversationPage.

(** The three requests of a model switch use no state. *)
Lemma run_updateConversationModel {S} (stored : option jsstring)
    (conversationId : ident) (modelId : jsstring)
    (net : fetch_result (parsed Conversation.t)) (st : S) :
  run (conversationAPI.updateConversationModel stored conversationId modelId net) st =
  (st,
   fst (attempt (conversationAPI.updateConversationModel stored conversationId modelId net)),
   snd (attempt (conversationAPI.updateConversationModel stored conversationId modelId net))).
Proof.
  unfold attempt, conversationAPI.updateConversationModel, conversationAPI.with_token.
  destruct stored as [token|]; [|reflexivity].
  destruct (truthy token); [|reflexivity].
  destruct net as [[is_ok code [v|e]]|e]; try destruct is_ok; reflexivity.
Qed.

Lemma run_fallbackUpdate {S} (stored : option jsstring)
    (conversationId modelId : jsstring)
    (net : fetch_result (parsed Conversation.t)) (st : S) :
  run (fallbackUpdate stored conversationId modelId net) st =
  (st,
   fst (attempt (fallbackUpdate stored conversationId modelId net)),
   snd (attempt (fallbackUpdate stored conversationId modelId net))).
Proof.
  unfold attempt, fallbackUpdate.
  destruct net as [[is_ok code [v|e]]|e]; try destruct is_ok; reflexivity.
Qed.

Lemma run_resetConversation {S} (stored : option jsstring)
    (conversationId : ident) (net : fetch_result (parsed unit)) (st : S) :
  run (conversationAPI.resetConversation stored conversationId net) st =
  (st,
   fst (attempt (conversationAPI.resetConversation stored conversationId net)),
   snd (attempt (conversationAPI.resetConversation stored conversationId net))).
Proof.
  unfold attempt, conversationAPI.resetConversation, conversationAPI.with_token.
  destruct stored as [token|]; [|reflexivity].
  destruct (truthy token); [|reflexivity].
  destruct net as [[is_ok code [v|e]]|e]; try destruct is_ok; reflexivity.
Qed.

Section BothFail.
Variable w : SwitchWorld.
Variable s : PageState.
Variable modelId : jsstring.
Variable primaryError : thrown.
Hypothesis existing : conversationId s <> lit "new".
Hypothesis primary_fails :
  snd (attempt (conversationAPI.updateConversationModel (switch_token w)
                  (IdStr (conversationId s)) modelId (primary w))) =
  Threw primaryError.

Lemma run_switch_fallback_update_fails (fallbackError : thrown) :
  snd (attempt (fallbackUpdate (switch_token w) (conversationId s)
                  modelId (fallback w))) = Threw fallbackError ->
  fst (fst (run (handleModelChange w s modelId) s)) =
  reported primaryError (before_fallback modelId s).
Proof.
  intros Hf. unfold handleModelChange. rewrite (SendFacts.jsstring_eqb_neq existing).
  cbn [negb bind update setSelectedModel run].
  rewrite run_try_catch.
  cbn [bind update setDebugInfo setError run].
  rewrite run_try_catch, run_bind, run_updateConversationModel, primary_fails.
  rewrite run_try_catch.
  cbn [bind update setDebugInfo run].
  rewrite run_bind, run_fallbackUpdate, Hf.
  reflexivity.
Qed.

Lemma run_switch_reset_fails (updated : Conversation.t) (resetError : thrown) :
  snd (attempt (fallbackUpdate (switch_token w) (conversationId s)
                  modelId (fallback w))) = Returned updated ->
  snd (attempt (conversationAPI.resetConversation (switch_token w)
                  (IdStr (conversationId s)) (reset w))) = Threw resetError ->
  fst (fst (run (handleModelChange w s modelId) s)) =
  reported primaryError
    (with_debugInfo Text.fallback_updated_resetting
       (with_conversation (Some updated) (before_fallback modelId s))).
Proof.
  intros Hf Hr. unfold handleModelChange. rewrite (SendFacts.jsstring_eqb_neq existing).
  cbn [negb bind update setSelectedModel run].
  rewrite run_try_catch.
  cbn [bind update setDebugInfo setError run].
  rewrite run_try_catch, run_bind, run_updateConversationModel, primary_fails.
  rewrite run_try_catch.
  cbn [bind update setDebugInfo run].
  rewrite run_bind, run_fallbackUpdate, Hf.
  cbn [bind update setDebugInfo setConversation run].
  rewrite run_bind, run_resetConversation, Hr.
  reflexivity.
Qed.

End BothFail.

End SwitchFacts.

Lemma hello_page_exists : ConversationPage.conversationId hello_page <> lit "new".
Proof. discriminate. Defined.

Lemma placeholder_content_is_concatenation_witness :
  nth_error
    (ConversationPage.messages
       (fst (fst (Async.run
                    (ConversationPage.handleSendMessage
                       (world_with (Observe.streaming_response 200 two_chunks_of_hi_there))
                       hello_page)
                    hello_page)))) 1 =
  Some {| Message.id := IdStr (lit "assistant-1700000000001");
          Message.role := assistant;
          Message.content := lit "Hi there!";
          Message.created_at := lit "2023-11-14T22:13:20.001Z";
          Message.conversation_id := IdStr (lit "1") |}.
Proof.
  exact (@placeholder_content_is_concatenation
           (world_with (Observe.streaming_response 200 two_chunks_of_hi_there))
           hello_page eq_refl eq_refl eq_refl eq_refl hello_page_exists
           [lit "Hi "; lit "there!"] eq_refl).
Defined.

(** C2 at the failing input: the stream endpoint answers 500 to the first
    send on an empty transcript; the transcript ends with one message, the
    empty placeholder. *)
Lemma failed_send_keeps_placeholder_witness :
  ConversationPage.messages hello_page = []
  /\ ConversationPage.messages
       (fst (fst (Async.run
                    (ConversationPage.handleSendMessage (world_with http_500) hello_page)
                    hello_page))) =
     [ {| Message.id := IdStr (lit "assistant-1700000000001");
          Message.role := assistant;
          Message.content := [];
          Message.created_at := lit "2023-11-14T22:13:20.001Z";
          Message.conversation_id := IdStr (lit "1") |} ].
Proof.
  split; [reflexivity|].
  exact (@failed_send_keeps_placeholder (world_with http_500) hello_page
           eq_refl eq_refl eq_refl eq_refl hello_page_exists
           [EFetch (conversationAPI.stream_request (lit "secret") (IdStr (lit "1"))
                      (lit "Hello"))]
           (ErrorObj (Text.send_failed_colon ++ lit "500")) eq_refl).
Defined.

(* ===================================================================== *)
(** * Creating a conversation *)

Section NewConversation.
Import Async ConversationPage.

Variable w : SendWorld.
Variable s : PageState.
Variable token : jsstring.
Hypothesis text_present : truthy (trim (newMessage s)) = true.
Hypothesis model_selected : truthy (selectedModel s) = true.
Hypothesis idle : isSending s = false.
Hypothesis backend : usingMock s = false.
Hypothesis marker : conversationId s = lit "new".
Hypothesis stored : send_token w = Some token.
Hypothesis token_present : truthy token = true.

(** C10. A send on the route "new" makes one request, the creation
    request, whose body has as [title] the first 50 code units of the
    text as typed (all of it when it has no more than 50) and as [model]
    the selected model; the only other thing it does outside the page
    state is to navigate to the new conversation when the answer can be
    read. *)
Theorem new_conversation_request :
  snd (fst (run (handleSendMessage w s) s)) =
    [EPreventDefault;
     EFetch (conversationAPI.create_request token (newMessage s) (selectedModel s))]
    ++ match create w with
       | Resolved response =>
           match content_of response with
           | Parsed newConversation =>
               [ENavigate (lit "/conversations/"
                             ++ ident_toString (Conversation.id newConversation))]
           | ParseFails _ => []
           end
       | Rejected _ => []
       end
  /\ body (conversationAPI.create_request token (newMessage s) (selectedModel s)) =
     Some [(lit "title", firstn 50 (newMessage s));
           (lit "model", selectedModel s)]
  /\ ((length (newMessage s) <= 50)%nat ->
      firstn 50 (newMessage s) = newMessage s).
Proof.
  split; [|split; [reflexivity | apply firstn_all2]].
  unfold handleSendMessage.
  rewrite text_present, model_selected, idle, backend, marker.
  change (jsstring_eqb (lit "new") (lit "new")) with true.
  unfold conversationAPI.createConversation, conversationAPI.with_token.
  rewrite stored, token_present.
  destruct (create w) as [[is_ok code [c|e]]|e]; reflexivity.
Qed.

End NewConversation.

Lemma new_conversation_request_witness :
  snd (fst (Async.run (ConversationPage.handleSendMessage creating_world new_page)
              new_page)) =
  [EPreventDefault;
   EFetch {| url := lit "http://localhost:8000/api/v1/conversations";
             method := lit "POST";
             headers := [(lit "Content-Type", lit "application/json");
                         (lit "Authorization", lit "Bearer secret")];
             body := Some [(lit "title", lit "Hello");
                           (lit "model", lit "gpt-4")] |};
   ENavigate (lit "/conversations/42")].
Proof.
  exact (proj1 (@new_conversation_request creating_world new_page (lit "secret")
                  eq_refl eq_refl eq_refl eq_refl eq_refl eq_refl eq_refl)).
Defined.

(* ===================================================================== *)
(** * A model switch that fails twice *)

Section SwitchFailsTwice.
Import Async ConversationPage.

Variable w : SwitchWorld.
Variable s : PageState.
Variable modelId : jsstring.
Variable primaryError : thrown.
Hypothesis existing : conversationId s <> lit "new".
Hypothesis primary_fails :
  snd (attempt (conversationAPI.updateConversationModel (switch_token w)
                  (IdStr (conversationId s)) modelId (primary w))) =
  Threw primaryError.
Hypothesis fallback_fails :
  (exists fallbackError,
      snd (attempt (fallbackUpdate (switch_token w) (conversationId s)
                      modelId (fallback w))) = Threw fallbackError)
  \/ (exists updated resetError,
        snd (attempt (fallbackUpdate (switch_token w) (conversationId s)
                        modelId (fallback w))) = Returned updated
        /\ snd (attempt (conversationAPI.resetConversation (switch_token w)
                           (IdStr (conversationId s)) (reset w))) =
           Threw resetError).

(** C8. When the primary update throws and the fallback (its update or
    the reset after it) throws too, the error the page shows is the
    message of what the primary update threw. *)
Theorem switch_reports_primary_error :
  error (fst (fst (run (handleModelChange w s modelId) s))) =
  Some (message_or Text.update_model_failed primaryError).
Proof.
  destruct fallback_fails as [[e He]|[c [e [Hc He]]]].
  - rewrite (@SwitchFacts.run_switch_fallback_update_fails
               w s modelId primaryError existing primary_fails e He).
    unfold reported. autorewrite with page_state. reflexivity.
  - rewrite (@SwitchFacts.run_switch_reset_fails
               w s modelId primaryError existing primary_fails c e Hc He).
    unfold reported. autorewrite with page_state. reflexivity.
Qed.

(** C3, as the code has it.  After a switch in which the primary update
    and the fallback both throw, an error is shown and the transcript is
    as before, and so is the conversation record when it was the fallback
    update itself that threw; the selected model, which is set before any
    request, is the requested one. *)
Theorem failed_switch_keeps_requested_model :
  let final := fst (fst (run (handleModelChange w s modelId) s)) in
  selectedModel final = modelId
  /\ error final = Some (message_or Text.update_model_failed primaryError)
  /\ messages final = messages s
  /\ ((exists fallbackError,
         snd (attempt (fallbackUpdate (switch_token w) (conversationId s)
                         modelId (fallback w))) = Threw fallbackError) ->
      conversation final = conversation s).
Proof.
  cbv zeta.
  destruct fallback_fails as [[e He]|[c [e [Hc He]]]].
  - rewrite (@SwitchFacts.run_switch_fallback_update_fails
               w s modelId primaryError existing primary_fails e He).
    unfold reported, before_fallback. autorewrite with page_state.
    repeat split; reflexivity.
  - rewrite (@SwitchFacts.run_switch_reset_fails
               w s modelId primaryError existing primary_fails c e Hc He).
    unfold reported, before_fallback. autorewrite with page_state.
    repeat split; try reflexivity.
    intros [e' He']. rewrite Hc in He'. discriminate He'.
Qed.

End SwitchFailsTwice.

Lemma both_updates_fail_fallback :
  (exists fallbackError,
      snd (Async.attempt
             (ConversationPage.fallbackUpdate
                (ConversationPage.switch_token both_updates_fail)
                (ConversationPage.conversationId hello_page) (lit "claude-3")
                (ConversationPage.fallback both_updates_fail))) =
      Async.Threw fallbackError)
  \/ (exists updated resetError,
        snd (Async.attempt
               (ConversationPage.fallbackUpdate
                  (ConversationPage.switch_token both_updates_fail)
                  (ConversationPage.conversationId hello_page) (lit "claude-3")
                  (ConversationPage.fallback both_updates_fail))) =
        Async.Returned updated
        /\ snd (Async.attempt
                  (conversationAPI.resetConversation
                     (ConversationPage.switch_token both_updates_fail)
                     (IdStr (ConversationPage.conversationId hello_page))
                     (ConversationPage.reset both_updates_fail))) =
           Async.Threw resetError).
Proof.
  left. exists (ErrorObj (Text.update_failed_colon ++ lit "500")). reflexivity.
Defined.

Lemma switch_reports_primary_error_witness :
  ConversationPage.error
    (fst (fst (Async.run
                 (ConversationPage.handleModelChange both_updates_fail hello_page
                    (lit "claude-3")) hello_page))) =
  Some (Text.update_model_failed_colon ++ lit "500").
Proof.
  exact (@switch_reports_primary_error both_updates_fail hello_page (lit "claude-3")
           (ErrorObj (Text.update_model_failed_colon ++ lit "500"))
           hello_page_exists eq_refl both_updates_fail_fallback).
Defined.

Lemma failed_switch_keeps_requested_model_witness :
  let final :=
    fst (fst (Async.run
                (ConversationPage.handleModelChange both_updates_fail hello_page
                   (lit "claude-3")) hello_page)) in
  ConversationPage.selectedModel final = lit "claude-3"
  /\ ConversationPage.error final =
     Some (Text.update_model_failed_colon ++ lit "500")
  /\ ConversationPage.messages final = []
  /\ ConversationPage.conversation final = None.
Proof.
  pose proof (@failed_switch_keeps_requested_model both_updates_fail hello_page
                (lit "claude-3")
                (ErrorObj (Text.update_model_failed_colon ++ lit "500"))
                hello_page_exists eq_refl both_updates_fail_fallback) as H.
  cbv zeta in *. destruct H as (H1 & H2 & H3 & H4).
  split; [exact H1|]. split; [exact H2|]. split; [exact H3|].
  apply H4. exists (ErrorObj (Text.update_failed_colon ++ lit "500")). reflexivity.
Defined.

(** C3, as stated, fails: "gpt-4" is selected, the switch to "claude-3"
    fails on both endpoints, and "claude-3" is what is selected after. *)
Lemma failed_switch_changes_selection :
  let final :=
    fst (fst (Async.run
                (ConversationPage.handleModelChange both_updates_fail hello_page
                   (lit "claude-3")) hello_page)) in
  ConversationPage.selectedModel hello_page = lit "gpt-4"
  /\ ConversationPage.selectedModel final = lit "claude-3"
  /\ jsstring_eqb (ConversationPage.selectedModel final)
       (ConversationPage.selectedModel hello_page) = false
  /\ ConversationPage.error final =
     Some (Text.update_model_failed_colon ++ lit "500").
Proof.
  cbv zeta. repeat split; vm_compute; reflexivity.
Qed.

(* ===================================================================== *)
(** * What the handlers leave alone *)

Module FrameFacts.
Import Async AsyncFacts Frame.

Section Structure.
Context {S : Type}.

Lemma throw_free_returns {A} (m : Async.t S A) (s : S) :
  throw_free m = true -> exists a, snd (run m s) = Returned a.
Proof.
  revert s; induction m as [a|e|g k IH|e k IH|k IH]; intros s H; simpl in *.
  - exists a; reflexivity.
  - discriminate.
  - apply IH; exact H.
  - destruct (IH s H) as [a Ha]. destruct (run k s) as [[s1 es] r].
    exists a; exact Ha.
  - apply IH; exact H.
Qed.

Lemma throw_free_bind {A B} (m : Async.t S A) (f : A -> Async.t S B) :
  throw_free m = true -> (forall a, throw_free (f a) = true) ->
  throw_free (bind m f) = true.
Proof.
  intros Hm Hf. induction m as [a|e|g k IH|e k IH|k IH]; simpl in *; auto.
Qed.

Lemma throw_free_try_catch {A} (m : Async.t S A) (h : thrown -> Async.t S A) :
  (forall e, throw_free (h e) = true) -> throw_free (try_catch m h) = true.
Proof.
  intros Hh. induction m as [a|e|g k IH|e k IH|k IH]; simpl; auto.
Qed.

Lemma throw_free_try_finally {A} (m : Async.t S A) (fin : Async.t S unit) :
  throw_free m = true -> throw_free fin = true ->
  throw_free (try_finally m fin) = true.
Proof.
  intros Hm Hf. induction m as [a|e|g k IH|e k IH|k IH]; simpl in *; auto.
  - apply throw_free_bind; auto.
  - discriminate.
Qed.

Variable Q : (S -> S) -> Prop.

Lemma updates_all_bind {A B} (m : Async.t S A) (f : A -> Async.t S B) :
  updates_all Q m -> (forall a, updates_all Q (f a)) ->
  updates_all Q (bind m f).
Proof.
  intros Hm Hf. induction m as [a|e|g k IH|e k IH|k IH]; simpl in *; auto.
  destruct Hm; auto.
Qed.

Lemma updates_all_try_catch {A} (m : Async.t S A) (h : thrown -> Async.t S A) :
  updates_all Q m -> (forall e, updates_all Q (h e)) ->
  updates_all Q (try_catch m h).
Proof.
  intros Hm Hh. induction m as [a|e|g k IH|e k IH|k IH]; simpl in *; auto.
  destruct Hm; auto.
Qed.

Lemma updates_all_try_finally {A} (m : Async.t S A) (fin : Async.t S unit) :
  updates_all Q m -> updates_all Q fin -> updates_all Q (try_finally m fin).
Proof.
  intros Hm Hf. induction m as [a|e|g k IH|e k IH|k IH]; simpl in *; auto.
  - apply updates_all_bind; [exact Hf | intros; exact I].
  - apply updates_all_bind; [exact Hf | intros; exact I].
  - destruct Hm; auto.
Qed.

Lemma updates_all_update (f : S -> S) : Q f -> updates_all Q (update f).
Proof. intros H; simpl; auto. Qed.

End Structure.

(** A computation without updates satisfies every condition on updates. *)
Lemma updates_all_none {S A} (Q : (S -> S) -> Prop) (m : Async.t S A) :
  updates_all (fun _ => False) m -> updates_all Q m.
Proof.
  induction m as [a|e|g k IH|e k IH|k IH]; simpl; auto. intros [[] _].
Qed.

(** What every update keeps is kept by the whole run. *)
Lemma keeps_run {S T A} (proj : S -> T) (m : Async.t S A) (s : S) :
  updates_all (keeps proj) m -> proj (fst (fst (run m s))) = proj s.
Proof.
  revert s; induction m as [a|e|g k IH|e k IH|k IH]; intros s H; simpl in *.
  - reflexivity.
  - reflexivity.
  - destruct H as [Hg Hk]. rewrite (IH _ Hk). apply Hg.
  - specialize (IH s H). destruct (run k s) as [[s1 es] r]. exact IH.
  - apply IH; exact H.
Qed.

(** What every update preserves is preserved by the whole run. *)
Lemma preserved_run {S A} (P : S -> Prop) (m : Async.t S A) (s : S) :
  updates_all (fun f => forall st, P st -> P (f st)) m ->
  P s -> P (fst (fst (run m s))).
Proof.
  revert s; induction m as [a|e|g k IH|e k IH|k IH]; intros s H Hs; simpl in *.
  - exact Hs.
  - exact Hs.
  - destruct H as [Hg Hk]. apply IH; auto.
  - specialize (IH s H Hs). destruct (run k s) as [[s1 es] r]. exact IH.
  - apply IH; auto.
Qed.

Lemma updates_all_weaken {S A} (P Q : (S -> S) -> Prop) (m : Async.t S A) :
  (forall f, P f -> Q f) -> updates_all P m -> updates_all Q m.
Proof.
  intros HPQ. induction m as [a|e|g k IH|e k IH|k IH]; simpl; auto.
  intros [Hg Hk]. auto.
Qed.

(** The functions of the API client update no state. *)
Section Api.
Context {S : Type}.

Lemma fetch_no_updates {B} (req : Request) (net : fetch_result B) :
  updates_all (fun _ : S -> S => False) (fetch req net).
Proof. destruct net; exact I. Qed.

Lemma json_no_updates {J} (r : Response (parsed J)) :
  updates_all (fun _ : S -> S => False) (json r).
Proof. unfold json. destruct (content_of r); exact I. Qed.

Lemma createConversation_no_updates stored content model net :
  updates_all (fun _ : S -> S => False)
    (conversationAPI.createConversation stored content model net).
Proof.
  unfold conversationAPI.createConversation, conversationAPI.with_token.
  destruct stored as [token|]; [|exact I]. destruct (truthy token); [|exact I].
  destruct net; exact I.
Qed.

Lemma updateConversationModel_no_updates stored conversationId modelId net :
  updates_all (fun _ : S -> S => False)
    (conversationAPI.updateConversationModel stored conversationId modelId net).
Proof.
  unfold conversationAPI.updateConversationModel, conversationAPI.with_token.
  destruct stored as [token|]; [|exact I]. destruct (truthy token); [|exact I].
  destruct net as [[is_ok code [v|e]]|e]; try destruct is_ok; exact I.
Qed.

Lemma resetConversation_no_updates stored conversationId net :
  updates_all (fun _ : S -> S => False)
    (conversationAPI.resetConversation stored conversationId net).
Proof.
  unfold conversationAPI.resetConversation, conversationAPI.with_token.
  destruct stored as [token|]; [|exact I]. destruct (truthy token); [|exact I].
  destruct net as [[is_ok code [v|e]]|e]; try destruct is_ok; exact I.
Qed.

Lemma fallbackUpdate_no_updates stored conversationId modelId net :
  updates_all (fun _ : S -> S => False)
    (ConversationPage.fallbackUpdate stored conversationId modelId net).
Proof.
  unfold ConversationPage.fallbackUpdate.
  destruct net as [[is_ok code [v|e]]|e]; try destruct is_ok; exact I.
Qed.

Variable Q : (S -> S) -> Prop.
Variable onMessage : jsstring -> Async.t S unit.
Variable onDone : Async.t S unit.
Hypothesis onMessage_ok : forall text, updates_all Q (onMessage text).
Hypothesis onDone_ok : updates_all Q onDone.

Lemma read_loop_updates td values last :
  updates_all Q (conversationAPI.read_loop td values last onMessage onDone).
Proof.
  revert td; induction values as [|v rest IH]; intros td; simpl.
  - destruct last; [|exact I].
    apply updates_all_bind; [exact onDone_ok | intros; exact I].
  - destruct (TextDecoder.decode td v true) as [td' text].
    apply updates_all_bind; [|intros; apply IH].
    destruct (truthy text); [apply onMessage_ok | exact I].
Qed.

Lemma sendMessageStream_updates stored conversationId content net :
  updates_all Q
    (conversationAPI.sendMessageStream stored conversationId content net
       onMessage onDone).
Proof.
  unfold conversationAPI.sendMessageStream, conversationAPI.with_token.
  destruct stored as [token|]; [|exact I]. destruct (truthy token); [|exact I].
  apply updates_all_try_catch; [|intros; exact I].
  destruct net as [[is_ok code [reader|]]|e]; try destruct is_ok;
    try exact I.
  apply read_loop_updates.
Qed.

End Api.

End FrameFacts.

Module PageFrame.
Import Async AsyncFacts Frame FrameFacts ConversationPage.

Section Writes.
Variable Q : (PageState -> PageState) -> Prop.

Section Reload.
Hypothesis Q_messages : forall f, Q (with_messages f).
Hypothesis Q_debugInfo : forall v, Q (with_debugInfo v).
Hypothesis Q_error : forall v, Q (with_error v).
Hypothesis Q_isLoading : forall v, Q (with_isLoading v).

(** [fetchMessages] writes [messages], [debugInfo], [error] and
    [isLoading] only. *)
Lemma fetchMessages_updates snap stored net :
  updates_all Q (fetchMessages snap stored net).
Proof.
  unfold fetchMessages.
  apply updates_all_try_finally; [|apply updates_all_update, Q_isLoading].
  apply updates_all_try_catch; [|intros; apply updates_all_update, Q_error].
  unfold conversationAPI.with_token.
  destruct stored as [token|]; [|exact I]. destruct (truthy token); [|exact I].
  apply updates_all_bind; [apply updates_all_update, Q_debugInfo|]. intros _.
  apply updates_all_bind; [apply updates_all_none, fetch_no_updates|].
  intros response.
  apply updates_all_bind; [apply updates_all_update, Q_debugInfo|]. intros _.
  destruct (negb (ok response)); [exact I|].
  apply updates_all_bind; [apply updates_all_none, json_no_updates|].
  intros messageData.
  apply updates_all_bind; [apply updates_all_update, Q_messages|]. intros _.
  apply updates_all_update, Q_debugInfo.
Qed.

Hypothesis Q_conversation : forall v, Q (with_conversation v).

(** After its first update, [handleModelChange] writes [debugInfo],
    [error] and [conversation], and what [fetchMessages] writes. *)
Lemma handleModelChange_updates w snap modelId :
  exists rest,
    handleModelChange w snap modelId =
    Update (with_selectedModel modelId) rest
    /\ updates_all Q rest.
Proof.
  unfold handleModelChange. cbn [bind update setSelectedModel].
  eexists; split; [reflexivity|].
  destruct (negb (jsstring_eqb (conversationId snap) (lit "new"))); [|exact I].
  apply updates_all_try_catch.
  2:{ intros e. apply updates_all_bind; [apply updates_all_update, Q_error|].
      intros _. apply updates_all_update, Q_debugInfo. }
  apply updates_all_bind; [apply updates_all_update, Q_debugInfo|]. intros _.
  apply updates_all_bind; [apply updates_all_update, Q_error|]. intros _.
  apply updates_all_try_catch.
  - apply updates_all_bind;
      [apply updates_all_none, updateConversationModel_no_updates|].
    intros c.
    apply updates_all_bind; [apply updates_all_update, Q_conversation|].
    intros _.
    apply updates_all_bind; [apply updates_all_update, Q_debugInfo|].
    intros _. apply fetchMessages_updates.
  - intros modelError. apply updates_all_try_catch; [|intros; exact I].
    apply updates_all_bind; [apply updates_all_update, Q_debugInfo|]. intros _.
    apply updates_all_bind;
      [apply updates_all_none, fallbackUpdate_no_updates|].
    intros c.
    apply updates_all_bind; [apply updates_all_update, Q_conversation|].
    intros _.
    apply updates_all_bind; [apply updates_all_update, Q_debugInfo|].
    intros _.
    apply updates_all_bind;
      [apply updates_all_none, resetConversation_no_updates|].
    intros _.
    apply updates_all_bind; [apply updates_all_update, Q_debugInfo|].
    intros _. apply fetchMessages_updates.
Qed.

End Reload.

Section Send.
Hypothesis Q_messages : forall f, Q (with_messages f).
Hypothesis Q_newMessage : forall v, Q (with_newMessage v).
Hypothesis Q_isSending : forall v, Q (with_isSending v).
Hypothesis Q_debugInfo : forall v, Q (with_debugInfo v).
Hypothesis Q_error : forall v, Q (with_error v).

(** [handleSendMessage] writes [messages], [newMessage], [isSending],
    [debugInfo] and [error] only. *)
Lemma handleSendMessage_updates w snap :
  updates_all Q (handleSendMessage w snap).
Proof.
  unfold handleSendMessage. cbn [bind perform updates_all].
  destruct (negb (truthy (trim (newMessage snap)))
            || negb (truthy (selectedModel snap)) || isSending snap);
    [exact I|].
  cbn [bind update setMessages setNewMessage setIsSending updates_all].
  split; [apply Q_messages|]. split; [apply Q_newMessage|].
  split; [apply Q_isSending|].
  destruct (usingMock snap).
  { cbn. auto. }
  apply updates_all_try_finally; [|apply updates_all_update, Q_isSending].
  apply updates_all_try_catch.
  2:{ intros e. apply updates_all_bind; [apply updates_all_update, Q_debugInfo|].
      intros _. apply updates_all_bind; [apply updates_all_update, Q_error|].
      intros _. apply updates_all_update, Q_messages. }
  destruct (jsstring_eqb (conversationId snap) (lit "new")).
  - apply updates_all_bind;
      [apply updates_all_none, createConversation_no_updates|].
    intros response.
    apply updates_all_bind; [apply updates_all_none, json_no_updates|].
    intros c. exact I.
  - cbn [bind update setMessages setIsSending updates_all].
    split; [apply Q_messages|].
    apply sendMessageStream_updates.
    + intros text. apply updates_all_update, Q_messages.
    + cbn [updates_all]. split; [apply Q_isSending|].
      apply updates_all_update, Q_debugInfo.
Qed.

End Send.
End Writes.

End PageFrame.

(* ===================================================================== *)
(** * The handlers of the conversation page, whatever the world answers *)

Module Settles.
Import Async AsyncFacts Frame FrameFacts ConversationPage.

Lemma handleSendMessage_throw_free w snap :
  throw_free (handleSendMessage w snap) = true.
Proof.
  unfold handleSendMessage. cbn [bind perform throw_free].
  destruct (negb (truthy (trim (newMessage snap)))
            || negb (truthy (selectedModel snap)) || isSending snap);
    [reflexivity|].
  cbn [bind update setMessages setNewMessage setIsSending throw_free].
  destruct (usingMock snap); [reflexivity|].
  apply throw_free_try_finally; [|reflexivity].
  apply throw_free_try_catch. intros e; reflexivity.
Qed.

Lemma fetchMessages_throw_free snap stored net :
  throw_free (fetchMessages snap stored net) = true.
Proof.
  unfold fetchMessages. apply throw_free_try_finally; [|reflexivity].
  apply throw_free_try_catch. intros e; reflexivity.
Qed.

Lemma handleModelChange_throw_free w snap modelId :
  throw_free (handleModelChange w snap modelId) = true.
Proof.
  unfold handleModelChange. cbn [bind update setSelectedModel throw_free].
  destruct (negb (jsstring_eqb (conversationId snap) (lit "new")));
    [|reflexivity].
  apply throw_free_try_catch. intros e; reflexivity.
Qed.

Lemma returns_tt {S} (m : Async.t S unit) (s : S) :
  throw_free m = true -> snd (run m s) = Returned tt.
Proof.
  intros H. destruct (throw_free_returns m s H) as [[] Ha]. exact Ha.
Qed.

End Settles.

(** X1. Whatever the clock, the storage and the network answer, a run of
    [handleSendMessage] ends without an exception escaping it, and when
    the submit passed the guard it ends with [isSending] cleared. *)
Theorem handleSendMessage_settles (w : ConversationPage.SendWorld)
    (s : ConversationPage.PageState) :
  snd (Async.run (ConversationPage.handleSendMessage w s) s) = Async.Returned tt
  /\ (truthy (trim (ConversationPage.newMessage s)) = true ->
      truthy (ConversationPage.selectedModel s) = true ->
      ConversationPage.isSending s = false ->
      ConversationPage.isSending
        (fst (fst (Async.run (ConversationPage.handleSendMessage w s) s))) = false).
Proof.
  split; [apply Settles.returns_tt, Settles.handleSendMessage_throw_free|].
  intros H1 H2 H3. unfold ConversationPage.handleSendMessage.
  rewrite H1, H2, H3.
  cbn [negb orb Async.bind Async.perform Async.update Async.run
       ConversationPage.setMessages ConversationPage.setNewMessage
       ConversationPage.setIsSending].
  destruct (ConversationPage.usingMock s).
  - reflexivity.
  - rewrite AsyncFacts.run_try_finally.
    match goal with
    | |- context [Async.run (Async.try_catch ?m ?h) ?st] =>
        destruct (Async.run (Async.try_catch m h) st) as [[s1 es1] r1]
    end.
    reflexivity.
Qed.


(** X3. Whatever the world answers, a run of [handleModelChange] ends
    without an exception escaping it, with the requested model selected
    and with the input, the sending flag and the mock flag as they were;
    on the route "new" it does nothing else and sends nothing. *)
Theorem handleModelChange_settles (w : ConversationPage.SwitchWorld)
    (s : ConversationPage.PageState) (modelId : jsstring) :
  let '(s', es, r) := Async.run (ConversationPage.handleModelChange w s modelId) s in
  r = Async.Returned tt
  /\ ConversationPage.selectedModel s' = modelId
  /\ ConversationPage.newMessage s' = ConversationPage.newMessage s
  /\ ConversationPage.isSending s' = ConversationPage.isSending s
  /\ ConversationPage.usingMock s' = ConversationPage.usingMock s
  /\ (ConversationPage.conversationId s = lit "new" ->
      s' = ConversationPage.with_selectedModel modelId s /\ es = []).
Proof.
  pose proof (Settles.returns_tt _ s
                (Settles.handleModelChange_throw_free w s modelId)) as Hr.
  assert (Hk : forall T (proj : ConversationPage.PageState -> T),
             (forall f, Frame.keeps proj (ConversationPage.with_messages f)) ->
             (forall v, Frame.keeps proj (ConversationPage.with_debugInfo v)) ->
             (forall v, Frame.keeps proj (ConversationPage.with_error v)) ->
             (forall v, Frame.keeps proj (ConversationPage.with_isLoading v)) ->
             (forall v, Frame.keeps proj (ConversationPage.with_conversation v)) ->
             proj (fst (fst (Async.run
                               (ConversationPage.handleModelChange w s modelId) s))) =
             proj (ConversationPage.with_selectedModel modelId s)).
  { intros T proj H1 H2 H3 H4 H5.
    destruct (@PageFrame.handleModelChange_updates (Frame.keeps proj)
                H1 H2 H3 H4 H5 w s modelId) as [rest [E Hrest]].
    rewrite E. cbn [Async.run]. apply FrameFacts.keeps_run. exact Hrest. }
  pose proof (Hk _ ConversationPage.selectedModel
                ltac:(intros; intro; reflexivity) ltac:(intros; intro; reflexivity)
                ltac:(intros; intro; reflexivity) ltac:(intros; intro; reflexivity)
                ltac:(intros; intro; reflexivity)) as K1.
  pose proof (Hk _ ConversationPage.newMessage
                ltac:(intros; intro; reflexivity) ltac:(intros; intro; reflexivity)
                ltac:(intros; intro; reflexivity) ltac:(intros; intro; reflexivity)
                ltac:(intros; intro; reflexivity)) as K2.
  pose proof (Hk _ ConversationPage.isSending
                ltac:(intros; intro; reflexivity) ltac:(intros; intro; reflexivity)
                ltac:(intros; intro; reflexivity) ltac:(intros; intro; reflexivity)
                ltac:(intros; intro; reflexivity)) as K3.
  pose proof (Hk _ ConversationPage.usingMock
                ltac:(intros; intro; reflexivity) ltac:(intros; intro; reflexivity)
                ltac:(intros; intro; reflexivity) ltac:(intros; intro; reflexivity)
                ltac:(intros; intro; reflexivity)) as K4.
  clear Hk.
  assert (Hnew : ConversationPage.conversationId s = lit "new" ->
                 Async.run (ConversationPage.handleModelChange w s modelId) s =
                 (ConversationPage.with_selectedModel modelId s, [], Async.Returned tt)).
  { intros E. unfold ConversationPage.handleModelChange. rewrite E. reflexivity. }
  destruct (Async.run (ConversationPage.handleModelChange w s modelId) s)
    as [[s' es] r].
  cbn [fst snd] in *.
  split; [exact Hr|]. split; [exact K1|]. split; [exact K2|].
  split; [exact K3|]. split; [exact K4|].
  intros E. specialize (Hnew E). injection Hnew as -> -> _. auto.
Qed.

(* ===================================================================== *)
(** * Reloading the transcript *)

Module ReloadFacts.
Import Async AsyncFacts ConversationPage.

Lemma fetchMessages_cases (snap st : PageState) (stored : option jsstring)
    (net : fetch_result (parsed MessagePagination)) :
  let '(st', es, r) := run (fetchMessages snap stored net) st in
  r = Returned tt
  /\ isLoading st' = false
  /\ (forall token, stored = Some token -> truthy token = true ->
      es = [EFetch (Requests.messages_request token (conversationId snap))])
  /\ ((exists token code page,
          stored = Some token /\ truthy token = true
          /\ net = Requests.answers code page
          /\ messages st' = items page
          /\ error st' = error st)
      \/ (messages st' = messages st
          /\ exists text, error st' = Some text)).
Proof.
  unfold fetchMessages, conversationAPI.with_token.
  destruct stored as [token|].
  2:{ cbn. split; [reflexivity|]. split; [reflexivity|].
      split; [intros; discriminate|]. right.
      split; [reflexivity|]. eexists; reflexivity. }
  destruct (truthy token) eqn:Ht.
  2:{ cbn. split; [reflexivity|]. split; [reflexivity|].
      split; [intros t E Ht'; injection E as <-; congruence|]. right.
      split; [reflexivity|]. eexists; reflexivity. }
  destruct net as [[is_ok code [page|e]]|e]; try destruct is_ok;
    cbn; (split; [reflexivity|]); (split; [reflexivity|]);
    (split; [intros t E _; injection E as <-; reflexivity|]);
    try (right; split; [reflexivity|]; eexists; reflexivity).
  left. exists token, code, page. repeat split; try reflexivity. exact Ht.
Qed.

End ReloadFacts.

Ltac settle_case :=
  repeat match goal with
         | |- _ /\ _ => split
         | |- forall _, _ => intro
         | H : _ \/ _ |- _ => destruct H
         | H : exists _, _ |- _ => destruct H
         | H : _ /\ _ |- _ => destruct H
         end;
  unfold Requests.answers in *;
  repeat match goal with
         | H : Some _ = Some _ |- _ => inversion H; clear H; subst
         | H : Resolved _ = Resolved _ |- _ => inversion H; clear H; subst
         | H : Rejected _ = Rejected _ |- _ => inversion H; clear H; subst
         end;
  cbn [ok status content_of] in *;
  try reflexivity; try congruence.

Module ReloadAfter.
Import Async AsyncFacts ConversationPage.

(** A reload with a stored token, run on any state.  The body of an
    [ok] answer is taken as the source declares it
    ([const messageData: MessagePagination]): a page whose [items] is a
    list of messages. *)
Lemma reload_with_token (snap st : PageState) (token : jsstring)
    (net : fetch_result (parsed MessagePagination)) :
  truthy token = true ->
  let '(st', es, r) := run (fetchMessages snap (Some token) net) st in
  r = Returned tt
  /\ es = [EFetch (Requests.messages_request token (conversationId snap))]
  /\ conversation st' = conversation st
  /\ selectedModel st' = selectedModel st
  /\ usingMock st' = usingMock st
  /\ isLoading st' = false
  /\ (forall code page,
        net = Requests.answers code page ->
        messages st' = items page /\ error st' = error st)
  /\ (forall response,
        net = Resolved response -> ok response = false ->
        messages st' = messages st
        /\ error st' =
           Some (Text.messages_api_error ++ number_toString (status response)))
  /\ (forall response e,
        net = Resolved response -> ok response = true ->
        content_of response = ParseFails e ->
        messages st' = messages st
        /\ error st' = Some (message_or Text.fetch_messages_failed e))
  /\ (forall e,
        net = Rejected e ->
        messages st' = messages st
        /\ error st' = Some (message_or Text.fetch_messages_failed e)).
Proof.
  intros Ht. unfold fetchMessages, conversationAPI.with_token. rewrite Ht.
  destruct net as [[is_ok code [page|e]]|e]; try destruct is_ok;
    cbn -[Text.fetched_prefix Text.fetched_suffix Text.messages_api_error
          Text.fetch_messages_failed number_toString
          Requests.messages_request];
    settle_case.
Qed.

End ReloadAfter.


(** X4. [fetchMessages] never lets an exception escape, always ends with
    [isLoading] cleared, and never changes the conversation record, the
    selected model, the mock flag, the input or the sending flag.  With
    nothing stored, or an empty token, it sends no request and shows the
    missing-token error.  With a token it sends exactly one request, and
    then: when the answer is [ok] and its body is a page of messages, the
    transcript is replaced by the items of the page and the error is left
    as it was; when the answer is not [ok], the transcript is left as it
    was and the error names the status; when the request is rejected or
    the body cannot be read, the transcript is left as it was and the
    error is the message of what was thrown. *)
Theorem fetchMessages_settles (snap st : ConversationPage.PageState)
    (stored : option jsstring)
    (net : fetch_result (parsed MessagePagination)) :
  let '(st', es, r) :=
    Async.run (ConversationPage.fetchMessages snap stored net) st in
  r = Async.Returned tt
  /\ ConversationPage.isLoading st' = false
  /\ ConversationPage.conversation st' = ConversationPage.conversation st
  /\ ConversationPage.selectedModel st' = ConversationPage.selectedModel st
  /\ ConversationPage.usingMock st' = ConversationPage.usingMock st
  /\ ConversationPage.newMessage st' = ConversationPage.newMessage st
  /\ ConversationPage.isSending st' = ConversationPage.isSending st
  /\ (stored = None \/ (exists token, stored = Some token /\ truthy token = false) ->
      es = []
      /\ ConversationPage.messages st' = ConversationPage.messages st
      /\ ConversationPage.error st' = Some Text.no_token)
  /\ (forall token, stored = Some token -> truthy token = true ->
      es = [EFetch (Requests.messages_request token
                      (ConversationPage.conversationId snap))]
      /\ (forall code page,
            net = Requests.answers code page ->
            ConversationPage.messages st' = items page
            /\ ConversationPage.error st' = ConversationPage.error st
            /\ ConversationPage.debugInfo st' =
               Some (Text.fetched_prefix
                       ++ number_toString (Z.of_nat (length (items page)))
                       ++ Text.fetched_suffix))
      /\ (forall response,
            net = Resolved response -> ok response = false ->
            ConversationPage.messages st' = ConversationPage.messages st
            /\ ConversationPage.error st' =
               Some (Text.messages_api_error
                       ++ number_toString (status response)))
      /\ (forall response e,
            net = Resolved response -> ok response = true ->
            content_of response = ParseFails e ->
            ConversationPage.messages st' = ConversationPage.messages st
            /\ ConversationPage.error st' =
               Some (message_or Text.fetch_messages_failed e))
      /\ (forall e,
            net = Rejected e ->
            ConversationPage.messages st' = ConversationPage.messages st
            /\ ConversationPage.error st' =
               Some (message_or Text.fetch_messages_failed e))).
Proof.
  unfold ConversationPage.fetchMessages, conversationAPI.with_token.
  destruct stored as [token|].
  2:{ cbn -[Text.no_token]. settle_case. }
  destruct (truthy token) eqn:Ht.
  2:{ cbn -[Text.no_token]. settle_case. }
  destruct net as [[is_ok code [page|e]]|e]; try destruct is_ok;
    cbn -[Text.fetched_prefix Text.fetched_suffix Text.messages_api_error
          Text.fetch_messages_failed Text.no_token number_toString
          Requests.messages_request];
    settle_case.
Qed.

(* ===================================================================== *)
(** * A model switch that succeeds *)

Module SwitchMore.
Import Async AsyncFacts Frame FrameFacts ConversationPage.

Lemma attempt_update_effects (token : jsstring) (conversationId : ident)
    (modelId : jsstring) (net : fetch_result (parsed Conversation.t)) :
  truthy token = true ->
  fst (attempt (conversationAPI.updateConversationModel (Some token)
                  conversationId modelId net)) =
  [EFetch (Requests.update_model_request token conversationId modelId)].
Proof.
  intros Ht. unfold attempt, conversationAPI.updateConversationModel,
    conversationAPI.with_token. rewrite Ht.
  destruct net as [[is_ok code [v|e]]|e]; try destruct is_ok; reflexivity.
Qed.

Lemma attempt_update_ok (token : jsstring) (conversationId : ident)
    (modelId : jsstring) (code : Z) (c : Conversation.t) :
  truthy token = true ->
  snd (attempt (conversationAPI.updateConversationModel (Some token)
                  conversationId modelId (Requests.answers code c))) =
  Returned c.
Proof.
  intros Ht. unfold attempt, conversationAPI.updateConversationModel,
    conversationAPI.with_token. rewrite Ht. reflexivity.
Qed.

Lemma attempt_fallback_effects (stored : option jsstring)
    (conversationId modelId : jsstring)
    (net : fetch_result (parsed Conversation.t)) :
  fst (attempt (fallbackUpdate stored conversationId modelId net)) =
  [EFetch (Requests.fallback_request stored conversationId modelId)].
Proof.
  unfold attempt, fallbackUpdate.
  destruct net as [[is_ok code [v|e]]|e]; try destruct is_ok; reflexivity.
Qed.

Lemma attempt_reset_ok (token : jsstring) (conversationId : ident) (code : Z) :
  truthy token = true ->
  attempt (conversationAPI.resetConversation (Some token) conversationId
             (Requests.answers code tt)) =
  ([EFetch (Requests.reset_request token conversationId)], Returned tt).
Proof.
  intros Ht. unfold attempt, conversationAPI.resetConversation,
    conversationAPI.with_token. rewrite Ht. reflexivity.
Qed.

(** [fetchMessages] leaves the conversation record and the selected model
    alone. *)
Lemma fetchMessages_keeps snap stored net st :
  let st' := fst (fst (run (fetchMessages snap stored net) st)) in
  conversation st' = conversation st /\ selectedModel st' = selectedModel st.
Proof.
  cbv zeta. split; apply keeps_run; apply PageFrame.fetchMessages_updates;
    intros; intro; reflexivity.
Qed.

(** What the reload at the end of a switch makes of the page. *)
Lemma reload_after_switch (snap st : PageState) (token : jsstring)
    (net : fetch_result (parsed MessagePagination)) (c : Conversation.t) :
  truthy token = true ->
  conversation st = Some c -> error st = None ->
  let '(st', es, r) := run (fetchMessages snap (Some token) net) st in
  r = Returned tt
  /\ es = [EFetch (Requests.messages_request token (conversationId snap))]
  /\ conversation st' = Some c
  /\ ((exists code page,
         net = Requests.answers code page
         /\ messages st' = items page /\ error st' = None)
      \/ (messages st' = messages st /\ exists text, error st' = Some text)).
Proof.
  intros Ht Hc He.
  pose proof (ReloadFacts.fetchMessages_cases snap st (Some token) net) as H.
  pose proof (fetchMessages_keeps snap (Some token) net st) as K.
  destruct (run (fetchMessages snap (Some token) net) st) as [[st' es] r].
  cbn [fst] in K. destruct K as [K _].
  destruct H as (Hr & _ & Hes & Hcases).
  split; [exact Hr|]. split; [apply Hes; [reflexivity | exact Ht]|].
  split; [congruence|].
  destruct Hcases as [(t & code & page & _ & _ & Hn & Hm & Herr)|Hfail].
  - left. exists code, page. repeat split; congruence.
  - right. exact Hfail.
Qed.

End SwitchMore.

Section SwitchSucceeds.
Import Async ConversationPage.

Variable w : SwitchWorld.
Variable s : PageState.
Variable modelId : jsstring.
Variable token : jsstring.
Hypothesis existing : conversationId s <> lit "new".
Hypothesis stored : switch_token w = Some token.
Hypothesis token_present : truthy token = true.

(** X5. When the primary update is answered [ok] with a record, the
    switch sends two requests, the update and then one reload of the
    transcript, and the conversation record becomes the one answered.
    What the reload leaves: when it is answered [ok] with a page of
    messages, the transcript is the items of the page and no error is
    shown; when it is answered with another status, is rejected or cannot
    be read, the transcript is as before the switch and the error of the
    reload is shown. *)
Theorem primary_switch_reloads_once (code : Z) (updated : Conversation.t) :
  primary w = Requests.answers code updated ->
  let '(s', es, r) := run (handleModelChange w s modelId) s in
  es = [EFetch (Requests.update_model_request token
                  (IdStr (conversationId s)) modelId);
        EFetch (Requests.messages_request token (conversationId s))]
  /\ conversation s' = Some updated
  /\ (forall code' page,
        reload w = Requests.answers code' page ->
        messages s' = items page /\ error s' = None)
  /\ (forall response,
        reload w = Resolved response -> ok response = false ->
        messages s' = messages s
        /\ error s' =
           Some (Text.messages_api_error ++ number_toString (status response)))
  /\ (forall response e,
        reload w = Resolved response -> ok response = true ->
        content_of response = ParseFails e ->
        messages s' = messages s
        /\ error s' = Some (message_or Text.fetch_messages_failed e))
  /\ (forall e,
        reload w = Rejected e ->
        messages s' = messages s
        /\ error s' = Some (message_or Text.fetch_messages_failed e)).
Proof.
  intros Hp. unfold handleModelChange.
  rewrite (SendFacts.jsstring_eqb_neq existing).
  cbn [negb bind update setSelectedModel run].
  rewrite AsyncFacts.run_try_catch.
  cbn [bind update setDebugInfo setError run].
  rewrite AsyncFacts.run_try_catch, AsyncFacts.run_bind,
    SwitchFacts.run_updateConversationModel.
  rewrite stored, Hp,
    (@SwitchMore.attempt_update_effects token _ _ _ token_present),
    (@SwitchMore.attempt_update_ok token _ _ _ _ token_present).
  cbn [bind update setConversation setDebugInfo run].
  match goal with
  | |- context [run (fetchMessages s (Some token) (reload w)) ?st] =>
      pose proof (@ReloadAfter.reload_with_token s st token (reload w)
                    token_present) as H;
      destruct (run (fetchMessages s (Some token) (reload w)) st)
        as [[s2 es2] r2]
  end.
  destruct H as (-> & -> & Hc & _ & _ & _ & H1 & H2 & H3 & H4). cbn.
  split; [reflexivity|]. split; [exact Hc|].
  split; [exact H1|]. split; [exact H2|]. split; [exact H3 | exact H4].
Qed.

(** X6. When the primary update fails and the fallback update and the
    reset succeed, the switch sends four requests in this order: the
    primary update, the fallback update, the reset, and one reload of the
    transcript; the conversation record becomes the one the fallback
    answered. *)
Theorem fallback_switch_reloads_once (primaryError : thrown)
    (code code' : Z) (updated : Conversation.t) :
  snd (attempt (conversationAPI.updateConversationModel (switch_token w)
                  (IdStr (conversationId s)) modelId (primary w))) =
    Threw primaryError ->
  fallback w = Requests.answers code updated ->
  reset w = Requests.answers code' tt ->
  let '(s', es, r) := run (handleModelChange w s modelId) s in
  es = [EFetch (Requests.update_model_request token
                  (IdStr (conversationId s)) modelId);
        EFetch (Requests.fallback_request (Some token)
                  (conversationId s) modelId);
        EFetch (Requests.reset_request token (IdStr (conversationId s)));
        EFetch (Requests.messages_request token (conversationId s))]
  /\ conversation s' = Some updated
  /\ ((exists code'' page,
         reload w = Requests.answers code'' page
         /\ messages s' = items page /\ error s' = None)
      \/ (messages s' = messages s /\ exists text, error s' = Some text)).
Proof.
  intros Hp Hf Hr. unfold handleModelChange.
  rewrite (SendFacts.jsstring_eqb_neq existing).
  cbn [negb bind update setSelectedModel run].
  rewrite AsyncFacts.run_try_catch.
  cbn [bind update setDebugInfo setError run].
  rewrite AsyncFacts.run_try_catch, AsyncFacts.run_bind,
    SwitchFacts.run_updateConversationModel, Hp.
  rewrite stored in *.
  rewrite (@SwitchMore.attempt_update_effects token _ _ _ token_present).
  rewrite AsyncFacts.run_try_catch.
  cbn [bind update setDebugInfo run].
  rewrite AsyncFacts.run_bind, SwitchFacts.run_fallbackUpdate,
    SwitchMore.attempt_fallback_effects, Hf.
  cbn [attempt fallbackUpdate Requests.answers fetch json bind run ok
       content_of negb snd fst].
  cbn [bind update setDebugInfo setConversation run].
  rewrite AsyncFacts.run_bind, SwitchFacts.run_resetConversation, Hr,
    (@SwitchMore.attempt_reset_ok token _ _ token_present).
  cbn [fst snd bind update setDebugInfo run].
  match goal with
  | |- context [run (fetchMessages s (Some token) (reload w)) ?st] =>
      pose proof (@SwitchMore.reload_after_switch s st token (reload w) updated
                    token_present eq_refl eq_refl) as H;
      destruct (run (fetchMessages s (Some token) (reload w)) st)
        as [[s2 es2] r2]
  end.
  destruct H as (-> & -> & Hc & Hm). cbn.
  split; [reflexivity|]. split; [exact Hc|]. exact Hm.
Qed.

End SwitchSucceeds.

(** X5 at a sample input: the switch of [hello_page] to "claude-3",
    with the reload answered by one message. *)
Lemma primary_switch_reloads_once_witness :
  let '(s', es, r) :=
    Async.run (ConversationPage.handleModelChange primary_succeeds hello_page
                 (lit "claude-3")) hello_page in
  es = [EFetch (Requests.update_model_request (lit "secret") (IdStr (lit "1"))
                  (lit "claude-3"));
        EFetch (Requests.messages_request (lit "secret") (lit "1"))]
  /\ ConversationPage.conversation s' = Some renamed_conversation
  /\ ConversationPage.messages s' = items one_message
  /\ ConversationPage.error s' = None.
Proof.
  pose proof (@primary_switch_reloads_once primary_succeeds hello_page
                (lit "claude-3") (lit "secret") hello_page_exists eq_refl eq_refl
                200 renamed_conversation eq_refl) as H.
  destruct (Async.run
              (ConversationPage.handleModelChange primary_succeeds hello_page
                 (lit "claude-3")) hello_page) as [[s' es] r].
  destruct H as (He & Hc & Hm & _).
  split; [exact He|]. split; [exact Hc|].
  exact (Hm 200 one_message eq_refl).
Defined.

(** X6 at a sample input: the primary update answers 500. *)
Lemma fallback_switch_reloads_once_witness :
  let '(s', es, r) :=
    Async.run (ConversationPage.handleModelChange fallback_succeeds hello_page
                 (lit "claude-3")) hello_page in
  es = [EFetch (Requests.update_model_request (lit "secret") (IdStr (lit "1"))
                  (lit "claude-3"));
        EFetch (Requests.fallback_request (Some (lit "secret")) (lit "1")
                  (lit "claude-3"));
        EFetch (Requests.reset_request (lit "secret") (IdStr (lit "1")));
        EFetch (Requests.messages_request (lit "secret") (lit "1"))]
  /\ ConversationPage.conversation s' = Some renamed_conversation
  /\ ((exists code'' page,
         ConversationPage.reload fallback_succeeds = Requests.answers code'' page
         /\ ConversationPage.messages s' = items page
         /\ ConversationPage.error s' = None)
      \/ (ConversationPage.messages s' = ConversationPage.messages hello_page
          /\ exists text, ConversationPage.error s' = Some text)).
Proof.
  exact (@fallback_switch_reloads_once fallback_succeeds hello_page
           (lit "claude-3") (lit "secret") hello_page_exists eq_refl eq_refl
           (ErrorObj (Text.update_model_failed_colon ++ lit "500"))
           200 200 renamed_conversation eq_refl eq_refl eq_refl).
Defined.

Section SwitchWithoutToken.
Import Async ConversationPage.

Variable w : SwitchWorld.
Variable s : PageState.
Variable modelId : jsstring.
Hypothesis existing : conversationId s <> lit "new".
Hypothesis nothing_stored : switch_token w = None.

(** X7. With no token in storage a model switch still sends one request:
    the fallback update, with the header [Bearer null]; neither the
    primary update nor the reset nor the reload is requested.  The page
    reports the missing token and keeps its transcript, and when the
    server accepts the fallback update the conversation record is
    replaced all the same. *)
Theorem switch_without_token :
  let '(s', es, r) := run (handleModelChange w s modelId) s in
  es = [EFetch (Requests.fallback_request None (conversationId s) modelId)]
  /\ In (lit "Authorization", lit "Bearer null")
        (headers (Requests.fallback_request None (conversationId s) modelId))
  /\ error s' = Some Text.no_token
  /\ messages s' = messages s
  /\ (forall code updated,
        fallback w = Requests.answers code updated ->
        conversation s' = Some updated).
Proof.
  unfold handleModelChange.
  rewrite (SendFacts.jsstring_eqb_neq existing), nothing_stored.
  destruct (fallback w) as [[is_ok code [c|e]]|e]; try destruct is_ok;
    cbn -[Text.no_token Requests.fallback_request]; 
    (split; [reflexivity|]); (split; [right; left; reflexivity|]);
    (split; [reflexivity|]); (split; [reflexivity|]);
    intros code' updated E; try discriminate E.
  injection E as _ <-. reflexivity.
Qed.

End SwitchWithoutToken.

(** X7 at a sample input: nothing stored, the fallback update accepted. *)
Lemma switch_without_token_witness :
  let '(s', es, r) :=
    Async.run (ConversationPage.handleModelChange switch_logged_out hello_page
                 (lit "claude-3")) hello_page in
  es = [EFetch (Requests.fallback_request None (lit "1") (lit "claude-3"))]
  /\ In (lit "Authorization", lit "Bearer null")
        (headers (Requests.fallback_request None (lit "1") (lit "claude-3")))
  /\ ConversationPage.error s' = Some Text.no_token
  /\ ConversationPage.messages s' = []
  /\ (forall code updated,
        ConversationPage.fallback switch_logged_out =
          Requests.answers code updated ->
        ConversationPage.conversation s' = Some updated).
Proof.
  exact (@switch_without_token switch_logged_out hello_page (lit "claude-3")
           hello_page_exists eq_refl).
Defined.

(* ===================================================================== *)
(** * A send that breaks, and a send in mock mode *)

Module SendMore.
Import Async AsyncFacts ConversationPage Observe.

(** The callbacks [handleSendMessage] hands to [sendMessageStream], as
    updates of the page. *)
Lemma onMessage_updates (aid : ident) (text : jsstring) :
  updates_by (setMessages (appendContent aid text))
    (with_messages (appendContent aid text)).
Proof. intros st. reflexivity. Qed.

Lemma removeMessage_app (tempId : ident) (a b : list Message.t) :
  removeMessage tempId (a ++ b) =
  removeMessage tempId a ++ removeMessage tempId b.
Proof. apply filter_app. Qed.

(** Nothing that is left by [removeMessage] has the removed id. *)
Lemma removeMessage_gone (tempId : ident) (prev : list Message.t)
    (msg : Message.t) :
  In msg (removeMessage tempId prev) -> strict_eq (Message.id msg) tempId = false.
Proof.
  unfold removeMessage. intros H. apply filter_In in H. destruct H as [_ H].
  destruct (strict_eq (Message.id msg) tempId); [discriminate H | reflexivity].
Qed.

(** The stream of a send on an existing conversation, with a stored
    token and a response that has a body. *)
Lemma run_stream_of_send (w : SendWorld) (s st : PageState)
    (token : jsstring) (code : Z) (reader : Reader) :
  truthy token = true ->
  run (conversationAPI.sendMessageStream (Some token)
         (IdStr (conversationId s)) (newMessage s)
         (streaming_response code reader)
         (fun content =>
            setMessages (appendContent (tempAssistantId_of w) content))
         (setIsSending false ;; setDebugInfo Text.stream_complete)) st =
  let st' :=
    with_messages
      (appendContent (tempAssistantId_of w)
         (concat (TextDecoder.decode_chunks TextDecoder.create
                    (chunks reader)))) st in
  let request :=
    EFetch (conversationAPI.stream_request token (IdStr (conversationId s))
              (newMessage s)) in
  match ending reader with
  | EndOfStream =>
      (with_debugInfo Text.stream_complete (with_isSending false st'),
       [request], Returned tt)
  | ReadFails e => (st', [request], Threw e)
  end.
Proof.
  intros Ht.
  rewrite (@StreamFacts.run_sendMessageStream_ok PageState _ _
             (fun text => with_messages (appendContent (tempAssistantId_of w) text))
             (fun st => with_debugInfo Text.stream_complete
                          (with_isSending false st))
             (onMessage_updates (tempAssistantId_of w))
             SendFacts.onDone_updates token _ _ code reader st Ht).
  cbv zeta.
  rewrite SendFacts.delivered_with_messages.
  erewrite SendFacts.with_messages_ext
    by (intros l; rewrite TranscriptFacts.delivered_appendContent,
          StreamFacts.concat_filter_truthy; reflexivity).
  reflexivity.
Qed.

End SendMore.

(* ===================================================================== *)
(** * Two submits from one render *)

Module RenderFacts.
Import Async AsyncFacts ConversationPage Observe.



Section FromOneRender.
Variable w : SendWorld.
Variable s : PageState.
Variable token : jsstring.
Variable code : Z.
Variable reader : Reader.
Hypothesis text_present : truthy (trim (newMessage s)) = true.
Hypothesis model_selected : truthy (selectedModel s) = true.
Hypothesis idle : isSending s = false.
Hypothesis backend : usingMock s = false.
Hypothesis existing : conversationId s <> lit "new".
Hypothesis stored : send_token w = Some token.
Hypothesis token_present : truthy token = true.
Hypothesis streaming : stream w = streaming_response code reader.
Hypothesis complete : ending reader = EndOfStream.



End FromOneRender.


End RenderFacts.

(* ===================================================================== *)
(** * The guard of a submit *)

Section DoubleSubmit.
Import Async ConversationPage Observe.

Variable w1 w2 : SendWorld.
Variable s : PageState.
Variable token1 token2 : jsstring.
Variable code1 code2 : Z.
Variable reader1 reader2 : Reader.
Hypothesis text_present : truthy (trim (newMessage s)) = true.
Hypothesis model_selected : truthy (selectedModel s) = true.
Hypothesis idle : isSending s = false.
Hypothesis backend : usingMock s = false.
Hypothesis existing : conversationId s <> lit "new".
Hypothesis stored1 : send_token w1 = Some token1.
Hypothesis stored2 : send_token w2 = Some token2.
Hypothesis token_present1 : truthy token1 = true.
Hypothesis token_present2 : truthy token2 = true.
Hypothesis streaming1 : stream w1 = streaming_response code1 reader1.
Hypothesis streaming2 : stream w2 = streaming_response code2 reader2.
Hypothesis complete1 : ending reader1 = EndOfStream.
Hypothesis complete2 : ending reader2 = EndOfStream.


End DoubleSubmit.


(* ===================================================================== *)
(** * A send whose stream breaks, a send without a token, a send in mock mode *)

Section BrokenStream.
Import Async ConversationPage Observe.

Variable w : SendWorld.
Variable s : PageState.
Variable token : jsstring.
Variable code : Z.
Variable reader : Reader.
Variable readError : thrown.
Hypothesis text_present : truthy (trim (newMessage s)) = true.
Hypothesis model_selected : truthy (selectedModel s) = true.
Hypothesis idle : isSending s = false.
Hypothesis backend : usingMock s = false.
Hypothesis existing : conversationId s <> lit "new".
Hypothesis stored : send_token w = Some token.
Hypothesis token_present : truthy token = true.
Hypothesis streaming : stream w = streaming_response code reader.
Hypothesis breaks : ending reader = ReadFails readError.

(** X8. When the body of the stream breaks after some chunks, the
    send ends with the error of the failed read shown, the input empty
    and [isSending] cleared; the user message is taken out of the
    transcript, while the placeholder stays as its last entry with the
    text decoded up to the break. *)
Theorem broken_stream_keeps_partial_answer :
  let final := fst (fst (run (handleSendMessage w s) s)) in
  let partial :=
    concat (TextDecoder.decode_chunks TextDecoder.create (chunks reader)) in
  messages final =
    removeMessage (Message.id (userMessage_of w s))
      (appendContent (tempAssistantId_of w) partial (messages s))
    ++ [{| Message.id := tempAssistantId_of w;
           Message.role := assistant;
           Message.content := partial;
           Message.created_at := assistant_created_at w;
           Message.conversation_id := IdStr (conversationId s) |}]
  /\ (forall msg, In msg (messages final) ->
        strict_eq (Message.id msg) (Message.id (userMessage_of w s)) = false)
  /\ error final = Some (message_or Text.send_failed readError)
  /\ newMessage final = []
  /\ isSending final = false.
Proof.
  cbv zeta.
  rewrite (@SendFacts.run_send_existing w s text_present model_selected idle
             backend existing).
  cbv zeta. rewrite stored, streaming.
  rewrite (@SendMore.run_stream_of_send w s _ token code reader token_present).
  cbv zeta. rewrite breaks. cbn [fst].
  autorewrite with page_state.
  assert (E : removeMessage (Message.id (userMessage_of w s))
                (appendContent (tempAssistantId_of w)
                   (concat (TextDecoder.decode_chunks TextDecoder.create
                              (chunks reader)))
                   (messages s ++ [userMessage_of w s; tempAssistantMessage_of w s])) =
              removeMessage (Message.id (userMessage_of w s))
                (appendContent (tempAssistantId_of w)
                   (concat (TextDecoder.decode_chunks TextDecoder.create
                              (chunks reader))) (messages s))
              ++ [{| Message.id := tempAssistantId_of w;
                     Message.role := assistant;
                     Message.content :=
                       concat (TextDecoder.decode_chunks TextDecoder.create
                                 (chunks reader));
                     Message.created_at := assistant_created_at w;
                     Message.conversation_id := IdStr (conversationId s) |}]).
  { rewrite SendFacts.appendContent_started, SendMore.removeMessage_app.
    f_equal. unfold removeMessage. cbn [filter Message.id].
    change (IdStr (number_toString (tempId_now w)))
      with (Message.id (userMessage_of w s)).
    rewrite TranscriptFacts.strict_eq_refl.
    change (tempAssistantId_of w) with (Message.id (tempAssistantMessage_of w s)).
    rewrite SendFacts.placeholder_is_not_user. reflexivity. }
  split; [exact E|].
  split; [intros msg; apply SendMore.removeMessage_gone|].
  repeat split; reflexivity.
Qed.

End BrokenStream.

(** X8 at a sample input: the body breaks after "Hi ". *)
Lemma broken_stream_keeps_partial_answer_witness :
  let final :=
    fst (fst (Async.run
                (ConversationPage.handleSendMessage
                   (world_with (Observe.streaming_response 200 broken_after_hi))
                   hello_page) hello_page)) in
  ConversationPage.messages final =
    [{| Message.id := IdStr (lit "assistant-1700000000001");
        Message.role := assistant;
        Message.content := lit "Hi ";
        Message.created_at := lit "2023-11-14T22:13:20.001Z";
        Message.conversation_id := IdStr (lit "1") |}]
  /\ ConversationPage.error final = Some Text.send_failed
  /\ ConversationPage.newMessage final = []
  /\ ConversationPage.isSending final = false.
Proof.
  pose proof (@broken_stream_keeps_partial_answer
                (world_with (Observe.streaming_response 200 broken_after_hi))
                hello_page (lit "secret") 200 broken_after_hi OtherValue
                eq_refl eq_refl eq_refl eq_refl hello_page_exists
                eq_refl eq_refl eq_refl eq_refl) as H.
  cbv zeta in *. destruct H as (H1 & _ & H2 & H3 & H4).
  split; [exact H1|]. split; [exact H2|]. split; [exact H3 | exact H4].
Defined.

Section SendWithoutToken.
Import Async ConversationPage.

Variable w : SendWorld.
Variable s : PageState.
Hypothesis text_present : truthy (trim (newMessage s)) = true.
Hypothesis model_selected : truthy (selectedModel s) = true.
Hypothesis idle : isSending s = false.
Hypothesis backend : usingMock s = false.
Hypothesis nothing_stored : send_token w = None.

(** X9. With no token in storage a send reaches no endpoint, on the
    route "new" as on an existing conversation: the page reports the
    missing token, the user message is taken out of the transcript again
    (on an existing conversation the empty placeholder stays), and the
    text that was typed is gone from the input. *)
Theorem send_without_token :
  let '(s', es, r) := run (handleSendMessage w s) s in
  es = [EPreventDefault]
  /\ error s' = Some Text.no_token
  /\ newMessage s' = []
  /\ isSending s' = false
  /\ messages s' =
     removeMessage (Message.id (userMessage_of w s)) (messages s)
     ++ (if jsstring_eqb (conversationId s) (lit "new") then []
         else [tempAssistantMessage_of w s]).
Proof.
  unfold handleSendMessage.
  rewrite text_present, model_selected, idle, backend, nothing_stored.
  destruct (jsstring_eqb (conversationId s) (lit "new")).
  - cbn -[Text.no_token userMessage_of removeMessage].
    repeat (split; [reflexivity|]).
    rewrite SendMore.removeMessage_app. f_equal.
    unfold removeMessage. cbn [filter].
    rewrite TranscriptFacts.strict_eq_refl. reflexivity.
  - cbn -[Text.no_token userMessage_of tempAssistantMessage_of removeMessage].
    repeat (split; [reflexivity|]).
    rewrite <- app_assoc. apply SendFacts.removeMessage_started.
Qed.

End SendWithoutToken.

(** X9 at a sample input: [hello_page] with nothing stored. *)
Lemma send_without_token_witness :
  let '(s', es, r) :=
    Async.run (ConversationPage.handleSendMessage
                 (Worlds.set_token (world_with http_500) None) hello_page)
      hello_page in
  es = [EPreventDefault]
  /\ ConversationPage.error s' = Some Text.no_token
  /\ ConversationPage.newMessage s' = []
  /\ ConversationPage.isSending s' = false
  /\ ConversationPage.messages s' =
     [ConversationPage.tempAssistantMessage_of
        (Worlds.set_token (world_with http_500) None) hello_page].
Proof.
  exact (@send_without_token (Worlds.set_token (world_with http_500) None)
           hello_page eq_refl eq_refl eq_refl eq_refl eq_refl).
Defined.

Section MockSend.
Import Async ConversationPage.

Variable w : SendWorld.
Variable s : PageState.
Hypothesis text_present : truthy (trim (newMessage s)) = true.
Hypothesis model_selected : truthy (selectedModel s) = true.
Hypothesis idle : isSending s = false.
Hypothesis mock : usingMock s = true.

(** X10. In mock mode a send reaches no endpoint and reads no token,
    whatever the route: the transcript gains the user message and the
    canned reply, and nothing can fail. *)
Theorem mock_send_is_local :
  let '(s', es, r) := run (handleSendMessage w s) s in
  es = [EPreventDefault]
  /\ messages s' =
     messages s ++ [userMessage_of w s; mockAssistantMessage_of w s]
  /\ Message.content (mockAssistantMessage_of w s) = Text.mock_reply
  /\ error s' = error s
  /\ newMessage s' = []
  /\ isSending s' = false
  /\ (forall stored create_answer stream_answer,
        run (handleSendMessage
               (Worlds.set_token
                  (Worlds.set_create (Worlds.set_stream w stream_answer)
                     create_answer) stored) s) s =
        run (handleSendMessage w s) s).
Proof.
  unfold handleSendMessage.
  rewrite text_present, model_selected, idle, mock.
  cbn -[Text.mock_reply userMessage_of mockAssistantMessage_of].
  repeat (split; [reflexivity|]).
  split; [rewrite <- app_assoc; reflexivity|].
  repeat (split; [reflexivity|]).
  intros. reflexivity.
Qed.

End MockSend.

(** X10 at a sample input: [hello_page] in mock mode. *)
Lemma mock_send_is_local_witness :
  let '(s', es, r) :=
    Async.run (ConversationPage.handleSendMessage (world_with http_500) mock_page)
      mock_page in
  es = [EPreventDefault]
  /\ ConversationPage.messages s' =
     [ConversationPage.userMessage_of (world_with http_500) mock_page;
      ConversationPage.mockAssistantMessage_of (world_with http_500) mock_page]
  /\ Message.content
       (ConversationPage.mockAssistantMessage_of (world_with http_500) mock_page) =
     Text.mock_reply
  /\ ConversationPage.error s' = None
  /\ ConversationPage.newMessage s' = []
  /\ ConversationPage.isSending s' = false
  /\ (forall stored create_answer stream_answer,
        Async.run
          (ConversationPage.handleSendMessage
             (Worlds.set_token
                (Worlds.set_create
                   (Worlds.set_stream (world_with http_500) stream_answer)
                   create_answer) stored) mock_page) mock_page =
        Async.run
          (ConversationPage.handleSendMessage (world_with http_500) mock_page)
          mock_page).
Proof.
  exact (@mock_send_is_local (world_with http_500) mock_page
           eq_refl eq_refl eq_refl eq_refl).
Defined.

(* ===================================================================== *)
(** * How the body is cut into chunks *)

Module ChunkFacts.
Import Async AsyncFacts ConversationPage Observe.

(** The text a streaming decoder has produced after a sequence of chunks
    depends on the bytes only, not on where they were cut. *)
Lemma decode_chunks_concat (td : TextDecoder.t) (a b : list (list byte)) :
  concat a = concat b ->
  concat (TextDecoder.decode_chunks td a) =
  concat (TextDecoder.decode_chunks td b).
Proof.
  intros E.
  pose proof (DecoderFacts.decode_chunks_spec td a) as Ha.
  pose proof (DecoderFacts.decode_chunks_spec td b) as Hb.
  rewrite E in Ha.
  destruct (TextDecoder.resumed td) as [d0 bom0].
  destruct (TextDecoder.utf8_run d0 (concat b)) as [d1 out].
  destruct (TextDecoder.serialize bom0 out) as [bom1 out'].
  destruct Ha as [Ha _], Hb as [Hb _]. congruence.
Qed.

End ChunkFacts.

Section Chunking.
Import Async ConversationPage Observe.

Variable w : SendWorld.
Variable s : PageState.
Variable code1 code2 : Z.
Variable reader1 reader2 : Reader.
Hypothesis same_bytes : concat (chunks reader1) = concat (chunks reader2).
Hypothesis same_ending : ending reader1 = ending reader2.

(** X11. Two response bodies that carry the same bytes and end the same
    way leave the page in the same state, send the same request and end
    the same way, however the bytes are cut into chunks (and whatever the
    status code of the [ok] response). *)
Theorem chunking_is_invisible :
  run (handleSendMessage
         (Worlds.set_stream w (streaming_response code1 reader1)) s) s =
  run (handleSendMessage
         (Worlds.set_stream w (streaming_response code2 reader2)) s) s.
Proof.
  destruct (truthy (trim (newMessage s))) eqn:E1.
  2:{ rewrite !SendFacts.handleSendMessage_rejected; auto. }
  destruct (truthy (selectedModel s)) eqn:E2.
  2:{ rewrite !SendFacts.handleSendMessage_rejected; auto. }
  destruct (isSending s) eqn:E3.
  { rewrite !SendFacts.handleSendMessage_rejected; auto. }
  destruct (usingMock s) eqn:E4.
  { unfold handleSendMessage. rewrite E1, E2, E3, E4. reflexivity. }
  destruct (jsstring_eqb (conversationId s) (lit "new")) eqn:E5.
  { unfold handleSendMessage. rewrite E1, E2, E3, E4, E5. reflexivity. }
  assert (existing : conversationId s <> lit "new").
  { intros E. rewrite E in E5. discriminate E5. }
  rewrite !(@SendFacts.run_send_existing _ s E1 E2 E3 E4 existing).
  cbv zeta.
  change (send_token (Worlds.set_stream w (streaming_response code1 reader1)))
    with (send_token w).
  change (send_token (Worlds.set_stream w (streaming_response code2 reader2)))
    with (send_token w).
  change (stream (Worlds.set_stream w (streaming_response code1 reader1)))
    with (streaming_response code1 reader1).
  change (stream (Worlds.set_stream w (streaming_response code2 reader2)))
    with (streaming_response code2 reader2).
  destruct (send_token w) as [token|]; [|reflexivity].
  destruct (truthy token) eqn:Ht.
  2:{ unfold conversationAPI.sendMessageStream, conversationAPI.with_token.
      rewrite Ht. reflexivity. }
  rewrite !(@SendMore.run_stream_of_send _ s _ token _ _ Ht).
  cbv zeta.
  rewrite (ChunkFacts.decode_chunks_concat TextDecoder.create _ _ same_bytes).
  rewrite same_ending. reflexivity.
Qed.

End Chunking.

(** X11 at a sample input: "Hi there!" in three chunks and in one. *)
Lemma chunking_is_invisible_witness :
  Async.run
    (ConversationPage.handleSendMessage
       (Worlds.set_stream (world_with http_500)
          (Observe.streaming_response 200 two_chunks_of_hi_there)) hello_page)
    hello_page =
  Async.run
    (ConversationPage.handleSendMessage
       (Worlds.set_stream (world_with http_500)
          (Observe.streaming_response 206 hi_there_at_once)) hello_page)
    hello_page.
Proof.
  exact (@chunking_is_invisible (world_with http_500) hello_page 200 206
           two_chunks_of_hi_there hi_there_at_once eq_refl eq_refl).
Defined.

(* ===================================================================== *)
(** * Loading the page *)

Module LoadFacts.
Import Async AsyncFacts Frame FrameFacts ConversationPage PageLoad.

Lemma fetchConversationData_throw_free useBackend w snap :
  throw_free (fetchConversationData useBackend w snap) = true.
Proof.
  unfold fetchConversationData.
  cbn [bind update setIsLoading setError setDebugInfo throw_free].
  destruct useBackend; [|reflexivity].
  cbn [negb]. apply throw_free_try_finally; [|reflexivity].
  apply throw_free_try_catch. intros e; reflexivity.
Qed.

Section Writes.
Variable Q : (PageState -> PageState) -> Prop.
Hypothesis Q_messages : forall f, Q (with_messages f).
Hypothesis Q_debugInfo : forall v, Q (with_debugInfo v).
Hypothesis Q_error : forall v, Q (with_error v).
Hypothesis Q_isLoading : forall v, Q (with_isLoading v).
Hypothesis Q_conversation : forall v, Q (with_conversation v).
Hypothesis Q_selectedModel : forall v, Q (with_selectedModel v).
Hypothesis Q_usingMock : Q (with_usingMock true).

(** [fetchConversationData] writes [isLoading], [error], [debugInfo],
    [conversation], [messages] and [selectedModel], and sets
    [usingMock]; it never clears [usingMock]. *)
Lemma fetchConversationData_updates useBackend w snap :
  updates_all Q (fetchConversationData useBackend w snap).
Proof.
  unfold fetchConversationData.
  cbn [bind update setIsLoading setError setDebugInfo updates_all].
  split; [apply Q_isLoading|]. split; [apply Q_error|].
  split; [apply Q_debugInfo|].
  destruct useBackend; cbn [negb].
  2:{ cbn. repeat split; auto. }
  apply updates_all_try_finally; [|apply updates_all_update, Q_isLoading].
  apply updates_all_try_catch.
  2:{ intros e. cbn. repeat split; auto. }
  unfold conversationAPI.with_token.
  destruct (load_token w) as [token|]; [|exact I].
  destruct (truthy token); [|exact I].
  split; [apply Q_debugInfo|].
  apply updates_all_bind; [apply updates_all_none, fetch_no_updates|].
  intros response. cbn [updates_all]. split; [apply Q_debugInfo|].
  destruct (negb (ok response)); [exact I|].
  apply updates_all_bind; [apply updates_all_none, json_no_updates|].
  intros c. cbn [bind update setConversation updates_all].
  split; [apply Q_conversation|].
  apply updates_all_bind.
  { destruct (truthy (Conversation.model c));
      [apply updates_all_update, Q_selectedModel | exact I]. }
  intros _. apply PageFrame.fetchMessages_updates; assumption.
Qed.

End Writes.

End LoadFacts.

Module LoadTable.
Import Async AsyncFacts ConversationPage PageLoad.

(** A load whose conversation request is answered [ok] with a record. *)
Lemma load_answered (w : LoadWorld) (s : PageState) (token : jsstring)
    (code : Z) (c : Conversation.t) :
  load_token w = Some token -> truthy token = true ->
  conversation_answer w = Requests.answers code c ->
  let '(s', es, r) := run (fetchConversationData true w s) s in
  es = [EFetch (conversation_request token (conversationId s));
        EFetch (Requests.messages_request token (conversationId s))]
  /\ conversation s' = Some c
  /\ selectedModel s' =
     (if truthy (Conversation.model c) then Conversation.model c
      else selectedModel s)
  /\ usingMock s' = usingMock s
  /\ (forall code' page,
        messages_answer w = Requests.answers code' page ->
        messages s' = items page /\ error s' = None)
  /\ (forall response,
        messages_answer w = Resolved response -> ok response = false ->
        messages s' = messages s
        /\ error s' =
           Some (Text.messages_api_error ++ number_toString (status response)))
  /\ (forall response e,
        messages_answer w = Resolved response -> ok response = true ->
        content_of response = ParseFails e ->
        messages s' = messages s
        /\ error s' = Some (message_or Text.fetch_messages_failed e))
  /\ (forall e,
        messages_answer w = Rejected e ->
        messages s' = messages s
        /\ error s' = Some (message_or Text.fetch_messages_failed e)).
Proof.
  intros Hs Ht Hn.
  unfold fetchConversationData, conversationAPI.with_token.
  rewrite Hs, Ht, Hn.
  cbn [negb bind update fetch json setIsLoading setError setDebugInfo
       setConversation ok status content_of run Requests.answers].
  rewrite run_try_finally, run_try_catch.
  cbn [bind update perform fetch json setDebugInfo setConversation ok status
       content_of negb run].
  rewrite run_bind.
  match goal with
  | |- context [run (if truthy (Conversation.model c) then ?a else ?b) ?st] =>
      set (st0 := st);
      assert (E : run (if truthy (Conversation.model c) then a else b) st0 =
                  ((if truthy (Conversation.model c)
                    then with_selectedModel (Conversation.model c) st0
                    else st0), [], Returned tt))
        by (destruct (truthy (Conversation.model c)); reflexivity);
      rewrite E; clear E
  end.
  match goal with
  | |- context [run (fetchMessages s (Some token) (messages_answer w)) ?st] =>
      set (st1 := st);
      pose proof (@ReloadAfter.reload_with_token s st1 token (messages_answer w)
                    Ht) as H;
      destruct (run (fetchMessages s (Some token) (messages_answer w)) st1)
        as [[s2 es2] r2]
  end.
  destruct H as (-> & -> & Kc & Km & Ku & _ & H1 & H2 & H3 & H4).
  cbn [run update setIsLoading app].
  assert (E1 : error st1 = None)
    by (subst st1 st0; destruct (truthy (Conversation.model c)); reflexivity).
  assert (E2 : messages st1 = messages s)
    by (subst st1 st0; destruct (truthy (Conversation.model c)); reflexivity).
  rewrite E1, E2 in *.
  split; [reflexivity|].
  split.
  { change (conversation s2 = Some c). rewrite Kc. subst st1 st0.
    destruct (truthy (Conversation.model c)); reflexivity. }
  split.
  { change (selectedModel s2 =
            if truthy (Conversation.model c) then Conversation.model c
            else selectedModel s).
    rewrite Km. subst st1 st0.
    destruct (truthy (Conversation.model c)); reflexivity. }
  split.
  { change (usingMock s2 = usingMock s). rewrite Ku. subst st1 st0.
    destruct (truthy (Conversation.model c)); reflexivity. }
  split; [exact H1|]. split; [exact H2|]. split; [exact H3 | exact H4].
Qed.

End LoadTable.

(** X12. A load of the page never lets an exception escape, always ends
    with [isLoading] cleared, and leaves the input and the sending flag
    alone.  When the backend is not to be used, it sends nothing and shows
    the mock conversation and transcript, in mock mode, with no error.
    When the backend is to be used: with nothing stored it sends nothing,
    and when the conversation request is answered with another status than
    [ok], is rejected or cannot be read, it has sent that one request; in
    all these cases the page shows the mock data in mock mode with no
    error.  When the conversation request is answered [ok] with a record,
    two requests were sent (the conversation, then its messages), the
    record is shown, its model is selected when it names one, the mock
    flag is as it was, and the transcript is what the reload leaves: the
    items of the answered page with no error, or the transcript as before
    with the error of the reload. *)
Theorem load_settles (useBackend : bool) (w : PageLoad.LoadWorld)
    (s : ConversationPage.PageState) :
  let '(s', es, r) :=
    Async.run (PageLoad.fetchConversationData useBackend w s) s in
  r = Async.Returned tt
  /\ ConversationPage.isLoading s' = false
  /\ ConversationPage.newMessage s' = ConversationPage.newMessage s
  /\ ConversationPage.isSending s' = ConversationPage.isSending s
  /\ (useBackend = false -> es = [] /\ PageLoad.fell_back w s s')
  /\ (useBackend = true ->
      (PageLoad.load_token w = None
       \/ (exists token,
             PageLoad.load_token w = Some token /\ truthy token = false) ->
       es = [] /\ PageLoad.fell_back w s s')
      /\ (forall token,
            PageLoad.load_token w = Some token -> truthy token = true ->
            (forall response,
                PageLoad.conversation_answer w = Resolved response ->
                ok response = false ->
                es = [EFetch (PageLoad.conversation_request token
                                (ConversationPage.conversationId s))]
                /\ PageLoad.fell_back w s s')
            /\ (forall response e,
                  PageLoad.conversation_answer w = Resolved response ->
                  ok response = true -> content_of response = ParseFails e ->
                  es = [EFetch (PageLoad.conversation_request token
                                  (ConversationPage.conversationId s))]
                  /\ PageLoad.fell_back w s s')
            /\ (forall e,
                  PageLoad.conversation_answer w = Rejected e ->
                  es = [EFetch (PageLoad.conversation_request token
                                  (ConversationPage.conversationId s))]
                  /\ PageLoad.fell_back w s s')
            /\ (forall code c,
                  PageLoad.conversation_answer w = Requests.answers code c ->
                  es = [EFetch (PageLoad.conversation_request token
                                  (ConversationPage.conversationId s));
                        EFetch (Requests.messages_request token
                                  (ConversationPage.conversationId s))]
                  /\ ConversationPage.conversation s' = Some c
                  /\ ConversationPage.selectedModel s' =
                     (if truthy (Conversation.model c)
                      then Conversation.model c
                      else ConversationPage.selectedModel s)
                  /\ ConversationPage.usingMock s' = ConversationPage.usingMock s
                  /\ (forall code' page,
                        PageLoad.messages_answer w = Requests.answers code' page ->
                        ConversationPage.messages s' = items page
                        /\ ConversationPage.error s' = None)
                  /\ (forall response,
                        PageLoad.messages_answer w = Resolved response ->
                        ok response = false ->
                        ConversationPage.messages s' = ConversationPage.messages s
                        /\ ConversationPage.error s' =
                           Some (Text.messages_api_error
                                   ++ number_toString (status response)))
                  /\ (forall response e,
                        PageLoad.messages_answer w = Resolved response ->
                        ok response = true ->
                        content_of response = ParseFails e ->
                        ConversationPage.messages s' = ConversationPage.messages s
                        /\ ConversationPage.error s' =
                           Some (message_or Text.fetch_messages_failed e))
                  /\ (forall e,
                        PageLoad.messages_answer w = Rejected e ->
                        ConversationPage.messages s' = ConversationPage.messages s
                        /\ ConversationPage.error s' =
                           Some (message_or Text.fetch_messages_failed e))))).
Proof.
  pose proof (Settles.returns_tt _ s
                (LoadFacts.fetchConversationData_throw_free useBackend w s))
    as Hr.
  assert (K : forall T (proj : ConversationPage.PageState -> T),
             (forall f, Frame.keeps proj (ConversationPage.with_messages f)) ->
             (forall v, Frame.keeps proj (ConversationPage.with_debugInfo v)) ->
             (forall v, Frame.keeps proj (ConversationPage.with_error v)) ->
             (forall v, Frame.keeps proj (ConversationPage.with_isLoading v)) ->
             (forall v, Frame.keeps proj (ConversationPage.with_conversation v)) ->
             (forall v, Frame.keeps proj (ConversationPage.with_selectedModel v)) ->
             Frame.keeps proj (PageLoad.with_usingMock true) ->
             proj (fst (fst (Async.run
                               (PageLoad.fetchConversationData useBackend w s)
                               s))) = proj s).
  { intros. apply FrameFacts.keeps_run, LoadFacts.fetchConversationData_updates;
      assumption. }
  pose proof (K _ ConversationPage.newMessage
                ltac:(intros; intro; reflexivity) ltac:(intros; intro; reflexivity)
                ltac:(intros; intro; reflexivity) ltac:(intros; intro; reflexivity)
                ltac:(intros; intro; reflexivity) ltac:(intros; intro; reflexivity)
                ltac:(intro; reflexivity)) as K1.
  pose proof (K _ ConversationPage.isSending
                ltac:(intros; intro; reflexivity) ltac:(intros; intro; reflexivity)
                ltac:(intros; intro; reflexivity) ltac:(intros; intro; reflexivity)
                ltac:(intros; intro; reflexivity) ltac:(intros; intro; reflexivity)
                ltac:(intro; reflexivity)) as K2.
  clear K.
  assert (L : ConversationPage.isLoading
                (fst (fst (Async.run
                             (PageLoad.fetchConversationData useBackend w s) s))) =
              false).
  { unfold PageLoad.fetchConversationData.
    cbn [Async.bind Async.update ConversationPage.setIsLoading
         ConversationPage.setError ConversationPage.setDebugInfo Async.run].
    destruct useBackend; [|reflexivity].
    cbn [negb]. rewrite AsyncFacts.run_try_finally.
    match goal with
    | |- context [Async.run (Async.try_catch ?m ?h) ?st] =>
        destruct (Async.run (Async.try_catch m h) st) as [[s1 es1] r1]
    end.
    reflexivity. }
  destruct useBackend.
  2:{ assert (F : snd (fst (Async.run
                              (PageLoad.fetchConversationData false w s) s)) = []
                  /\ PageLoad.fell_back w s
                       (fst (fst (Async.run
                                    (PageLoad.fetchConversationData false w s)
                                    s)))).
      { unfold PageLoad.fell_back. cbn. repeat split; reflexivity. }
      destruct (Async.run (PageLoad.fetchConversationData false w s) s)
        as [[s' es] r].
      cbn [fst snd] in *.
      split; [exact Hr|]. split; [exact L|]. split; [exact K1|].
      split; [exact K2|]. split; [intros _; exact F | discriminate]. }
  pose proof (fun token code c Hs Ht Hn =>
                @LoadTable.load_answered w s token code c Hs Ht Hn) as A.
  assert (F : match PageLoad.load_token w, PageLoad.conversation_answer w with
              | Some token, Resolved {| ok := true; content_of := Parsed _ |} =>
                  truthy token = false ->
                  snd (fst (Async.run
                              (PageLoad.fetchConversationData true w s) s)) = []
                  /\ PageLoad.fell_back w s
                       (fst (fst (Async.run
                                    (PageLoad.fetchConversationData true w s) s)))
              | Some token, _ =>
                  (if truthy token
                   then snd (fst (Async.run
                                    (PageLoad.fetchConversationData true w s) s)) =
                        [EFetch (PageLoad.conversation_request token
                                   (ConversationPage.conversationId s))]
                   else snd (fst (Async.run
                                    (PageLoad.fetchConversationData true w s) s)) =
                        [])
                  /\ PageLoad.fell_back w s
                       (fst (fst (Async.run
                                    (PageLoad.fetchConversationData true w s) s)))
              | None, _ =>
                  snd (fst (Async.run
                              (PageLoad.fetchConversationData true w s) s)) = []
                  /\ PageLoad.fell_back w s
                       (fst (fst (Async.run
                                    (PageLoad.fetchConversationData true w s) s)))
              end).
  { unfold PageLoad.fetchConversationData, conversationAPI.with_token,
      PageLoad.fell_back.
    destruct (PageLoad.load_token w) as [token|];
      [|cbn; repeat split; reflexivity].
    destruct (PageLoad.conversation_answer w) as [[is_ok code [c|e]]|e];
      try destruct is_ok; try intros Hf; try rewrite Hf;
      destruct (truthy token); cbn; repeat split; reflexivity. }
  destruct (Async.run (PageLoad.fetchConversationData true w s) s)
    as [[s' es] r].
  cbn [fst snd] in *.
  split; [exact Hr|]. split; [exact L|]. split; [exact K1|].
  split; [exact K2|].
  split; [discriminate|].
  intros _. split.
  { intros [Hn|[t [Hs Ht]]].
    - rewrite Hn in F. exact F.
    - rewrite Hs in F.
      destruct (PageLoad.conversation_answer w) as [[is_ok code [c|e]]|e];
        try destruct is_ok; try (rewrite Ht in F; exact F); auto. }
  intros token Hs Ht. rewrite Hs in F.
  split.
  { intros response Hn Hok. rewrite Hn in F.
    destruct response as [is_ok code body]. cbn [ok] in Hok. subst is_ok.
    rewrite Ht in F. destruct body; exact F. }
  split.
  { intros response e Hn Hok Hb. rewrite Hn in F.
    destruct response as [is_ok code body]. cbn [ok content_of] in Hok, Hb.
    subst is_ok body. rewrite Ht in F. exact F. }
  split.
  { intros e Hn. rewrite Hn in F. rewrite Ht in F. exact F. }
  intros code c Hn. exact (A token code c Hs Ht Hn).
Qed.

Section MockMode.
Import Async ConversationPage.

Variable st : PageState.
Hypothesis in_mock_mode : usingMock st = true.

(** X13. Mock mode is never left: from a state in mock mode, a load
    (with or without the backend, whatever it answers), a model switch, a
    send and a reload of the transcript all end in mock mode. *)
Theorem mock_mode_is_never_left :
  (forall useBackend w snap,
      usingMock (fst (fst (run (PageLoad.fetchConversationData useBackend w snap)
                             st))) = true)
  /\ (forall w snap modelId,
        usingMock (fst (fst (run (handleModelChange w snap modelId) st))) = true)
  /\ (forall w snap,
        usingMock (fst (fst (run (handleSendMessage w snap) st))) = true)
  /\ (forall snap stored net,
        usingMock (fst (fst (run (fetchMessages snap stored net) st))) = true).
Proof.
  split; [|split; [|split]]; intros.
  - apply (FrameFacts.preserved_run (fun x => usingMock x = true));
      [|exact in_mock_mode].
    apply LoadFacts.fetchConversationData_updates; cbv beta; intros;
      first [assumption | reflexivity].
  - destruct (@PageFrame.handleModelChange_updates
                (Frame.keeps usingMock)
                ltac:(intros; intro; reflexivity)
                ltac:(intros; intro; reflexivity)
                ltac:(intros; intro; reflexivity)
                ltac:(intros; intro; reflexivity)
                ltac:(intros; intro; reflexivity) w snap modelId)
      as [rest [E Hrest]].
    rewrite E. cbn [run].
    rewrite (FrameFacts.keeps_run usingMock rest _ Hrest). exact in_mock_mode.
  - rewrite FrameFacts.keeps_run; [exact in_mock_mode|].
    apply PageFrame.handleSendMessage_updates; intros; intro; reflexivity.
  - rewrite FrameFacts.keeps_run; [exact in_mock_mode|].
    apply PageFrame.fetchMessages_updates; intros; intro; reflexivity.
Qed.

End MockMode.

(** X13 at a sample input: [hello_page] in mock mode. *)
Lemma mock_mode_is_never_left_witness :
  (forall useBackend w snap,
      ConversationPage.usingMock
        (fst (fst (Async.run (PageLoad.fetchConversationData useBackend w snap)
                     mock_page))) = true)
  /\ (forall w snap modelId,
        ConversationPage.usingMock
          (fst (fst (Async.run (ConversationPage.handleModelChange w snap modelId)
                       mock_page))) = true)
  /\ (forall w snap,
        ConversationPage.usingMock
          (fst (fst (Async.run (ConversationPage.handleSendMessage w snap)
                       mock_page))) = true)
  /\ (forall snap stored net,
        ConversationPage.usingMock
          (fst (fst (Async.run (ConversationPage.fetchMessages snap stored net)
                       mock_page))) = true).
Proof.
  exact (@mock_mode_is_never_left mock_page eq_refl).
Defined.

(* ===================================================================== *)
(** * The session in the browser *)

(** X14. [checkAuthStatus] never throws and never navigates.  With
    nothing stored, or an empty token, it sends no request, leaves the
    storage alone and answers [false].  With a token it sends exactly one
    request, which presents that token, and then: when the server answers
    [ok] it answers [true] and leaves the storage alone; when the server
    answers with another status it removes the token and the user entry
    and answers [false]; when the request itself fails it leaves the
    storage alone and answers [false]. *)
Theorem checkAuthStatus_settles (b : Browser.t) (net : fetch_result unit) :
  let '(b', es, r) := Async.run (Browser.checkAuthStatus b net) b in
  exists answer,
    r = Async.Returned answer
    /\ Browser.href b' = Browser.href b
    /\ (Browser.auth_token b = None
        \/ (exists token,
              Browser.auth_token b = Some token /\ truthy token = false) ->
        es = [] /\ b' = b /\ answer = false)
    /\ (forall token, Browser.auth_token b = Some token ->
        truthy token = true ->
        es = [EFetch (Browser.test_token_request token)]
        /\ (forall response, net = Resolved response -> ok response = true ->
            b' = b /\ answer = true)
        /\ (forall response, net = Resolved response -> ok response = false ->
            b' = Browser.remove_user (Browser.remove_auth_token b)
            /\ Browser.auth_token b' = None /\ Browser.user b' = None
            /\ answer = false)
        /\ (forall e, net = Rejected e -> b' = b /\ answer = false))
    /\ (answer = true ->
        exists token response,
          Browser.auth_token b = Some token /\ truthy token = true
          /\ net = Resolved response /\ ok response = true).
Proof.
  unfold Browser.checkAuthStatus.
  destruct (Browser.auth_token b) as [token|] eqn:Hs.
  2:{ cbn. exists false. settle_case. }
  destruct (truthy token) eqn:Ht.
  2:{ cbn. exists false. settle_case. }
  destruct net as [[is_ok code []]|e]; [destruct is_ok|].
  - cbn. exists true. settle_case.
    eexists token, _. repeat split; try reflexivity; exact Ht.
  - cbn. exists false. settle_case.
  - cbn. exists false. settle_case.
Qed.

(** X15. [login] sends one request, the form with the two fields, and
    never writes the user entry or navigates.  It throws, with the storage
    as before, when the answer is not [ok] (the error names the status),
    when the request is rejected, when the body cannot be read, and when
    the body is [null].  In every other case it returns the body and has
    stored, as the token, the conversion to a string of what
    [access_token] reads in the body; a [checkAuthStatus] that follows
    presents that string when it is not empty.  In particular an [ok]
    answer without an [access_token] makes [login] return with the token
    "undefined" stored, which [checkAuthStatus] then presents. *)
Theorem login_stores_token (username password : jsstring)
    (net : fetch_result (parsed Browser.LoginData)) (b : Browser.t) :
  let '(b', es, r) := Async.run (Browser.login username password net) b in
  es = [EFetch (Browser.login_request username password)]
  /\ Browser.user b' = Browser.user b
  /\ Browser.href b' = Browser.href b
  /\ (forall response, net = Resolved response -> ok response = false ->
      b' = b
      /\ r = Async.Threw (ErrorObj (MoreText.login_failed_colon
                                      ++ number_toString (status response))))
  /\ (forall e, net = Rejected e -> b' = b /\ r = Async.Threw e)
  /\ (forall response e,
        net = Resolved response -> ok response = true ->
        content_of response = ParseFails e ->
        b' = b /\ r = Async.Threw e)
  /\ (forall code message,
        net = Requests.answers code (Browser.Null message) ->
        b' = b /\ r = Async.Threw (ErrorObj message))
  /\ (forall code value,
        net = Requests.answers code (Browser.Data value) ->
        r = Async.Returned (Browser.Data value)
        /\ Browser.auth_token b' = Some (Browser.to_string value)
        /\ (truthy (Browser.to_string value) = true ->
            forall net',
              snd (fst (Async.run (Browser.checkAuthStatus b' net') b')) =
              [EFetch (Browser.test_token_request (Browser.to_string value))]))
  /\ (forall code,
        net = Requests.answers code (Browser.Data Browser.Undefined) ->
        Browser.auth_token b' = Some (lit "undefined")
        /\ forall net',
             snd (fst (Async.run (Browser.checkAuthStatus b' net') b')) =
             [EFetch (Browser.test_token_request (lit "undefined"))]).
Proof.
  assert (C : forall (token : jsstring) (b0 : Browser.t) net',
             truthy token = true ->
             snd (fst (Async.run
                         (Browser.checkAuthStatus
                            (Browser.set_auth_token token b0) net')
                         (Browser.set_auth_token token b0))) =
             [EFetch (Browser.test_token_request token)]).
  { intros token b0 net' Ht. unfold Browser.checkAuthStatus.
    cbn [Browser.auth_token Browser.set_auth_token]. rewrite Ht.
    destruct net' as [[is_ok' code' []]|e']; [destruct is_ok'|]; reflexivity. }
  unfold Browser.login.
  destruct net as [[is_ok code [[message|value]|e]]|e]; try destruct is_ok;
    cbn -[MoreText.login_failed_colon number_toString Browser.to_string];
    settle_case;
    try (apply C; assumption);
    try (apply (C (lit "undefined")); reflexivity).
Qed.

(** X16. After [logout] the token and the user entry are gone and the
    browser is at "/login"; [logout] itself sends nothing.  From then on
    [checkAuthStatus] answers [false] without a request, and every
    function of [conversationAPI] that needs the token throws the
    missing-token error without a request. *)
Theorem logout_ends_session (b : Browser.t) :
  let '(b', es, r) := Async.run Browser.logout b in
  r = Async.Returned tt
  /\ es = []
  /\ Browser.auth_token b' = None
  /\ Browser.user b' = None
  /\ Browser.href b' = lit "/login"
  /\ (forall net,
        Async.run (Browser.checkAuthStatus b' net) b' =
        (b', [], Async.Returned false))
  /\ (forall content model net,
        Async.attempt
          (conversationAPI.createConversation (Browser.auth_token b')
             content model net) =
        ([], Async.Threw (ErrorObj Text.no_token)))
  /\ (forall conversationId modelId net,
        Async.attempt
          (conversationAPI.updateConversationModel (Browser.auth_token b')
             conversationId modelId net) =
        ([], Async.Threw (ErrorObj Text.no_token)))
  /\ (forall conversationId net,
        Async.attempt
          (conversationAPI.resetConversation (Browser.auth_token b')
             conversationId net) =
        ([], Async.Threw (ErrorObj Text.no_token)))
  /\ (forall conversationId content net,
        Observe.observe (Browser.auth_token b') conversationId content net =
        ([], [], Async.Threw (ErrorObj Text.no_token))).
Proof.
  cbn -[Text.no_token]. repeat split; reflexivity.
Qed.

(* ===================================================================== *)
(** * Installing a plugin *)

Module InstallFacts.
Import PluginBrowse.

Lemma markInstalled_ids (pluginId : jsstring) (prev : list MCPPlugin) :
  map id (markInstalled pluginId prev) = map id prev.
Proof.
  unfold markInstalled. rewrite map_map. apply map_ext.
  intros p. destruct (jsstring_eqb (id p) pluginId); reflexivity.
Qed.

Lemma markInstalled_nth (pluginId : jsstring) (prev : list MCPPlugin)
    (i : nat) (p : MCPPlugin) :
  nth_error prev i = Some p ->
  exists p',
    nth_error (markInstalled pluginId prev) i = Some p'
    /\ id p' = id p /\ name p' = name p /\ description p' = description p
    /\ author p' = author p /\ version p' = version p
    /\ downloads p' = downloads p /\ tags p' = tags p
    /\ createdAt p' = createdAt p /\ updatedAt p' = updatedAt p
    /\ repository p' = repository p
    /\ isInstalled p' = (jsstring_eqb (id p) pluginId || isInstalled p).
Proof.
  intros H. unfold markInstalled. rewrite nth_error_map, H. cbn [option_map].
  eexists; split; [reflexivity|].
  destruct (jsstring_eqb (id p) pluginId); cbn; repeat split; reflexivity.
Qed.

End InstallFacts.

(** X17. Marking a plugin as installed keeps the number, the order and
    every other field of the plugins; the entry at each position is
    installed afterwards exactly when its id is the given one or it was
    installed before; and marking twice is marking once. *)
Theorem markInstalled_spec (pluginId : jsstring)
    (prev : list PluginBrowse.MCPPlugin) :
  length (PluginBrowse.markInstalled pluginId prev) = length prev
  /\ map PluginBrowse.id (PluginBrowse.markInstalled pluginId prev) =
     map PluginBrowse.id prev
  /\ (forall i p, nth_error prev i = Some p ->
      exists p',
        nth_error (PluginBrowse.markInstalled pluginId prev) i = Some p'
        /\ PluginBrowse.id p' = PluginBrowse.id p
        /\ PluginBrowse.name p' = PluginBrowse.name p
        /\ PluginBrowse.description p' = PluginBrowse.description p
        /\ PluginBrowse.author p' = PluginBrowse.author p
        /\ PluginBrowse.version p' = PluginBrowse.version p
        /\ PluginBrowse.downloads p' = PluginBrowse.downloads p
        /\ PluginBrowse.tags p' = PluginBrowse.tags p
        /\ PluginBrowse.createdAt p' = PluginBrowse.createdAt p
        /\ PluginBrowse.updatedAt p' = PluginBrowse.updatedAt p
        /\ PluginBrowse.repository p' = PluginBrowse.repository p
        /\ PluginBrowse.isInstalled p' =
           (jsstring_eqb (PluginBrowse.id p) pluginId
            || PluginBrowse.isInstalled p))
  /\ PluginBrowse.markInstalled pluginId
       (PluginBrowse.markInstalled pluginId prev) =
     PluginBrowse.markInstalled pluginId prev.
Proof.
  split; [apply length_map|].
  split; [apply InstallFacts.markInstalled_ids|].
  split; [intros i p; apply InstallFacts.markInstalled_nth|].
  unfold PluginBrowse.markInstalled. rewrite map_map. apply map_ext.
  intros p. destruct (jsstring_eqb (PluginBrowse.id p) pluginId) eqn:E;
    cbn [PluginBrowse.id]; rewrite E; reflexivity.
Qed.

(** X18. [handleInstall] never lets an exception escape.  It sends one
    request, to the install endpoint of the plugin without the repository
    flag, shows exactly one toast, leaves the error of the component alone
    and ends with [isInstalling] cleared.  When the answer is [ok] and its
    body reports success, the toast is the success toast naming the plugin
    and the plugin is marked as installed.  In every other case the list
    of plugins is as before and the toast is an error toast: with the
    message of the body (or the unknown-error text when it has none) when
    the body reports no success, with the status when the answer is not
    [ok], and with the message of what was thrown when the request is
    rejected or the body cannot be read. *)
Theorem handleInstall_settles (stored : option jsstring)
    (net : fetch_result (parsed ApiMore.InstallResult))
    (plugin : PluginBrowse.MCPPlugin) (s : PluginBrowse.State) :
  let '(s', es, r) :=
    Async.run (PluginBrowse.handleInstall stored net plugin) s in
  r = Async.Returned tt
  /\ es = [EFetch (ApiMore.install_request stored (PluginBrowse.id plugin) false)]
  /\ PluginBrowse.isInstalling s' = None
  /\ PluginBrowse.error s' = PluginBrowse.error s
  /\ exists shown,
       PluginBrowse.toasts s' = PluginBrowse.toasts s ++ [shown]
       /\ (forall code result,
             net = Requests.answers code result ->
             ApiMore.success result = true ->
             shown = PluginBrowse.ToastSuccess
                       (MoreText.toast_installed ++ PluginBrowse.name plugin)
             /\ PluginBrowse.plugins s' =
                PluginBrowse.markInstalled (PluginBrowse.id plugin)
                  (PluginBrowse.plugins s))
       /\ (forall code result,
             net = Requests.answers code result ->
             ApiMore.success result = false ->
             shown = PluginBrowse.ToastError
                       (MoreText.toast_install_failed
                          ++ (if truthy (ApiMore.message result)
                              then ApiMore.message result
                              else Text.unknown_error))
             /\ PluginBrowse.plugins s' = PluginBrowse.plugins s)
       /\ (forall response,
             net = Resolved response -> ok response = false ->
             shown = PluginBrowse.ToastError
                       (MoreText.install_failed_colon
                          ++ number_toString (status response))
             /\ PluginBrowse.plugins s' = PluginBrowse.plugins s)
       /\ (forall response e,
             net = Resolved response -> ok response = true ->
             content_of response = ParseFails e ->
             shown = PluginBrowse.ToastError
                       (message_or MoreText.install_plugin_failed e)
             /\ PluginBrowse.plugins s' = PluginBrowse.plugins s)
       /\ (forall e,
             net = Rejected e ->
             shown = PluginBrowse.ToastError
                       (message_or MoreText.install_plugin_failed e)
             /\ PluginBrowse.plugins s' = PluginBrowse.plugins s)
       /\ (PluginBrowse.plugins s' <> PluginBrowse.plugins s ->
           exists code result,
             net = Requests.answers code result
             /\ ApiMore.success result = true).
Proof.
  unfold PluginBrowse.handleInstall, ApiMore.installPlugin.
  destruct net as [[is_ok code [[succeeded text]|e]]|e];
    [destruct is_ok; [destruct succeeded|]| |];
    try destruct is_ok;
    cbn -[MoreText.toast_installed MoreText.toast_install_failed
          MoreText.install_plugin_failed MoreText.install_failed_colon
          Text.unknown_error ApiMore.install_request number_toString
          PluginBrowse.markInstalled];
    do 4 (split; [reflexivity|]);
    eexists; (split; [reflexivity|]);
    settle_case;
    cbn [ApiMore.success ApiMore.message] in *;
    try discriminate; try reflexivity;
    try match goal with H : ?x <> ?x |- _ => destruct (H eq_refl) end.
  eexists _, _. split; reflexivity.
Qed.

(* ===================================================================== *)
(** * A well-formed body, end to end *)

Section WellFormedBody.
Import Async ConversationPage Observe.

Variable w : SendWorld.
Variable s : PageState.
Variable token : jsstring.
Variable code : Z.
Variable reader : Reader.
Variable text : list Z.
Hypothesis text_present : truthy (trim (newMessage s)) = true.
Hypothesis model_selected : truthy (selectedModel s) = true.
Hypothesis idle : isSending s = false.
Hypothesis backend : usingMock s = false.
Hypothesis existing : conversationId s <> lit "new".
Hypothesis stored : send_token w = Some token.
Hypothesis token_present : truthy token = true.
Hypothesis streaming : stream w = streaming_response code reader.
Hypothesis complete : ending reader = EndOfStream.
Hypothesis scalars : forallb Utf8.scalar text = true.
Hypothesis encoded : concat (chunks reader) = Utf8.encode_text text.

(** X19. When the body of the stream is the UTF-8 encoding of a text,
    cut into chunks at any bytes (inside a character too), and the stream
    ends, the placeholder ends with exactly that text as its content (in
    UTF-16, without a leading byte order mark), the send has made one
    request, and no error is set. *)
Theorem wellformed_body_is_shown :
  let '(s', es, r) := run (handleSendMessage w s) s in
  nth_error (messages s') (length (messages s) + 1) =
    Some {| Message.id := tempAssistantId_of w;
            Message.role := assistant;
            Message.content :=
              TextDecoder.to_jsstring (snd (TextDecoder.serialize false text));
            Message.created_at := assistant_created_at w;
            Message.conversation_id := IdStr (conversationId s) |}
  /\ es = [EPreventDefault;
           EFetch (conversationAPI.stream_request token
                     (IdStr (conversationId s)) (newMessage s))]
  /\ error s' = error s
  /\ isSending s' = false.
Proof.
  rewrite (@SendFacts.run_send_existing w s text_present model_selected idle
             backend existing).
  cbv zeta. rewrite stored, streaming.
  rewrite (@SendMore.run_stream_of_send w s _ token code reader token_present).
  cbv zeta. rewrite complete.
  destruct (EncodingFacts.wellformed_chunks (chunks reader) text scalars encoded)
    as [_ ->].
  split; [|repeat split; reflexivity].
  autorewrite with page_state.
  rewrite SendFacts.appendContent_started.
  rewrite nth_error_app2; rewrite TranscriptFacts.appendContent_length; [|lia].
  replace (length (messages s) + 1 - length (messages s))%nat with 1%nat by lia.
  reflexivity.
Qed.

End WellFormedBody.

(** X19 at a sample input: the three bytes of U+4F60, cut after the
    first. *)
Lemma wellformed_body_is_shown_witness :
  let '(s', es, r) :=
    Async.run
      (ConversationPage.handleSendMessage
         (world_with (Observe.streaming_response 200 split_character))
         hello_page) hello_page in
  nth_error (ConversationPage.messages s') 1 =
    Some {| Message.id := IdStr (lit "assistant-1700000000001");
            Message.role := assistant;
            Message.content := [20320];
            Message.created_at := lit "2023-11-14T22:13:20.001Z";
            Message.conversation_id := IdStr (lit "1") |}
  /\ es = [EPreventDefault;
           EFetch (conversationAPI.stream_request (lit "secret")
                     (IdStr (lit "1")) (lit "Hello"))]
  /\ ConversationPage.error s' = None
  /\ ConversationPage.isSending s' = false.
Proof.
  exact (@wellformed_body_is_shown
           (world_with (Observe.streaming_response 200 split_character))
           hello_page (lit "secret") 200 split_character [20320]
           eq_refl eq_refl eq_refl eq_refl hello_page_exists
           eq_refl eq_refl eq_refl eq_refl eq_refl eq_refl).
Defined.

(* ===================================================================== *)
(** * The page after a send on the route "new" *)

Section CreationStatus.
Import Async ConversationPage.

Variable w : SendWorld.
Variable s : PageState.
Variable response1 response2 : Response (parsed Conversation.t).
Hypothesis same_body : content_of response1 = content_of response2.

(** X20. A send never looks at the status of the answer to the creation
    request: two answers with the same body leave the page in the same
    state with the same effects, whatever their [ok] flags and status
    codes are. *)
Theorem creation_ignores_status :
  run (handleSendMessage (Worlds.set_create w (Resolved response1)) s) s =
  run (handleSendMessage (Worlds.set_create w (Resolved response2)) s) s.
Proof.
  unfold handleSendMessage.
  destruct (negb (truthy (trim (newMessage s)))
            || negb (truthy (selectedModel s)) || isSending s);
    [reflexivity|].
  destruct (usingMock s); [reflexivity|].
  destruct (jsstring_eqb (conversationId s) (lit "new")); [|reflexivity].
  unfold conversationAPI.createConversation, conversationAPI.with_token.
  change (send_token (Worlds.set_create w (Resolved response1)))
    with (send_token w).
  change (send_token (Worlds.set_create w (Resolved response2)))
    with (send_token w).
  destruct (send_token w) as [token|]; [|reflexivity].
  destruct (truthy token); [|reflexivity].
  cbn [create Worlds.set_create fetch bind json].
  rewrite same_body. reflexivity.
Qed.

End CreationStatus.

(** X20 at a sample input: the same record with status 201 and 500. *)
Lemma creation_ignores_status_witness :
  Async.run
    (ConversationPage.handleSendMessage
       (Worlds.set_create creating_world (Resolved created_201)) new_page)
    new_page =
  Async.run
    (ConversationPage.handleSendMessage
       (Worlds.set_create creating_world (Resolved created_500)) new_page)
    new_page.
Proof.
  exact (@creation_ignores_status creating_world new_page created_201
           created_500 eq_refl).
Defined.

Section NewConversationPage.
Import Async ConversationPage.

Variable w : SendWorld.
Variable s : PageState.
Variable token : jsstring.
Hypothesis text_present : truthy (trim (newMessage s)) = true.
Hypothesis model_selected : truthy (selectedModel s) = true.
Hypothesis idle : isSending s = false.
Hypothesis backend : usingMock s = false.
Hypothesis marker : conversationId s = lit "new".
Hypothesis stored : send_token w = Some token.
Hypothesis token_present : truthy token = true.

(** X21. What a send on the route "new" leaves on the page: the input is
    empty and [isSending] is cleared, and no placeholder is appended.
    When the answer to the creation request has a body that is read as a
    conversation record, the user message stays as the last entry of the
    transcript and the error is as it was.  When the request is rejected,
    or reading the body throws, the user message is taken out again and
    the message of what was thrown is shown. *)
Theorem new_conversation_page :
  let s' := fst (fst (run (handleSendMessage w s) s)) in
  newMessage s' = []
  /\ isSending s' = false
  /\ (forall response newConversation,
        create w = Resolved response ->
        content_of response = Parsed newConversation ->
        messages s' = messages s ++ [userMessage_of w s]
        /\ error s' = error s)
  /\ (forall response e,
        create w = Resolved response ->
        content_of response = ParseFails e ->
        messages s' =
          removeMessage (Message.id (userMessage_of w s)) (messages s)
        /\ error s' = Some (message_or Text.send_failed e))
  /\ (forall e,
        create w = Rejected e ->
        messages s' =
          removeMessage (Message.id (userMessage_of w s)) (messages s)
        /\ error s' = Some (message_or Text.send_failed e)).
Proof.
  cbv zeta. unfold handleSendMessage.
  rewrite text_present, model_selected, idle, backend, marker.
  change (jsstring_eqb (lit "new") (lit "new")) with true.
  unfold conversationAPI.createConversation, conversationAPI.with_token.
  rewrite stored, token_present.
  assert (R : removeMessage (Message.id (userMessage_of w s))
                (messages s ++ [userMessage_of w s]) =
              removeMessage (Message.id (userMessage_of w s)) (messages s)).
  { rewrite SendMore.removeMessage_app. unfold removeMessage at 2.
    cbn [filter]. rewrite TranscriptFacts.strict_eq_refl.
    cbn [negb]. apply app_nil_r. }
  destruct (create w) as [[is_ok code [c|e]]|e];
    cbn -[userMessage_of removeMessage Text.send_failed];
    settle_case; exact R.
Qed.

End NewConversationPage.

(** X21 at a sample input: the creation succeeds. *)
Lemma new_conversation_page_witness :
  let s' :=
    fst (fst (Async.run
                (ConversationPage.handleSendMessage creating_world new_page)
                new_page)) in
  ConversationPage.newMessage s' = []
  /\ ConversationPage.isSending s' = false
  /\ ConversationPage.messages s' =
     [ConversationPage.userMessage_of creating_world new_page]
  /\ ConversationPage.error s' = None.
Proof.
  pose proof (@new_conversation_page creating_world new_page (lit "secret")
                eq_refl eq_refl eq_refl eq_refl eq_refl eq_refl eq_refl) as H.
  cbv zeta in *. destruct H as (H1 & H2 & H3 & _).
  split; [exact H1|]. split; [exact H2|].
  exact (H3 _ created_conversation eq_refl eq_refl).
Defined.
